(** * TaskManagerV2: the policy-enforced task store and its client hook

    A shallow embedding of
    - [supabase/migrations/20251216092500_...sql]: the four tables, their
      column constraints and foreign keys, the row-level security (RLS)
      policies, [has_role], [get_user_role], [handle_new_user] and
      [update_updated_at_column];
    - [hooks/useTasks] ([fetchTasks], [createTask], [updateTask],
      [updateTaskStatus], [deleteTask]);
    - [components/tasks/TaskForm.tsx] ([taskSchema], [handleSubmit]) and
      [pages/Dashboard.tsx] ([handleFormSubmit]).

    A table is the list of its rows in storage order.  Every request of the
    client library runs as one database transaction: it either commits a
    new store or fails and leaves the store as it was. *)

From Stdlib Require Import Ascii String List ZArith Bool Lia Permutation Sorted.
Import ListNotations.
Local Open Scope string_scope.
Local Open Scope Z_scope.

(** ** Values *)

(** [UUID] columns; the client sees them as strings. *)
Definition uuid := string.

(** [TIMESTAMP WITH TIME ZONE], as an instant on the integer time line. *)
Definition timestamptz := Z.

(** [CREATE TYPE public.task_status AS ENUM ('todo', 'in_progress', 'completed')] *)
Inductive task_status := todo | in_progress | completed.

(** [CREATE TYPE public.app_role AS ENUM ('manager', 'user')] *)
Inductive app_role := manager | user.

Definition app_role_eqb (a b : app_role) : bool :=
  match a, b with
  | manager, manager | user, user => true
  | _, _ => false
  end.

(** The text-to-enum cast [(...)::app_role]: the two labels are accepted,
    every other text is an error ([None] here). *)
Definition app_role_of_text (s : string) : option app_role :=
  if String.eqb s "manager" then Some manager
  else if String.eqb s "user" then Some user
  else None.

(** ** SQL's three-valued logic

    A comparison with [NULL] is unknown; a policy or [CHECK] expression
    is a value of [sqlbool].  A row passes a policy when the expression is
    true, and passes a [CHECK] constraint when it is not false. *)
Definition sqlbool := option bool.

Definition sql_and (a b : sqlbool) : sqlbool :=
  match a, b with
  | Some false, _ | _, Some false => Some false
  | Some true, Some true => Some true
  | _, _ => None
  end.

Definition sql_or (a b : sqlbool) : sqlbool :=
  match a, b with
  | Some true, _ | _, Some true => Some true
  | Some false, Some false => Some false
  | _, _ => None
  end.

Definition sql_eq (a b : option uuid) : sqlbool :=
  match a, b with
  | Some x, Some y => Some (String.eqb x y)
  | _, _ => None
  end.

Definition sql_leZ (a b : option Z) : sqlbool :=
  match a, b with
  | Some x, Some y => Some (x <=? y)
  | _, _ => None
  end.

(** [USING] / [WITH CHECK]: the row passes when the expression is true. *)
Definition policy_passes (e : sqlbool) : bool :=
  match e with Some true => true | _ => false end.

(** [CHECK (...)]: the row passes unless the expression is false. *)
Definition check_passes (e : sqlbool) : bool :=
  match e with Some false => false | _ => true end.

(** ** Rows *)

Module Profile.
Record t := mk {
  id : uuid;
  email : string;
  full_name : option string;
  avatar_url : option string;
  created_at : timestamptz;
  updated_at : timestamptz }.
End Profile.

Module UserRole.
Record t := mk {
  id : uuid;
  user_id : uuid;
  role : app_role;
  created_at : timestamptz }.
End UserRole.

Module Task.
Record t := mk {
  id : uuid;
  title : string;
  description : option string;
  status : task_status;
  priority : option Z;
  created_by : uuid;
  assigned_to : option uuid;
  due_date : option timestamptz;
  created_at : timestamptz;
  updated_at : timestamptz }.
End Task.

(** [old_value] and [new_value] are [JSONB]; the hook stores task rows in
    them, so a snapshot is a task row. *)
Definition jsonb := Task.t.

Module ActivityLog.
Record t := mk {
  id : uuid;
  task_id : uuid;
  user_id : option uuid;
  action : string;
  old_value : option jsonb;
  new_value : option jsonb;
  created_at : timestamptz }.
End ActivityLog.

(** A row of [auth.users], as far as [handle_new_user] reads it:
    [NEW.id], [NEW.email] and the two keys of [NEW.raw_user_meta_data]
    extracted with [->>] (absent key or JSON null: [None]). *)
Module AuthUser.
Record t := mk {
  id : uuid;
  email : string;
  meta_full_name : option string;
  meta_role : option string }.
End AuthUser.

(** ** The store *)

Record DB := mkDB {
  auth_users : list uuid;
  profiles : list Profile.t;
  user_roles : list UserRole.t;
  tasks : list Task.t;
  activity_logs : list ActivityLog.t }.

Definition set_tasks (ts : list Task.t) (db : DB) : DB :=
  mkDB (auth_users db) (profiles db) (user_roles db) ts (activity_logs db).

Definition set_activity_logs (ls : list ActivityLog.t) (db : DB) : DB :=
  mkDB (auth_users db) (profiles db) (user_roles db) (tasks db) ls.

Definition set_user_roles (rs : list UserRole.t) (db : DB) : DB :=
  mkDB (auth_users db) (profiles db) rs (tasks db) (activity_logs db).

Definition mem_uuid (x : uuid) (l : list uuid) : bool :=
  existsb (String.eqb x) l.

(** ** Failures *)

Inductive error :=
| NotAuthenticated                       (* the hook's [!user] guard *)
| Unauthorized                           (* a new row violates an RLS policy *)
| ConstraintViolation (field : string)   (* NOT NULL, CHECK, key or enum input *)
| NotFound.                              (* [.single()] over no row *)

Inductive result (A : Type) :=
| Ok (a : A)
| Err (e : error).
Arguments Ok {A} a.
Arguments Err {A} e.

Definition bind {A B} (r : result A) (k : A -> result B) : result B :=
  match r with
  | Ok a => k a
  | Err e => Err e
  end.

Notation "x <- r ;; k" := (bind r (fun x => k))
  (at level 61, r at next level, right associativity).

(** [guard b e]: continue when [b] holds, fail with [e] otherwise. *)
Definition guard (b : bool) (e : error) : result unit :=
  if b then Ok tt else Err e.

(** A [NOT NULL] column. *)
Definition not_null {A} (field : string) (v : option A) : result A :=
  match v with
  | Some a => Ok a
  | None => Err (ConstraintViolation field)
  end.

(** ** Role resolver *)

(** [has_role(_user_id, _role)]:
    [SELECT EXISTS (SELECT 1 FROM user_roles WHERE user_id = _user_id AND role = _role)] *)
Definition has_role (db : DB) (_user_id : uuid) (_role : app_role) : bool :=
  existsb (fun r => String.eqb (UserRole.user_id r) _user_id
                    && app_role_eqb (UserRole.role r) _role)
          (user_roles db).

(** [get_user_role(_user_id)]:
    [SELECT role FROM user_roles WHERE user_id = _user_id LIMIT 1].
    There is no [ORDER BY]: the row returned is the first one the scan
    meets, that is the first matching row in storage order. *)
Definition get_user_role (db : DB) (_user_id : uuid) : option app_role :=
  match filter (fun r => String.eqb (UserRole.user_id r) _user_id) (user_roles db) with
  | [] => None
  | r :: _ => Some (UserRole.role r)
  end.

(** ** Row-level security policies

    Each policy is given on the columns it reads; [uid] is [auth.uid()],
    which is not null for the [authenticated] role all policies are
    granted to. *)

(** "Users can view assigned tasks or own tasks":
    [USING (assigned_to = auth.uid() OR created_by = auth.uid())] *)
Definition tasks_select_using (uid : uuid)
    (created_by assigned_to : option uuid) : sqlbool :=
  sql_or (sql_eq assigned_to (Some uid)) (sql_eq created_by (Some uid)).

(** "Managers can create tasks":
    [WITH CHECK (has_role(auth.uid(), 'manager') AND created_by = auth.uid())] *)
Definition tasks_insert_check (db : DB) (uid : uuid)
    (created_by : option uuid) : sqlbool :=
  sql_and (Some (has_role db uid manager)) (sql_eq created_by (Some uid)).

(** "Managers can update any task they created":
    [USING (has_role(auth.uid(), 'manager') AND created_by = auth.uid())] *)
Definition tasks_update_manager_using (db : DB) (uid : uuid)
    (created_by : option uuid) : sqlbool :=
  sql_and (Some (has_role db uid manager)) (sql_eq created_by (Some uid)).

(** "Users can update status of assigned tasks":
    [USING (assigned_to = auth.uid())] *)
Definition tasks_update_assignee_using (uid : uuid)
    (assigned_to : option uuid) : sqlbool :=
  sql_eq assigned_to (Some uid).

(** The two [FOR UPDATE] policies are permissive: they combine with OR. *)
Definition tasks_update_using (db : DB) (uid : uuid)
    (created_by assigned_to : option uuid) : sqlbool :=
  sql_or (tasks_update_manager_using db uid created_by)
         (tasks_update_assignee_using uid assigned_to).

(** "Managers can delete tasks they created":
    [USING (has_role(auth.uid(), 'manager') AND created_by = auth.uid())] *)
Definition tasks_delete_using (db : DB) (uid : uuid)
    (created_by : option uuid) : sqlbool :=
  sql_and (Some (has_role db uid manager)) (sql_eq created_by (Some uid)).

(** "Authenticated users can create activity logs":
    [WITH CHECK (user_id = auth.uid())] *)
Definition activity_logs_insert_check (uid : uuid) (user_id : option uuid) : sqlbool :=
  sql_eq user_id (Some uid).

(** "Users can insert own role": [WITH CHECK (user_id = auth.uid())] *)
Definition user_roles_insert_check (uid : uuid) (user_id : option uuid) : sqlbool :=
  sql_eq user_id (Some uid).

(** The policies on a stored task row. *)
Definition can_select (uid : uuid) (t : Task.t) : bool :=
  policy_passes (tasks_select_using uid (Some (Task.created_by t)) (Task.assigned_to t)).

Definition can_update (db : DB) (uid : uuid) (t : Task.t) : bool :=
  policy_passes (tasks_update_using db uid (Some (Task.created_by t)) (Task.assigned_to t)).

Definition can_delete (db : DB) (uid : uuid) (t : Task.t) : bool :=
  policy_passes (tasks_delete_using db uid (Some (Task.created_by t))).

(** ** Request payloads

    A JSON payload names a column or not, and a named column carries a
    value or [null]. *)
Inductive col (A : Type) :=
| Absent
| Null
| Val (a : A).
Arguments Absent {A}.
Arguments Null {A}.
Arguments Val {A} a.

(** The value an INSERT stores: the column's [DEFAULT] when the payload
    does not name it. *)
Definition col_default {A} (default : option A) (c : col A) : option A :=
  match c with
  | Absent => default
  | Null => None
  | Val a => Some a
  end.

(** The value an UPDATE stores: the old one when the payload does not name
    the column. *)
Definition col_set {A} (old : option A) (c : col A) : option A :=
  match c with
  | Absent => old
  | Null => None
  | Val a => Some a
  end.

(** The body of an insert into [tasks]; [id], [created_at] and
    [updated_at] are never sent by the hook and take their defaults. *)
Module TaskInsert.
Record t := mk {
  title : col string;
  description : col string;
  status : col task_status;
  priority : col Z;
  created_by : col uuid;
  assigned_to : col uuid;
  due_date : col timestamptz }.
End TaskInsert.

(** [Partial<Task>], the body of an update of [tasks]. *)
Module TaskUpdate.
Record t := mk {
  id : col uuid;
  title : col string;
  description : col string;
  status : col task_status;
  priority : col Z;
  created_by : col uuid;
  assigned_to : col uuid;
  due_date : col timestamptz;
  created_at : col timestamptz;
  updated_at : col timestamptz }.
End TaskUpdate.

(** The row the hook sends to [activity_logs]. *)
Module LogInsert.
Record t := mk {
  task_id : uuid;
  user_id : uuid;
  action : string;
  old_value : option jsonb;
  new_value : option jsonb }.
End LogInsert.

(** ** Column constraints *)

(** [CHECK (priority >= 1 AND priority <= 5)] *)
Definition priority_check (priority : option Z) : sqlbool :=
  sql_and (sql_leZ (Some 1) priority) (sql_leZ priority (Some 5)).

(** [priority INTEGER DEFAULT 1] *)
Definition priority_default : option Z := Some 1.

(** [status task_status DEFAULT 'todo'] *)
Definition status_default : option task_status := Some todo.

(** A nullable reference to [auth.users(id)]. *)
Definition references_user (db : DB) (v : option uuid) : bool :=
  match v with
  | None => true
  | Some x => mem_uuid x (auth_users db)
  end.

Definition has_task_id (x : uuid) (ts : list Task.t) : bool :=
  existsb (fun t => String.eqb (Task.id t) x) ts.

(** [update_updated_at_column()]: [NEW.updated_at = NOW(); RETURN NEW],
    given on the column it assigns. *)
Definition update_updated_at_column (now : timestamptz)
    (NEW_updated_at : option timestamptz) : option timestamptz :=
  Some now.

(** ** Requests on [tasks] *)

(** [from('tasks').select('*')]: the rows the SELECT policy lets through. *)
Definition tasks_select (uid : uuid) (db : DB) : list Task.t :=
  filter (can_select uid) (tasks db).

(** [from('tasks').insert(p).select().single()].
    [new_id] is the value of [gen_random_uuid()] and [now] that of [NOW()].
    The policies on the proposed row are checked first, then NOT NULL and
    CHECK, then the primary key, then the foreign keys. *)
Definition tasks_insert (now : timestamptz) (new_id : uuid) (uid : uuid)
    (p : TaskInsert.t) (db : DB) : result (Task.t * DB) :=
  let created_by := col_default None (TaskInsert.created_by p) in
  let assigned_to := col_default None (TaskInsert.assigned_to p) in
  let priority := col_default priority_default (TaskInsert.priority p) in
  _ <- guard (policy_passes (tasks_insert_check db uid created_by)) Unauthorized ;;
  _ <- guard (policy_passes (tasks_select_using uid created_by assigned_to)) Unauthorized ;;
  title <- not_null "title" (col_default None (TaskInsert.title p)) ;;
  status <- not_null "status" (col_default status_default (TaskInsert.status p)) ;;
  created_by <- not_null "created_by" created_by ;;
  _ <- guard (check_passes (priority_check priority)) (ConstraintViolation "priority") ;;
  _ <- guard (negb (has_task_id new_id (tasks db))) (ConstraintViolation "id") ;;
  _ <- guard (mem_uuid created_by (auth_users db)) (ConstraintViolation "created_by") ;;
  _ <- guard (references_user db assigned_to) (ConstraintViolation "assigned_to") ;;
  let row := Task.mk new_id title
               (col_default None (TaskInsert.description p))
               status priority created_by assigned_to
               (col_default None (TaskInsert.due_date p))
               now now in
  Ok (row, set_tasks (tasks db ++ [row]) db).

(** The row an update addresses: [.eq('id', id)] over the rows that pass
    both the SELECT policy and the UPDATE policies ([id] is the primary
    key, so there is at most one). *)
Definition update_target (db : DB) (uid : uuid) (id : uuid) : option Task.t :=
  find (fun t => String.eqb (Task.id t) id && (can_select uid t && can_update db uid t))
       (tasks db).

Definition replace_task (old_id : uuid) (row : Task.t) (ts : list Task.t) : list Task.t :=
  map (fun t => if String.eqb (Task.id t) old_id then row else t) ts.

Definition log_references (id : uuid) (ls : list ActivityLog.t) : bool :=
  existsb (fun l => String.eqb (ActivityLog.task_id l) id) ls.

(** [from('tasks').update(u).eq('id', id).select().single()].
    A row that fails the policies is not addressed at all, so the request
    finds no row.  On the addressed row the BEFORE UPDATE trigger runs, and
    the new row is checked against the UPDATE policies again: a policy
    written with [USING] only applies that expression to the new row as
    well (PostgreSQL, CREATE POLICY: "If only a USING clause is specified,
    then that clause will be used for both USING and WITH CHECK cases"),
    and the SELECT policy applies to it because the row is returned.
    [activity_logs.task_id] references [tasks(id)] with no ON UPDATE
    action, so a referenced [id] cannot change. *)
Definition tasks_update (now : timestamptz) (uid : uuid) (id : uuid)
    (u : TaskUpdate.t) (db : DB) : result (Task.t * DB) :=
  match update_target db uid id with
  | None => Err NotFound
  | Some old =>
    let new_id := col_set (Some (Task.id old)) (TaskUpdate.id u) in
    let created_by := col_set (Some (Task.created_by old)) (TaskUpdate.created_by u) in
    let assigned_to := col_set (Task.assigned_to old) (TaskUpdate.assigned_to u) in
    let priority := col_set (Task.priority old) (TaskUpdate.priority u) in
    let updated_at :=
      update_updated_at_column now
        (col_set (Some (Task.updated_at old)) (TaskUpdate.updated_at u)) in
    _ <- guard (policy_passes (tasks_update_using db uid created_by assigned_to)) Unauthorized ;;
    _ <- guard (policy_passes (tasks_select_using uid created_by assigned_to)) Unauthorized ;;
    new_id <- not_null "id" new_id ;;
    title <- not_null "title" (col_set (Some (Task.title old)) (TaskUpdate.title u)) ;;
    status <- not_null "status" (col_set (Some (Task.status old)) (TaskUpdate.status u)) ;;
    created_by <- not_null "created_by" created_by ;;
    created_at <- not_null "created_at"
                    (col_set (Some (Task.created_at old)) (TaskUpdate.created_at u)) ;;
    updated_at <- not_null "updated_at" updated_at ;;
    _ <- guard (check_passes (priority_check priority)) (ConstraintViolation "priority") ;;
    _ <- guard (String.eqb new_id (Task.id old) || negb (has_task_id new_id (tasks db)))
               (ConstraintViolation "id") ;;
    _ <- guard (mem_uuid created_by (auth_users db)) (ConstraintViolation "created_by") ;;
    _ <- guard (references_user db assigned_to) (ConstraintViolation "assigned_to") ;;
    _ <- guard (String.eqb new_id (Task.id old)
                || negb (log_references (Task.id old) (activity_logs db)))
               (ConstraintViolation "task_id") ;;
    let row := Task.mk new_id title
                 (col_set (Task.description old) (TaskUpdate.description u))
                 status priority created_by assigned_to
                 (col_set (Task.due_date old) (TaskUpdate.due_date u))
                 created_at updated_at in
    Ok (row, set_tasks (replace_task (Task.id old) row (tasks db)) db)
  end.

(** [from('tasks').delete().eq('id', id)]: the rows that pass the SELECT
    and DELETE policies go, and with them the log rows that reference them
    ([task_id ... ON DELETE CASCADE]).  Deleting no row is not an error. *)
Definition tasks_delete (uid : uuid) (id : uuid) (db : DB) : DB :=
  let doomed t := String.eqb (Task.id t) id && (can_select uid t && can_delete db uid t) in
  let gone := map Task.id (filter doomed (tasks db)) in
  mkDB (auth_users db) (profiles db) (user_roles db)
       (filter (fun t => negb (doomed t)) (tasks db))
       (filter (fun l => negb (mem_uuid (ActivityLog.task_id l) gone)) (activity_logs db)).

(** ** Requests on [activity_logs] and [user_roles] *)

(** [from('activity_logs').insert([p])] *)
Definition activity_logs_insert (now : timestamptz) (new_id : uuid) (uid : uuid)
    (p : LogInsert.t) (db : DB) : result DB :=
  _ <- guard (policy_passes (activity_logs_insert_check uid (Some (LogInsert.user_id p))))
             Unauthorized ;;
  _ <- guard (negb (existsb (fun l => String.eqb (ActivityLog.id l) new_id) (activity_logs db)))
             (ConstraintViolation "id") ;;
  _ <- guard (has_task_id (LogInsert.task_id p) (tasks db)) (ConstraintViolation "task_id") ;;
  _ <- guard (mem_uuid (LogInsert.user_id p) (auth_users db)) (ConstraintViolation "user_id") ;;
  let row := ActivityLog.mk new_id (LogInsert.task_id p) (Some (LogInsert.user_id p))
               (LogInsert.action p) (LogInsert.old_value p) (LogInsert.new_value p) now in
  Ok (set_activity_logs (activity_logs db ++ [row]) db).

(** [UNIQUE (user_id, role)] *)
Definition holds_role_row (db : DB) (user_id : uuid) (role : app_role) : bool :=
  has_role db user_id role.

(** [from('user_roles').insert({user_id, role})]; [role] defaults to ['user']. *)
Definition user_roles_insert (now : timestamptz) (new_id : uuid) (uid : uuid)
    (user_id : uuid) (role : col app_role) (db : DB) : result DB :=
  _ <- guard (policy_passes (user_roles_insert_check uid (Some user_id))) Unauthorized ;;
  role <- not_null "role" (col_default (Some user) role) ;;
  _ <- guard (negb (existsb (fun r => String.eqb (UserRole.id r) new_id) (user_roles db)))
             (ConstraintViolation "id") ;;
  _ <- guard (negb (holds_role_row db user_id role)) (ConstraintViolation "user_id, role") ;;
  _ <- guard (mem_uuid user_id (auth_users db)) (ConstraintViolation "user_id") ;;
  Ok (set_user_roles (user_roles db ++ [UserRole.mk new_id user_id role now]) db).

(** ** Identities: [auth.users] and its trigger *)

(** [handle_new_user()], the AFTER INSERT trigger on [auth.users].  It is
    SECURITY DEFINER, so no policy applies to its two inserts.
    [role_row_id] is the [gen_random_uuid()] of the [user_roles] row. *)
Definition handle_new_user (now : timestamptz) (role_row_id : uuid)
    (NEW : AuthUser.t) (db : DB) : result DB :=
  (* INSERT INTO profiles (id, email, full_name)
     VALUES (NEW.id, NEW.email, COALESCE(meta->>'full_name', '')) *)
  let full_name :=
    match AuthUser.meta_full_name NEW with
    | Some n => n
    | None => ""
    end in
  _ <- guard (negb (existsb (fun p => String.eqb (Profile.id p) (AuthUser.id NEW)) (profiles db)))
             (ConstraintViolation "id") ;;
  _ <- guard (mem_uuid (AuthUser.id NEW) (auth_users db)) (ConstraintViolation "id") ;;
  let profile := Profile.mk (AuthUser.id NEW) (AuthUser.email NEW) (Some full_name) None now now in
  let db1 := mkDB (auth_users db) (profiles db ++ [profile]) (user_roles db)
                  (tasks db) (activity_logs db) in
  (* INSERT INTO user_roles (user_id, role)
     VALUES (NEW.id, COALESCE((meta->>'role')::app_role, 'user')) *)
  role <- match AuthUser.meta_role NEW with
          | None => Ok user
          | Some s => not_null "role" (app_role_of_text s)
          end ;;
  _ <- guard (negb (existsb (fun r => String.eqb (UserRole.id r) role_row_id) (user_roles db1)))
             (ConstraintViolation "id") ;;
  _ <- guard (negb (has_role db1 (AuthUser.id NEW) role)) (ConstraintViolation "user_id, role") ;;
  _ <- guard (mem_uuid (AuthUser.id NEW) (auth_users db1)) (ConstraintViolation "user_id") ;;
  Ok (set_user_roles (user_roles db1 ++ [UserRole.mk role_row_id (AuthUser.id NEW) role now]) db1).

(** Registration: the insert into [auth.users] ([id] is its primary key)
    followed, in the same transaction, by the trigger
    [on_auth_user_created].  An error of the trigger aborts the insert. *)
Definition auth_users_insert (now : timestamptz) (role_row_id : uuid)
    (NEW : AuthUser.t) (db : DB) : result DB :=
  _ <- guard (negb (mem_uuid (AuthUser.id NEW) (auth_users db))) (ConstraintViolation "id") ;;
  handle_new_user now role_row_id NEW
    (mkDB (auth_users db ++ [AuthUser.id NEW]) (profiles db) (user_roles db)
          (tasks db) (activity_logs db)).

Definition opt_is (x : uuid) (v : option uuid) : bool :=
  match v with
  | Some y => String.eqb y x
  | None => false
  end.

(** The task rows after identity [x] is gone: [created_by ... ON DELETE
    CASCADE] removes the rows [x] created; [assigned_to ... ON DELETE SET
    NULL] updates the others, and that update fires
    [update_tasks_updated_at]. *)
Definition tasks_without_user (now : timestamptz) (x : uuid) (ts : list Task.t) : list Task.t :=
  map (fun t =>
         if opt_is x (Task.assigned_to t)
         then Task.mk (Task.id t) (Task.title t) (Task.description t) (Task.status t)
                      (Task.priority t) (Task.created_by t) None (Task.due_date t)
                      (Task.created_at t) now
         else t)
      (filter (fun t => negb (String.eqb (Task.created_by t) x)) ts).

(** Deleting the row [x] of [auth.users] (done by the auth service, outside
    the policies), with the [ON DELETE] action of every reference to it. *)
Definition auth_users_delete (now : timestamptz) (x : uuid) (db : DB) : DB :=
  let gone := map Task.id (filter (fun t => String.eqb (Task.created_by t) x) (tasks db)) in
  mkDB (filter (fun y => negb (String.eqb y x)) (auth_users db))
       (filter (fun p => negb (String.eqb (Profile.id p) x)) (profiles db))
       (filter (fun r => negb (String.eqb (UserRole.user_id r) x)) (user_roles db))
       (tasks_without_user now x (tasks db))
       (map (fun l =>
               if opt_is x (ActivityLog.user_id l)
               then ActivityLog.mk (ActivityLog.id l) (ActivityLog.task_id l) None
                                   (ActivityLog.action l) (ActivityLog.old_value l)
                                   (ActivityLog.new_value l) (ActivityLog.created_at l)
               else l)
            (filter (fun l => negb (mem_uuid (ActivityLog.task_id l) gone)) (activity_logs db))).

(** ** The hook [useTasks]

    [session] is [user] of [useAuth]: the id of the signed-in user, or
    null.  [cache] is the hook's [tasks] state, the result of the last
    [fetchTasks].  A call returns its outcome together with the stores it
    committed, one per accepted request, in order. *)

Record call (A : Type) := mkCall {
  outcome : result A;
  commits : list DB }.
Arguments mkCall {A} outcome commits.
Arguments outcome {A} c.
Arguments commits {A} c.

(** The store a call leaves behind. *)
Definition final_store {A} (db : DB) (c : call A) : DB :=
  last (commits c) db.

(** [.order('created_at', { ascending: false })] *)
Fixpoint insert_desc (t : Task.t) (l : list Task.t) : list Task.t :=
  match l with
  | [] => [t]
  | h :: r => if Task.created_at h <? Task.created_at t then t :: l
              else h :: insert_desc t r
  end.

Definition order_created_at_desc (l : list Task.t) : list Task.t :=
  fold_right insert_desc [] l.

(** [fetchTasks]: the new value of [tasks], or none without a user. *)
Definition fetchTasks (session : option uuid) (db : DB) : option (list Task.t) :=
  match session with
  | None => None
  | Some uid => Some (order_created_at_desc (tasks_select uid db))
  end.

(** [Omit<Task, 'id' | 'created_at' | 'updated_at' | 'created_by'>] *)
Module TaskData.
Record t := mk {
  title : string;
  description : option string;
  status : task_status;
  priority : Z;
  assigned_to : option uuid;
  due_date : option timestamptz }.
End TaskData.

Definition nullable {A} (v : option A) : col A :=
  match v with
  | Some a => Val a
  | None => Null
  end.

(** [createTask(task)].  [now1], [id1] belong to the insert into [tasks],
    [now2], [id2] to the insert into [activity_logs]; the result of the
    second insert is not looked at. *)
Definition createTask (now1 : timestamptz) (id1 : uuid) (now2 : timestamptz) (id2 : uuid)
    (session : option uuid) (task : TaskData.t) (db : DB) : call Task.t :=
  match session with
  | None => mkCall (Err NotAuthenticated) []
  | Some uid =>
    (* insert({ ...task, created_by: user.id }).select().single() *)
    let payload := TaskInsert.mk (Val (TaskData.title task))
                     (nullable (TaskData.description task))
                     (Val (TaskData.status task))
                     (Val (TaskData.priority task))
                     (Val uid)
                     (nullable (TaskData.assigned_to task))
                     (nullable (TaskData.due_date task)) in
    match tasks_insert now1 id1 uid payload db with
    | Err e => mkCall (Err e) []
    | Ok (data, db1) =>
      match activity_logs_insert now2 id2 uid
              (LogInsert.mk (Task.id data) uid "created" None (Some data)) db1 with
      | Ok db2 => mkCall (Ok data) [db1; db2]
      | Err _ => mkCall (Ok data) [db1]
      end
    end
  end.

(** [updateTask(id, updates)] *)
Definition updateTask (now1 : timestamptz) (now2 : timestamptz) (id2 : uuid)
    (session : option uuid) (cache : list Task.t)
    (id : uuid) (updates : TaskUpdate.t) (db : DB) : call Task.t :=
  match session with
  | None => mkCall (Err NotAuthenticated) []
  | Some uid =>
    let oldTask := find (fun t => String.eqb (Task.id t) id) cache in
    match tasks_update now1 uid id updates db with
    | Err e => mkCall (Err e) []
    | Ok (data, db1) =>
      match activity_logs_insert now2 id2 uid
              (LogInsert.mk id uid "updated" oldTask (Some data)) db1 with
      | Ok db2 => mkCall (Ok data) [db1; db2]
      | Err _ => mkCall (Ok data) [db1]
      end
    end
  end.

Definition no_updates : TaskUpdate.t :=
  TaskUpdate.mk Absent Absent Absent Absent Absent Absent Absent Absent Absent Absent.

(** [updateTaskStatus(id, status)]: [updateTask(id, { status })] *)
Definition updateTaskStatus (now1 : timestamptz) (now2 : timestamptz) (id2 : uuid)
    (session : option uuid) (cache : list Task.t)
    (id : uuid) (status : task_status) (db : DB) : call Task.t :=
  updateTask now1 now2 id2 session cache id
    (TaskUpdate.mk Absent Absent Absent (Val status) Absent Absent Absent Absent Absent Absent)
    db.

(** [deleteTask(id)] *)
Definition deleteTask (session : option uuid) (id : uuid) (db : DB) : call unit :=
  match session with
  | None => mkCall (Err NotAuthenticated) []
  | Some uid => mkCall (Ok tt) [tasks_delete uid id db]
  end.

(** ** The task form

    A text is the sequence of its code units, so [String.length] is the
    [length] the schema compares. *)

Module FormData.
Record t := mk {
  title : string;
  description : string;
  status : task_status;
  priority : Z;
  assigned_to : option uuid;
  due_date : option timestamptz }.
End FormData.

(** The form's initial state for a new task. *)
Definition initial_form : FormData.t :=
  FormData.mk "" "" todo 3 None None.

(** An issue of the schema: the field ([path[0]]) and the message. *)
Definition issue := (string * string)%type.

(** [z.string().min(1, ...).max(200, ...)] *)
Definition title_issues (title : string) : list issue :=
  (if (String.length title <? 1)%nat then [("title", "Title is required")] else [])
  ++ (if (200 <? String.length title)%nat
      then [("title", "Title must be less than 200 characters")] else []).

(** [z.string().max(2000, ...).optional()]: [optional] lets [undefined]
    through, not [null]. *)
Definition description_issues (description : option string) : list issue :=
  match description with
  | None => [("description", "Expected string, received null")]
  | Some d =>
    if (2000 <? String.length d)%nat
    then [("description", "Description must be less than 2000 characters")] else []
  end.

(** [z.number().min(1).max(5)] *)
Definition priority_issues (priority : Z) : list issue :=
  (if priority <? 1 then [("priority", "Number must be greater than or equal to 1")] else [])
  ++ (if 5 <? priority then [("priority", "Number must be less than or equal to 5")] else []).

(** [taskSchema.safeParse(data)]: the issues, field by field in the order
    of the schema; [status], [assigned_to] and [due_date] raise none on
    values of their types. *)
Definition taskSchema (data : TaskData.t) : list issue :=
  title_issues (TaskData.title data)
  ++ description_issues (TaskData.description data)
  ++ priority_issues (TaskData.priority data).

(** [fieldErrors[err.path[0]] = err.message] *)
Fixpoint set_field (k v : string) (o : list issue) : list issue :=
  match o with
  | [] => [(k, v)]
  | (k', v') :: r => if String.eqb k' k then (k, v) :: r else (k', v') :: set_field k v r
  end.

Definition fieldErrors (issues : list issue) : list issue :=
  fold_left (fun o e => set_field (fst e) (snd e) o) issues [].

(** [handleSubmit]: the data built from the form state, validated; either
    the field errors shown, or the data handed to [onSubmit]. *)
Definition handleSubmit (formData : FormData.t) : list issue + TaskData.t :=
  let data := TaskData.mk (FormData.title formData)
                (* description: formData.description || null *)
                (if String.eqb (FormData.description formData) "" then None
                 else Some (FormData.description formData))
                (FormData.status formData) (FormData.priority formData)
                (FormData.assigned_to formData) (FormData.due_date formData) in
  match taskSchema data with
  | [] => inr data
  | issues => inl (fieldErrors issues)
  end.

(** The form data as the body of an update. *)
Definition updates_of_data (data : TaskData.t) : TaskUpdate.t :=
  TaskUpdate.mk Absent (Val (TaskData.title data)) (nullable (TaskData.description data))
    (Val (TaskData.status data)) (Val (TaskData.priority data)) Absent
    (nullable (TaskData.assigned_to data)) (nullable (TaskData.due_date data))
    Absent Absent.

(** [Dashboard.handleFormSubmit(data)]: an update of [editingTask] when
    there is one, a creation otherwise. *)
Definition handleFormSubmit (now1 : timestamptz) (id1 : uuid) (now2 : timestamptz) (id2 : uuid)
    (session : option uuid) (cache : list Task.t) (editingTask : option Task.t)
    (data : TaskData.t) (db : DB) : call Task.t :=
  match editingTask with
  | Some t => updateTask now1 now2 id2 session cache (Task.id t) (updates_of_data data) db
  | None => createTask now1 id1 now2 id2 session data db
  end.

(** Submitting the form: the requests [handleSubmit] leads to, if any. *)
Definition submit_form (now1 : timestamptz) (id1 : uuid) (now2 : timestamptz) (id2 : uuid)
    (session : option uuid) (cache : list Task.t) (editingTask : option Task.t)
    (formData : FormData.t) (db : DB) : list issue + call Task.t :=
  match handleSubmit formData with
  | inl errors => inl errors
  | inr data => inr (handleFormSubmit now1 id1 now2 id2 session cache editingTask data db)
  end.

(** The by-id read of a task: the row with that id among those the SELECT
    policy shows to [uid]. *)
Definition readTask (uid : uuid) (id : uuid) (db : DB) : option Task.t :=
  find (fun t => String.eqb (Task.id t) id) (tasks_select uid db).

(** ** Notions used in the statements *)

(** [id UUID PRIMARY KEY] on [tasks]. *)
Definition tasks_pkey (db : DB) : Prop :=
  NoDup (map Task.id (tasks db)).

(** The store in which the task with key [x] does not exist. *)
Definition without_task (x : uuid) (db : DB) : DB :=
  set_tasks (filter (fun t => negb (String.eqb (Task.id t) x)) (tasks db)) db.

(** The rule of the two UPDATE policies on the columns [created_by] and
    [assigned_to] of a row: the acting identity is a manager and the
    creator, or it is the assignee. *)
Definition update_rule (db : DB) (uid : uuid) (created_by assigned_to : option uuid) : Prop :=
  (has_role db uid manager = true /\ created_by = Some uid) \/ assigned_to = Some uid.

(** A request refused by the policies: no row addressed, or new row
    rejected. *)
Definition refused_by_policy {A} (r : result A) : Prop :=
  r = Err NotFound \/ r = Err Unauthorized.

(** A request that got past the policies: it is accepted or fails on a
    column constraint. *)
Definition past_policy {A} (r : result A) : Prop :=
  match r with
  | Ok _ | Err (ConstraintViolation _) => True
  | Err _ => False
  end.

(** ** A small store

    A manager, two users, and one task the manager created and assigned to
    the first user. *)

Definition alice : uuid := "a11ce".
Definition bob : uuid := "b0b".
Definition carol : uuid := "ca201".

Definition write_spec : Task.t :=
  Task.mk "t1" "Write spec" None todo (Some 3) alice (Some bob) None 10 10.

Definition team_roles : list UserRole.t :=
  [ UserRole.mk "r1" alice manager 1;
    UserRole.mk "r2" bob user 2;
    UserRole.mk "r3" carol user 3 ].

Definition team_profiles : list Profile.t :=
  [ Profile.mk alice "alice@example.org" (Some "Alice") None 1 1;
    Profile.mk bob "bob@example.org" (Some "Bob") None 2 2;
    Profile.mk carol "carol@example.org" (Some "Carol") None 3 3 ].

Definition team_db : DB :=
  mkDB [alice; bob; carol] team_profiles team_roles [write_spec] [].

Definition empty_db : DB := mkDB [] [] [] [] [].

(** Payloads of the second user, the assignee of [write_spec]. *)

Definition retitle : TaskUpdate.t :=
  TaskUpdate.mk Absent (Val "Rewrite spec") Absent Absent (Val 5) Absent Absent Absent
    Absent Absent.

Definition reassign_to_carol : TaskUpdate.t :=
  TaskUpdate.mk Absent Absent Absent Absent Absent Absent (Val carol) Absent Absent Absent.

Definition claim_for_carol : TaskUpdate.t :=
  TaskUpdate.mk Absent Absent Absent Absent Absent (Val carol) Absent Absent Absent Absent.

Definition rename_to_t9 : TaskUpdate.t :=
  TaskUpdate.mk (Val "t9") Absent Absent Absent Absent Absent Absent Absent Absent Absent.

(** The first user's task after the manager moved it to [in_progress],
    and the store holding it; the assignee's cache may still hold
    [write_spec]. *)

Definition spec_in_progress : Task.t :=
  Task.mk "t1" "Write spec" None in_progress (Some 3) alice (Some bob) None 10 15.

Definition moved_db : DB :=
  mkDB [alice; bob; carol] team_profiles team_roles [spec_in_progress] [].

(** Every profile and every role row belongs to a registered identity
    ([REFERENCES auth.users(id)]). *)
Definition references_ok (db : DB) : Prop :=
  (forall p, In p (profiles db) -> mem_uuid (Profile.id p) (auth_users db) = true)
  /\ (forall r, In r (user_roles db) -> mem_uuid (UserRole.user_id r) (auth_users db) = true).

(** The role a sign-up asks for: [manager] when the metadata says
    "manager", [user] otherwise. *)
Definition signup_role (meta_role : option string) : app_role :=
  match meta_role with
  | Some s => if String.eqb s "manager" then manager else user
  | None => user
  end.

(** A sign-up whose role text the enum accepts, or that carries none. *)
Definition role_text_ok (meta_role : option string) : Prop :=
  match meta_role with
  | Some s => app_role_of_text s <> None
  | None => True
  end.

Definition profiles_of (x : uuid) (db : DB) : list Profile.t :=
  filter (fun p => String.eqb (Profile.id p) x) (profiles db).

Definition roles_of (x : uuid) (db : DB) : list UserRole.t :=
  filter (fun r => String.eqb (UserRole.user_id r) x) (user_roles db).

(** A fourth identity signing up. *)
Definition dave : uuid := "da7e".

Definition dave_signs_up (meta_role : option string) : AuthUser.t :=
  AuthUser.mk dave "dave@example.org" (Some "Dave") meta_role.

(** A priority as the column admits it: null, or an integer from 1 to 5. *)
Definition priority_admitted (p : option Z) : Prop :=
  p = None \/ exists n, p = Some n /\ 1 <= n <= 5.

(** Inserts of the manager that leave the priority out, or send null. *)
Definition plan_without_priority : TaskInsert.t :=
  TaskInsert.mk (Val "Plan") Absent Absent Absent (Val alice) Absent Absent.

Definition plan_null_priority : TaskInsert.t :=
  TaskInsert.mk (Val "Plan") Absent Absent Null (Val alice) Absent Absent.

(** A task the manager keeps for herself. *)
Definition review : Task.t :=
  Task.mk "t2" "Review" None todo (Some 2) alice (Some alice) None 11 11.

Definition own_db : DB :=
  mkDB [alice; bob; carol] team_profiles team_roles [write_spec; review]
       [ActivityLog.mk "l0" "t2" (Some alice) "created" None (Some review) 11].

(** The row a task becomes when its assignee is deleted. *)
Definition unassigned (now : timestamptz) (t : Task.t) : Task.t :=
  Task.mk (Task.id t) (Task.title t) (Task.description t) (Task.status t)
          (Task.priority t) (Task.created_by t) None (Task.due_date t)
          (Task.created_at t) now.

(** A title of 201 characters, and inserts of the manager with that title
    and with the empty title. *)
Definition long_title : string :=
  string_of_list_ascii (repeat "a"%char 201).

Definition plan_titled (title : string) : TaskInsert.t :=
  TaskInsert.mk (Val title) Absent Absent (Val 3) (Val alice) Absent Absent.

(** The fields a shown field-error record names. *)
Definition fields (errors : list issue) : list string :=
  map fst errors.

(** The second user holding both roles. *)
Definition both_roles_db : DB :=
  set_user_roles (team_roles ++ [UserRole.mk "r4" bob manager 30]) team_db.

(** A description of 2001 characters, and writes with a priority out of
    range. *)
Definition long_description : string :=
  string_of_list_ascii (repeat "d"%char 2001).

Definition plan_priority_nine : TaskInsert.t :=
  TaskInsert.mk (Val "Plan") Absent Absent (Val 9) (Val alice) Absent Absent.

Definition priority_zero : TaskUpdate.t :=
  TaskUpdate.mk Absent Absent Absent Absent (Val 0) Absent Absent Absent Absent Absent.

(** ** Further policies and views *)

(** "Users can view activity for their tasks":
    [USING (EXISTS (SELECT 1 FROM tasks WHERE tasks.id = activity_logs.task_id
                    AND (tasks.assigned_to = auth.uid() OR tasks.created_by = auth.uid())))] *)
Definition activity_logs_select_using (db : DB) (uid : uuid) (task_id : uuid) : sqlbool :=
  Some (existsb
          (fun t => policy_passes
                      (sql_and (sql_eq (Some (Task.id t)) (Some task_id))
                               (sql_or (sql_eq (Task.assigned_to t) (Some uid))
                                       (sql_eq (Some (Task.created_by t)) (Some uid)))))
          (tasks db)).

(** [from('activity_logs').select('*')] *)
Definition activity_logs_select (uid : uuid) (db : DB) : list ActivityLog.t :=
  filter (fun l => policy_passes (activity_logs_select_using db uid (ActivityLog.task_id l)))
         (activity_logs db).

(** "Users can view all profiles": [USING (true)] *)
Definition profiles_select_using : sqlbool := Some true.

(** [from('profiles').select('*')], the [profiles] state of [useProfiles]. *)
Definition profiles_select (db : DB) : list Profile.t :=
  filter (fun _ => policy_passes profiles_select_using) (profiles db).

(** [useProfiles.getProfileById(id)]: [if (!id) return null;
    return profiles.find(p => p.id === id) || null].  The empty string is
    falsy as [null] is. *)
Definition getProfileById (profiles : list Profile.t) (id : option uuid) : option Profile.t :=
  match id with
  | None => None
  | Some x => if String.eqb x "" then None
              else find (fun p => String.eqb (Profile.id p) x) profiles
  end.

(** [useTasks]: [assignedTasks] and [createdTasks], with [user?.id]
    undefined when nobody is signed in. *)
Definition assignedTasks (session : option uuid) (tasks : list Task.t) : list Task.t :=
  filter (fun t => match session, Task.assigned_to t with
                   | Some u, Some a => String.eqb a u
                   | _, _ => false
                   end) tasks.

Definition createdTasks (session : option uuid) (tasks : list Task.t) : list Task.t :=
  filter (fun t => match session with
                   | Some u => String.eqb (Task.created_by t) u
                   | None => false
                   end) tasks.

Definition task_status_eqb (a b : task_status) : bool :=
  match a, b with
  | todo, todo | in_progress, in_progress | completed, completed => true
  | _, _ => false
  end.

(** [Dashboard]: [tasks.filter(t => t.status === s).length] *)
Definition statusCount (s : task_status) (tasks : list Task.t) : nat :=
  length (filter (fun t => task_status_eqb (Task.status t) s) tasks).

Definition todoCount := statusCount todo.
Definition inProgressCount := statusCount in_progress.
Definition completedCount := statusCount completed.

(** ** The task card

    [role] is the role [useAuth] reports for the signed-in user. *)

Definition isManager (role : option app_role) : bool :=
  match role with
  | Some manager => true
  | _ => false
  end.

Definition isCreator (session : option uuid) (task : Task.t) : bool :=
  match session with
  | Some u => String.eqb (Task.created_by task) u
  | None => false
  end.

Definition isAssignee (session : option uuid) (task : Task.t) : bool :=
  match session, Task.assigned_to task with
  | Some u, Some a => String.eqb a u
  | _, _ => false
  end.

Definition canEdit (role : option app_role) (session : option uuid) (task : Task.t) : bool :=
  isManager role && isCreator session task.

Definition canDelete (role : option app_role) (session : option uuid) (task : Task.t) : bool :=
  isManager role && isCreator session task.

Definition canChangeStatus (role : option app_role) (session : option uuid)
    (task : Task.t) : bool :=
  isAssignee session task || canEdit role session task.

(** The statuses the card's menu offers, in the order of its items:
    "Mark In Progress", "Mark Complete", "Reopen Task". *)
Definition status_menu (role : option app_role) (session : option uuid)
    (task : Task.t) : list task_status :=
  (if canChangeStatus role session task
      && negb (task_status_eqb (Task.status task) completed)
   then (if task_status_eqb (Task.status task) todo then [in_progress] else [])
        ++ [completed]
   else [])
  ++ (if canChangeStatus role session task
         && task_status_eqb (Task.status task) completed
      then [todo] else []).

(** [priorityConfig], the label of the priority badge; a priority outside
    the table has no entry. *)
Definition priorityConfig (priority : Z) : option string :=
  match priority with
  | 1 => Some "Low"
  | 2 => Some "Medium-Low"
  | 3 => Some "Medium"
  | 4 => Some "High"
  | 5 => Some "Critical"
  | _ => None
  end.

(** ** Histories of requests *)

Inductive request :=
| Register (now : timestamptz) (role_row_id : uuid) (NEW : AuthUser.t)
| DeleteUser (now : timestamptz) (x : uuid)
| InsertRole (now : timestamptz) (new_id uid user_id : uuid) (role : col app_role)
| InsertTask (now : timestamptz) (new_id uid : uuid) (p : TaskInsert.t)
| UpdateTask (now : timestamptz) (uid id : uuid) (u : TaskUpdate.t)
| DeleteTask (uid id : uuid)
| InsertLog (now : timestamptz) (new_id uid : uuid) (p : LogInsert.t).

Definition committed {A} (db : DB) (r : result A) (store : A -> DB) : DB :=
  match r with
  | Ok a => store a
  | Err _ => db
  end.

(** The store after a request: what it commits, or the store as it was
    when the request fails. *)
Definition apply_request (q : request) (db : DB) : DB :=
  match q with
  | Register now rid NEW => committed db (auth_users_insert now rid NEW db) (fun d => d)
  | DeleteUser now x => auth_users_delete now x db
  | InsertRole now new_id uid user_id role =>
      committed db (user_roles_insert now new_id uid user_id role db) (fun d => d)
  | InsertTask now new_id uid p => committed db (tasks_insert now new_id uid p db) snd
  | UpdateTask now uid id u => committed db (tasks_update now uid id u db) snd
  | DeleteTask uid id => tasks_delete uid id db
  | InsertLog now new_id uid p =>
      committed db (activity_logs_insert now new_id uid p db) (fun d => d)
  end.

Definition run (history : list request) (db : DB) : DB :=
  fold_left (fun d q => apply_request q d) history db.

(** The integrity the schema declares: the primary key of [tasks], every
    reference to [auth.users] and to [tasks] resolved, and the CHECK on
    [priority]. *)
Definition store_ok (db : DB) : Prop :=
  tasks_pkey db
  /\ (forall t, In t (tasks db) ->
        mem_uuid (Task.created_by t) (auth_users db) = true
        /\ references_user db (Task.assigned_to t) = true
        /\ priority_admitted (Task.priority t))
  /\ (forall l, In l (activity_logs db) ->
        has_task_id (ActivityLog.task_id l) (tasks db) = true
        /\ references_user db (ActivityLog.user_id l) = true)
  /\ references_ok db.

(** Newest first. *)
Definition newest_first (l : list Task.t) : Prop :=
  Sorted (fun a b => Task.created_at b <= Task.created_at a) l.

(** ** The sign-up and login forms ([pages/Auth.tsx])

    [is_email] is the test [z.string().email()] makes, which the schema
    library owns. *)

Module SignupData.
Record t := mk {
  email : string;
  password : string;
  fullName : string;
  role : app_role }.
End SignupData.

(** [authSchema]: [email: z.string().email(...)],
    [password: z.string().min(6, ...)] *)
Definition authSchema (is_email : string -> bool) (email password : string) : list issue :=
  (if is_email email then [] else [("email", "Please enter a valid email")])
  ++ (if (String.length password <? 6)%nat
      then [("password", "Password must be at least 6 characters")] else []).

(** [signupSchema = authSchema.extend({ fullName: z.string().min(2, ...),
    role: z.enum(['manager', 'user']) })] *)
Definition signupSchema (is_email : string -> bool) (data : SignupData.t) : list issue :=
  authSchema is_email (SignupData.email data) (SignupData.password data)
  ++ (if (String.length (SignupData.fullName data) <? 2)%nat
      then [("fullName", "Name must be at least 2 characters")] else []).

(** [handleSignup], up to the call of [signUp]: the field errors shown, or
    the arguments [signUp] is called with. *)
Definition handleSignup (is_email : string -> bool) (signupData : SignupData.t)
  : list issue + (string * string * string * app_role) :=
  match signupSchema is_email signupData with
  | [] => inr (SignupData.email signupData, SignupData.password signupData,
               SignupData.fullName signupData, SignupData.role signupData)
  | issues => inl (fieldErrors issues)
  end.

(** [handleLogin], up to the call of [signIn]. *)
Definition handleLogin (is_email : string -> bool) (email password : string)
  : list issue + (string * string) :=
  match authSchema is_email email password with
  | [] => inr (email, password)
  | issues => inl (fieldErrors issues)
  end.

(** A task with another status and stamp. *)
Definition with_status (status : task_status) (now : timestamptz) (t : Task.t) : Task.t :=
  Task.mk (Task.id t) (Task.title t) (Task.description t) status (Task.priority t)
          (Task.created_by t) (Task.assigned_to t) (Task.due_date t)
          (Task.created_at t) now.

(** A toy e-mail test for the examples: the text contains an at sign. *)
Definition has_at (s : string) : bool :=
  existsb (Ascii.eqb "@"%char) (list_ascii_of_string s).

(** * Properties *)

(** ** The policies, read as propositions *)

Lemma sql_eq_true (a : option uuid) (x : uuid) :
  policy_passes (sql_eq a (Some x)) = true <-> a = Some x.
Proof.
  destruct a as [y|]; simpl.
  - destruct (String.eqb_spec y x) as [->|Hne]; split; intro H;
      try reflexivity; try discriminate.
    injection H as H. contradiction.
  - split; discriminate.
Qed.

Lemma tasks_select_using_true uid cb asg :
  policy_passes (tasks_select_using uid cb asg) = true <->
  cb = Some uid \/ asg = Some uid.
Proof.
  unfold tasks_select_using.
  rewrite <- (sql_eq_true cb uid), <- (sql_eq_true asg uid).
  destruct (sql_eq asg (Some uid)) as [[|]|], (sql_eq cb (Some uid)) as [[|]|];
    simpl; intuition discriminate.
Qed.

Lemma tasks_update_using_true db uid cb asg :
  policy_passes (tasks_update_using db uid cb asg) = true <->
  (has_role db uid manager = true /\ cb = Some uid) \/ asg = Some uid.
Proof.
  unfold tasks_update_using, tasks_update_manager_using, tasks_update_assignee_using.
  rewrite <- (sql_eq_true cb uid), <- (sql_eq_true asg uid).
  destruct (has_role db uid manager),
    (sql_eq asg (Some uid)) as [[|]|], (sql_eq cb (Some uid)) as [[|]|];
    simpl; intuition discriminate.
Qed.

Lemma update_implies_select db uid cb asg :
  policy_passes (tasks_update_using db uid cb asg) = true ->
  policy_passes (tasks_select_using uid cb asg) = true.
Proof.
  rewrite tasks_update_using_true, tasks_select_using_true. tauto.
Qed.

Lemma can_select_iff uid t :
  can_select uid t = true <->
  uid = Task.created_by t \/ Task.assigned_to t = Some uid.
Proof.
  unfold can_select. rewrite tasks_select_using_true.
  split; (intros [H|H]; [left|right]); congruence.
Qed.

Lemma can_update_iff db uid t :
  can_update db uid t = true <->
  (has_role db uid manager = true /\ uid = Task.created_by t)
  \/ Task.assigned_to t = Some uid.
Proof.
  unfold can_update. rewrite tasks_update_using_true.
  split; (intros [[Hr H]|H]; [left; split|right]); congruence.
Qed.

(** ** Keys *)

Lemma has_task_id_In (x : uuid) (ts : list Task.t) :
  has_task_id x ts = true <-> In x (map Task.id ts).
Proof.
  unfold has_task_id. rewrite existsb_exists, in_map_iff.
  split; intros (t & H1 & H2); exists t.
  - apply String.eqb_eq in H2. auto.
  - rewrite H1, String.eqb_refl. auto.
Qed.

Lemma find_absent_key (f : Task.t -> bool) (ts : list Task.t) (x : uuid) :
  ~ In x (map Task.id ts) ->
  find (fun t' => String.eqb (Task.id t') x && f t') ts = None.
Proof.
  induction ts as [|h r IH]; simpl; [reflexivity|].
  intro H. destruct (String.eqb_spec (Task.id h) x) as [Heq|Hne].
  - exfalso. apply H. left. exact Heq.
  - simpl. apply IH. intro Hin. apply H. right. exact Hin.
Qed.

Lemma find_by_key (f : Task.t -> bool) (ts : list Task.t) (t : Task.t) :
  NoDup (map Task.id ts) -> In t ts ->
  find (fun t' => String.eqb (Task.id t') (Task.id t) && f t') ts
  = if f t then Some t else None.
Proof.
  induction ts as [|h r IH]; simpl; intros Hnd Hin; [contradiction|].
  inversion Hnd as [|? ? Hnotin Hnd']; subst.
  destruct Hin as [->|Hin].
  - rewrite String.eqb_refl. simpl. destruct (f t) eqn:Hf; [reflexivity|].
    apply find_absent_key. exact Hnotin.
  - destruct (String.eqb_spec (Task.id h) (Task.id t)) as [Heq|Hne].
    + exfalso. apply Hnotin. rewrite Heq. apply in_map. exact Hin.
    + simpl. apply IH; assumption.
Qed.

(** ** Reading tasks *)

Lemma tasks_select_In uid db t :
  In t (tasks_select uid db) <->
  In t (tasks db) /\ (uid = Task.created_by t \/ Task.assigned_to t = Some uid).
Proof.
  unfold tasks_select. rewrite filter_In, can_select_iff. reflexivity.
Qed.

Lemma tasks_select_hidden uid db t :
  can_select uid t = false ->
  tasks_select uid (without_task (Task.id t) db) =
  filter (fun t' => negb (String.eqb (Task.id t') (Task.id t))) (tasks_select uid db).
Proof.
  intros _. unfold tasks_select, without_task. simpl.
  induction (tasks db) as [|h r IH]; simpl; [reflexivity|].
  destruct (String.eqb (Task.id h) (Task.id t)) eqn:He, (can_select uid h) eqn:Hs;
    simpl; rewrite ?He, ?Hs; simpl; rewrite IH; reflexivity.
Qed.

Lemma find_filter {A} (f g : A -> bool) (l : list A) :
  find f (filter g l) = find (fun a => f a && g a) l.
Proof.
  induction l as [|h r IH]; simpl; [reflexivity|].
  destruct (g h); simpl; destruct (f h); simpl; auto.
Qed.

Lemma filter_all {A} (f : A -> bool) (l : list A) :
  (forall a, In a l -> f a = true) -> filter f l = l.
Proof.
  induction l as [|h r IH]; simpl; intro H; [reflexivity|].
  rewrite (H h (or_introl eq_refl)). f_equal. apply IH. intros a Ha. apply H. now right.
Qed.

Lemma pkey_unique (ts : list Task.t) (t t' : Task.t) :
  NoDup (map Task.id ts) -> In t ts -> In t' ts -> Task.id t' = Task.id t -> t' = t.
Proof.
  induction ts as [|h r IH]; simpl; intros Hnd Hin Hin' Hid; [contradiction|].
  inversion Hnd as [|? ? Hnotin Hnd']; subst.
  destruct Hin as [->|Hin], Hin' as [->|Hin']; auto.
  - exfalso. apply Hnotin. rewrite <- Hid. now apply in_map.
  - exfalso. apply Hnotin. rewrite Hid. now apply in_map.
Qed.

Lemma readTask_by_key uid db t :
  tasks_pkey db -> In t (tasks db) ->
  readTask uid (Task.id t) db = if can_select uid t then Some t else None.
Proof.
  intros Hnd Hin. unfold readTask, tasks_select. rewrite find_filter.
  now apply find_by_key.
Qed.

(** C2. A task is read by exactly its creator and its assignee: for a task
    [t] of the store, [readTask uid (id t)] returns [t] if and only if
    [uid] is [created_by] or [assigned_to] of [t].  For every other
    identity the read returns no row, and both the by-id read and the full
    listing are what they would be if the task did not exist. *)
Theorem readTask_creator_or_assignee (uid : uuid) (db : DB) (t : Task.t) :
  tasks_pkey db -> In t (tasks db) ->
  (readTask uid (Task.id t) db = Some t <->
   uid = Task.created_by t \/ Task.assigned_to t = Some uid)
  /\ (~ (uid = Task.created_by t \/ Task.assigned_to t = Some uid) ->
      readTask uid (Task.id t) db = None
      /\ readTask uid (Task.id t) (without_task (Task.id t) db) = None
      /\ tasks_select uid (without_task (Task.id t) db) = tasks_select uid db).
Proof.
  intros Hnd Hin. rewrite (readTask_by_key uid db t Hnd Hin).
  rewrite <- can_select_iff. split.
  - destruct (can_select uid t); split; congruence.
  - intro Hno. destruct (can_select uid t) eqn:Hs; [congruence|].
    split; [reflexivity|].
    assert (Hsame : tasks_select uid (without_task (Task.id t) db) = tasks_select uid db).
    { rewrite (tasks_select_hidden uid db t Hs). apply filter_all.
      intros t' Hin'. apply negb_true_iff. apply String.eqb_neq. intro Hid.
      unfold tasks_select in Hin'. apply filter_In in Hin' as [Hin' Hs'].
      rewrite (pkey_unique _ _ _ Hnd Hin Hin' Hid) in Hs'. congruence. }
    split; [|exact Hsame].
    unfold readTask. rewrite Hsame.
    change (readTask uid (Task.id t) db = None).
    rewrite (readTask_by_key uid db t Hnd Hin), Hs. reflexivity.
Qed.

Lemma readTask_creator_or_assignee_witness :
  tasks_pkey team_db /\ In write_spec (tasks team_db)
  /\ (readTask carol "t1" team_db = Some write_spec <->
      carol = alice \/ Some bob = Some carol)
  /\ (~ (carol = alice \/ Some bob = Some carol) ->
      readTask carol "t1" team_db = None
      /\ readTask carol "t1" (without_task "t1" team_db) = None
      /\ tasks_select carol (without_task "t1" team_db) = tasks_select carol team_db).
Proof.
  assert (Hk : tasks_pkey team_db).
  { unfold tasks_pkey. simpl. constructor; [intros []|constructor]. }
  assert (Hin : In write_spec (tasks team_db)).
  { simpl. left. reflexivity. }
  split; [exact Hk|]. split; [exact Hin|].
  exact (readTask_creator_or_assignee carol team_db write_spec Hk Hin).
Defined.

(** ** Creating tasks *)

Lemma get_user_role_has_role db uid r :
  get_user_role db uid = Some r -> has_role db uid r = true.
Proof.
  unfold get_user_role, has_role.
  induction (user_roles db) as [|h rs IH]; simpl; [discriminate|].
  destruct (String.eqb (UserRole.user_id h) uid); simpl.
  - intro H. injection H as <-. destruct (UserRole.role h); reflexivity.
  - exact IH.
Qed.

(** C4. An identity that holds no manager role cannot create a task:
    [createTask] fails with [Unauthorized], commits nothing, and leaves the
    store, tasks and activity log alike, as it was. *)
Theorem createTask_non_manager_unauthorized
    (now1 : timestamptz) (id1 : uuid) (now2 : timestamptz) (id2 : uuid)
    (uid : uuid) (task : TaskData.t) (db : DB) :
  has_role db uid manager = false ->
  createTask now1 id1 now2 id2 (Some uid) task db = mkCall (Err Unauthorized) []
  /\ final_store db (createTask now1 id1 now2 id2 (Some uid) task db) = db.
Proof.
  intro Hrole.
  assert (H : createTask now1 id1 now2 id2 (Some uid) task db = mkCall (Err Unauthorized) []).
  { unfold createTask, tasks_insert, tasks_insert_check. simpl. rewrite Hrole. reflexivity. }
  rewrite H. split; reflexivity.
Qed.

Lemma createTask_non_manager_unauthorized_witness :
  has_role team_db bob manager = false
  /\ createTask 20 "t2" 21 "l1" (Some bob)
       (TaskData.mk "Take over" None todo 3 (Some bob) None) team_db
     = mkCall (Err Unauthorized) []
  /\ final_store team_db
       (createTask 20 "t2" 21 "l1" (Some bob)
          (TaskData.mk "Take over" None todo 3 (Some bob) None) team_db)
     = team_db.
Proof.
  split; [reflexivity|].
  apply (createTask_non_manager_unauthorized 20 "t2" 21 "l1" bob
           (TaskData.mk "Take over" None todo 3 (Some bob) None) team_db).
  reflexivity.
Defined.

(** ** Roles *)

Lemma has_role_app db x r rs :
  has_role (set_user_roles (user_roles db ++ rs) db) x r
  = has_role db x r || has_role (set_user_roles rs db) x r.
Proof.
  unfold has_role. simpl. apply existsb_app.
Qed.

(** C10. The store keeps role rows unique per (identity, role) pair and
    no further: an identity that holds a [user] row may add a [manager]
    row for itself and then holds both.  In such a state [get_user_role]
    answers [manager] or [user]; which of the two is decided by the order
    in which the rows are stored and by nothing else: the same rows in the
    other order give the other answer. *)
Theorem two_roles_admitted_no_selection_order :
  (forall (now : timestamptz) (new_id x : uuid) (db : DB),
      mem_uuid x (auth_users db) = true ->
      existsb (fun r => String.eqb (UserRole.id r) new_id) (user_roles db) = false ->
      has_role db x user = true ->
      has_role db x manager = false ->
      exists db',
        user_roles_insert now new_id x x (Val manager) db = Ok db'
        /\ has_role db' x manager = true /\ has_role db' x user = true)
  /\ (forall (db : DB) (x : uuid),
        has_role db x manager = true -> has_role db x user = true ->
        get_user_role db x = Some manager \/ get_user_role db x = Some user)
  /\ (forall (db : DB) (x i1 i2 : uuid) (c1 c2 : timestamptz) (rs : list UserRole.t),
        let rm := UserRole.mk i1 x manager c1 in
        let ru := UserRole.mk i2 x user c2 in
        Permutation (rm :: ru :: rs) (ru :: rm :: rs)
        /\ get_user_role (set_user_roles (rm :: ru :: rs) db) x = Some manager
        /\ get_user_role (set_user_roles (ru :: rm :: rs) db) x = Some user).
Proof.
  split; [|split].
  - intros now new_id x db Hx Hid Hu Hm.
    eexists. split.
    + unfold user_roles_insert, user_roles_insert_check, holds_role_row. simpl.
      rewrite String.eqb_refl. simpl. rewrite Hid, Hm, Hx. simpl. reflexivity.
    + rewrite !has_role_app, Hu, Hm. unfold has_role. simpl.
      rewrite String.eqb_refl. split; reflexivity.
  - intros db x Hm _. unfold get_user_role.
    destruct (filter _ (user_roles db)) as [|r rest] eqn:Hf.
    + exfalso. unfold has_role in Hm. apply existsb_exists in Hm as (r & Hin & Hr).
      apply andb_true_iff in Hr as [Hr _].
      assert (Hin' : In r (filter (fun r => String.eqb (UserRole.user_id r) x) (user_roles db)))
        by (apply filter_In; auto).
      rewrite Hf in Hin'. exact Hin'.
    + destruct (UserRole.role r); auto.
  - intros db x i1 i2 c1 c2 rs rm ru. split; [apply perm_swap|].
    unfold get_user_role. simpl. rewrite String.eqb_refl. split; reflexivity.
Qed.

Lemma two_roles_admitted_no_selection_order_witness :
  (mem_uuid bob (auth_users team_db) = true
   /\ has_role team_db bob user = true
   /\ has_role team_db bob manager = false
   /\ exists db',
        user_roles_insert 30 "r4" bob bob (Val manager) team_db = Ok db'
        /\ has_role db' bob manager = true /\ has_role db' bob user = true)
  /\ (has_role both_roles_db bob manager = true
      /\ has_role both_roles_db bob user = true
      /\ (get_user_role both_roles_db bob = Some manager
          \/ get_user_role both_roles_db bob = Some user)).
Proof.
  split.
  - split; [reflexivity|]. split; [reflexivity|]. split; [reflexivity|].
    apply (proj1 two_roles_admitted_no_selection_order 30 "r4" bob team_db);
      reflexivity.
  - split; [reflexivity|]. split; [reflexivity|].
    apply (proj1 (proj2 two_roles_admitted_no_selection_order) both_roles_db bob);
      reflexivity.
Defined.

(** ** Updating tasks *)

(** One step through a request: the guard or NOT NULL test at the head
    of [H] either fails, which closes the goal, or passes. *)
Ltac step_bind H :=
  match type of H with
  | bind (guard ?b _) _ = _ =>
      let E := fresh "Hguard" in destruct b eqn:E; simpl in H; [|discriminate H]
  | bind (not_null _ ?v) _ = _ =>
      let E := fresh "Hcol" in destruct v eqn:E; simpl in H; [|discriminate H]
  end.

Lemma update_target_by_key db uid t :
  tasks_pkey db -> In t (tasks db) ->
  update_target db uid (Task.id t)
  = if can_select uid t && can_update db uid t then Some t else None.
Proof.
  intros Hnd Hin. unfold update_target.
  exact (find_by_key (fun t' => can_select uid t' && can_update db uid t') _ t Hnd Hin).
Qed.

Lemma update_target_Some db uid id old :
  update_target db uid id = Some old ->
  In old (tasks db) /\ Task.id old = id /\ can_update db uid old = true.
Proof.
  unfold update_target. intro H. apply find_some in H as [Hin Hb].
  apply andb_true_iff in Hb as [Hid Hb]. apply andb_true_iff in Hb as [_ Hu].
  apply String.eqb_eq in Hid. auto.
Qed.

(** What an accepted update stores and returns. *)
Lemma tasks_update_Ok now uid id u db row db' :
  tasks_update now uid id u db = Ok (row, db') ->
  exists old,
    update_target db uid id = Some old
    /\ Some (Task.id row) = col_set (Some (Task.id old)) (TaskUpdate.id u)
    /\ Some (Task.title row) = col_set (Some (Task.title old)) (TaskUpdate.title u)
    /\ Task.description row = col_set (Task.description old) (TaskUpdate.description u)
    /\ Some (Task.status row) = col_set (Some (Task.status old)) (TaskUpdate.status u)
    /\ Task.priority row = col_set (Task.priority old) (TaskUpdate.priority u)
    /\ Some (Task.created_by row)
       = col_set (Some (Task.created_by old)) (TaskUpdate.created_by u)
    /\ Task.assigned_to row = col_set (Task.assigned_to old) (TaskUpdate.assigned_to u)
    /\ Task.due_date row = col_set (Task.due_date old) (TaskUpdate.due_date u)
    /\ Some (Task.created_at row)
       = col_set (Some (Task.created_at old)) (TaskUpdate.created_at u)
    /\ Task.updated_at row = now
    /\ check_passes (priority_check (Task.priority row)) = true
    /\ update_rule db uid (Some (Task.created_by row)) (Task.assigned_to row)
    /\ mem_uuid (Task.created_by row) (auth_users db) = true
    /\ (String.eqb (Task.id row) (Task.id old)
        || negb (log_references (Task.id old) (activity_logs db))) = true
    /\ db' = set_tasks (replace_task (Task.id old) row (tasks db)) db.
Proof.
  unfold tasks_update. intro H.
  destruct (update_target db uid id) as [old|] eqn:Ht; [|discriminate H].
  exists old. cbv zeta in H. unfold update_updated_at_column in H.
  repeat step_bind H.
  injection H as <- <-. simpl.
  apply tasks_update_using_true in Hguard.
  repeat match goal with H : _ = Some _ |- _ => rewrite H end.
  repeat split; try reflexivity; try assumption.
Qed.

Lemma past_policy_not_refused {A} (r : result A) :
  past_policy r -> ~ refused_by_policy r.
Proof.
  intros H [E|E]; rewrite E in H; exact H.
Qed.

(** An addressed row: the update is refused exactly when the new row fails
    the UPDATE policies; otherwise only a column constraint can stop it. *)
Lemma tasks_update_addressed now uid id u db old :
  update_target db uid id = Some old ->
  let created_by := col_set (Some (Task.created_by old)) (TaskUpdate.created_by u) in
  let assigned_to := col_set (Task.assigned_to old) (TaskUpdate.assigned_to u) in
  (update_rule db uid created_by assigned_to ->
   past_policy (tasks_update now uid id u db))
  /\ (~ update_rule db uid created_by assigned_to ->
      tasks_update now uid id u db = Err Unauthorized).
Proof.
  intros Ht created_by assigned_to. unfold tasks_update. rewrite Ht. cbv zeta.
  fold created_by assigned_to. unfold update_rule.
  rewrite <- tasks_update_using_true.
  destruct (policy_passes (tasks_update_using db uid created_by assigned_to)) eqn:Hp.
  - split; [intros _|intro H; exfalso; apply H; reflexivity].
    rewrite (update_implies_select _ _ _ _ Hp). simpl.
    repeat match goal with
           | |- context [bind (guard ?b _) _] => destruct b; simpl
           | |- context [bind (not_null _ ?v) _] => destruct v; simpl
           end; exact I.
  - split; [discriminate|intros _; reflexivity].
Qed.

(** C1 (amended). For a task [t] and an identity [uid], an update is let
    through by the policies if and only if the rule "manager and creator,
    or assignee" holds of [t] as stored and also of the row the update
    would produce.  When it fails of [t] the request addresses no row;
    when it holds of [t] and fails of the new row the request is
    [Unauthorized].  No column is restricted beyond that: an assignee
    whose payload leaves [assigned_to] alone is never refused, whichever
    other columns, [created_by] included, the payload changes. *)
Theorem tasks_update_permitted_iff
    (now : timestamptz) (uid : uuid) (u : TaskUpdate.t) (db : DB) (t : Task.t) :
  tasks_pkey db -> In t (tasks db) ->
  let r := tasks_update now uid (Task.id t) u db in
  let rule_old := update_rule db uid (Some (Task.created_by t)) (Task.assigned_to t) in
  let rule_new := update_rule db uid
                    (col_set (Some (Task.created_by t)) (TaskUpdate.created_by u))
                    (col_set (Task.assigned_to t) (TaskUpdate.assigned_to u)) in
  (~ refused_by_policy r <-> rule_old /\ rule_new)
  /\ (r = Err NotFound <-> ~ rule_old)
  /\ (r = Err Unauthorized <-> rule_old /\ ~ rule_new)
  /\ (Task.assigned_to t = Some uid -> TaskUpdate.assigned_to u = Absent ->
      ~ refused_by_policy r).
Proof.
  intros Hnd Hin r rule_old rule_new.
  assert (Hdec_old : rule_old <-> can_update db uid t = true).
  { unfold rule_old, update_rule, can_update. now rewrite tasks_update_using_true. }
  assert (Hdec_new : rule_new \/ ~ rule_new).
  { unfold rule_new, update_rule. rewrite <- tasks_update_using_true.
    destruct (policy_passes _); [left; reflexivity|right; discriminate]. }
  pose proof (update_target_by_key db uid t Hnd Hin) as Ht.
  assert (Hcases :
    (~ rule_old /\ r = Err NotFound)
    \/ (rule_old /\ rule_new /\ past_policy r)
    \/ (rule_old /\ ~ rule_new /\ r = Err Unauthorized)).
  { destruct (can_update db uid t) eqn:Hu.
    - assert (Hs : can_select uid t = true).
      { unfold can_select. apply (update_implies_select db). exact Hu. }
      rewrite Hs in Ht. simpl in Ht.
      destruct (tasks_update_addressed now uid (Task.id t) u db t Ht) as [Hyes Hno].
      right. destruct Hdec_new as [Hn|Hn].
      + left. repeat split; [now apply Hdec_old|exact Hn|exact (Hyes Hn)].
      + right. repeat split; [now apply Hdec_old|exact Hn|exact (Hno Hn)].
    - left. split.
      + intro H. apply Hdec_old in H. discriminate.
      + rewrite andb_false_r in Ht. unfold r, tasks_update. rewrite Ht. reflexivity. }
  assert (Hmain :
    (~ refused_by_policy r <-> rule_old /\ rule_new)
    /\ (r = Err NotFound <-> ~ rule_old)
    /\ (r = Err Unauthorized <-> rule_old /\ ~ rule_new)).
  { destruct Hcases as [[Ho Hr]|[(Ho & Hn & Hr)|(Ho & Hn & Hr)]].
    - assert (Href : refused_by_policy r) by (left; exact Hr).
      assert (Hnu : r <> Err Unauthorized) by (rewrite Hr; discriminate).
      tauto.
    - pose proof (past_policy_not_refused r Hr) as Hnr.
      assert (Hnf : r <> Err NotFound) by (intro E; apply Hnr; left; exact E).
      assert (Hnu : r <> Err Unauthorized) by (intro E; apply Hnr; right; exact E).
      tauto.
    - assert (Href : refused_by_policy r) by (right; exact Hr).
      assert (Hnf : r <> Err NotFound) by (rewrite Hr; discriminate).
      tauto. }
  destruct Hmain as (H1 & H2 & H3).
  split; [exact H1|]. split; [exact H2|]. split; [exact H3|].
  intros Ha Hu. apply H1. split.
  - right. exact Ha.
  - right. rewrite Hu. simpl. exact Ha.
Qed.

Lemma tasks_update_permitted_iff_witness :
  tasks_pkey team_db /\ In write_spec (tasks team_db)
  /\ Task.assigned_to write_spec = Some bob
  /\ TaskUpdate.assigned_to retitle = Absent
  /\ ~ refused_by_policy (tasks_update 20 bob "t1" retitle team_db).
Proof.
  assert (Hk : tasks_pkey team_db).
  { unfold tasks_pkey. simpl. constructor; [intros []|constructor]. }
  assert (Hin : In write_spec (tasks team_db)).
  { simpl. left. reflexivity. }
  split; [exact Hk|]. split; [exact Hin|].
  split; [reflexivity|]. split; [reflexivity|].
  apply (tasks_update_permitted_iff 20 bob retitle team_db write_spec Hk Hin);
    reflexivity.
Defined.

(** C1, as stated, fails: the second user is the assignee of the task, so
    the rule holds of the task, and yet the update that hands the task to
    the third user is refused. *)
Lemma assignee_cannot_reassign :
  update_rule team_db bob (Some (Task.created_by write_spec)) (Task.assigned_to write_spec)
  /\ tasks_update 20 bob "t1" reassign_to_carol team_db = Err Unauthorized.
Proof.
  split; [right; reflexivity|reflexivity].
Qed.

(** ** [created_by] *)

Lemma updateTask_Ok now1 now2 id2 session cache id updates db data :
  outcome (updateTask now1 now2 id2 session cache id updates db) = Ok data ->
  exists uid db1,
    session = Some uid /\ tasks_update now1 uid id updates db = Ok (data, db1).
Proof.
  unfold updateTask. destruct session as [uid|]; [|discriminate].
  destruct (tasks_update now1 uid id updates db) as [[row db1]|e] eqn:Hu;
    [|discriminate].
  intro H. exists uid, db1. split; [reflexivity|].
  destruct (activity_logs_insert _ _ _ _ _); simpl in H; congruence.
Qed.

(** C5 (amended). An accepted update whose payload does not name
    [created_by] leaves [created_by] as it was.  Every update the
    application issues is of that kind: the payload of a status change and
    the payload built from the task form do not name the column. *)
Theorem created_by_kept_unless_named :
  (forall (now : timestamptz) (uid id : uuid) (u : TaskUpdate.t) (db : DB)
          (row : Task.t) (db' : DB),
      tasks_update now uid id u db = Ok (row, db') ->
      TaskUpdate.created_by u = Absent ->
      exists old,
        update_target db uid id = Some old /\ In old (tasks db) /\ Task.id old = id
        /\ Task.created_by row = Task.created_by old)
  /\ (forall (now1 now2 : timestamptz) (id2 : uuid) (session : option uuid)
            (cache : list Task.t) (id : uuid) (status : task_status) (db : DB)
            (row : Task.t),
        outcome (updateTaskStatus now1 now2 id2 session cache id status db) = Ok row ->
        exists uid old,
          session = Some uid /\ update_target db uid id = Some old
          /\ Task.created_by row = Task.created_by old)
  /\ (forall (now1 : timestamptz) (id1 : uuid) (now2 : timestamptz) (id2 : uuid)
            (session : option uuid) (cache : list Task.t) (editing : Task.t)
            (data : TaskData.t) (db : DB) (row : Task.t),
        outcome (handleFormSubmit now1 id1 now2 id2 session cache (Some editing) data db)
        = Ok row ->
        exists uid old,
          session = Some uid /\ update_target db uid (Task.id editing) = Some old
          /\ Task.created_by row = Task.created_by old).
Proof.
  assert (Hkept : forall now uid id u db row db',
             tasks_update now uid id u db = Ok (row, db') ->
             TaskUpdate.created_by u = Absent ->
             exists old,
               update_target db uid id = Some old /\ In old (tasks db) /\ Task.id old = id
               /\ Task.created_by row = Task.created_by old).
  { intros now uid id u db row db' H Habs.
    apply tasks_update_Ok in H as (old & Ht & _ & _ & _ & _ & _ & Hcb & _).
    exists old. destruct (update_target_Some _ _ _ _ Ht) as (Hin & Hid & _).
    rewrite Habs in Hcb. simpl in Hcb. injection Hcb as Hcb. auto. }
  split; [exact Hkept|]. split.
  - intros now1 now2 id2 session cache id status db row H.
    apply updateTask_Ok in H as (uid & db1 & -> & H).
    destruct (Hkept _ _ _ _ _ _ _ H eq_refl) as (old & Ht & _ & _ & Hcb).
    exists uid, old. auto.
  - intros now1 id1 now2 id2 session cache editing data db row H. simpl in H.
    apply updateTask_Ok in H as (uid & db1 & -> & H).
    destruct (Hkept _ _ _ _ _ _ _ H eq_refl) as (old & Ht & _ & _ & Hcb).
    exists uid, old. auto.
Qed.

Lemma created_by_kept_unless_named_witness :
  (TaskUpdate.created_by retitle = Absent
   /\ exists row db',
        tasks_update 20 bob "t1" retitle team_db = Ok (row, db')
        /\ exists old,
             update_target team_db bob "t1" = Some old /\ In old (tasks team_db)
             /\ Task.id old = "t1" /\ Task.created_by row = Task.created_by old)
  /\ (exists row,
        outcome (updateTaskStatus 20 21 "l1" (Some bob) [write_spec] "t1" completed team_db)
        = Ok row
        /\ exists uid old,
             Some bob = Some uid /\ update_target team_db uid "t1" = Some old
             /\ Task.created_by row = Task.created_by old)
  /\ (exists row,
        outcome (handleFormSubmit 20 "t2" 21 "l1" (Some alice) [write_spec]
                   (Some write_spec) (TaskData.mk "Write the spec" None todo 4 (Some bob) None)
                   team_db)
        = Ok row
        /\ exists uid old,
             Some alice = Some uid
             /\ update_target team_db uid (Task.id write_spec) = Some old
             /\ Task.created_by row = Task.created_by old).
Proof.
  split; [|split].
  - split; [reflexivity|].
    eexists. eexists. split; [reflexivity|].
    apply (proj1 created_by_kept_unless_named 20 bob "t1" retitle team_db _ _ eq_refl).
    reflexivity.
  - eexists. split; [reflexivity|].
    apply (proj1 (proj2 created_by_kept_unless_named) 20 21 "l1" (Some bob)
             [write_spec] "t1" completed team_db).
    reflexivity.
  - eexists. split; [reflexivity|].
    apply (proj2 (proj2 created_by_kept_unless_named) 20 "t2" 21 "l1" (Some alice)
             [write_spec] write_spec
             (TaskData.mk "Write the spec" None todo 4 (Some bob) None) team_db).
    reflexivity.
Defined.

(** C5, as stated, fails: the assignee names [created_by] in its payload;
    the update is permitted, and the task has a new creator. *)
Lemma assignee_changes_created_by :
  exists row db',
    tasks_update 20 bob "t1" claim_for_carol team_db = Ok (row, db')
    /\ update_target team_db bob "t1" = Some write_spec
    /\ Task.created_by write_spec = alice
    /\ Task.created_by row = carol
    /\ Task.created_by row <> Task.created_by write_spec
    /\ tasks db' = [row].
Proof.
  eexists. eexists. split; [reflexivity|]. repeat split. discriminate.
Qed.

(** ** The activity log *)

Lemma tasks_insert_check_true db uid cb :
  policy_passes (tasks_insert_check db uid cb) = true <->
  has_role db uid manager = true /\ cb = Some uid.
Proof.
  unfold tasks_insert_check. rewrite <- (sql_eq_true cb uid).
  destruct (has_role db uid manager), (sql_eq cb (Some uid)) as [[|]|];
    simpl; intuition discriminate.
Qed.

(** What an accepted insert stores and returns. *)
Lemma tasks_insert_Ok now new_id uid p db row db' :
  tasks_insert now new_id uid p db = Ok (row, db') ->
  Task.id row = new_id
  /\ Some (Task.title row) = col_default None (TaskInsert.title p)
  /\ Task.description row = col_default None (TaskInsert.description p)
  /\ Some (Task.status row) = col_default status_default (TaskInsert.status p)
  /\ Task.priority row = col_default priority_default (TaskInsert.priority p)
  /\ Task.created_by row = uid
  /\ Task.assigned_to row = col_default None (TaskInsert.assigned_to p)
  /\ Task.due_date row = col_default None (TaskInsert.due_date p)
  /\ Task.created_at row = now /\ Task.updated_at row = now
  /\ check_passes (priority_check (Task.priority row)) = true
  /\ has_role db uid manager = true
  /\ mem_uuid uid (auth_users db) = true
  /\ has_task_id new_id (tasks db) = false
  /\ db' = set_tasks (tasks db ++ [row]) db.
Proof.
  unfold tasks_insert. intro H. cbv zeta in H.
  repeat step_bind H.
  injection H as <- <-. simpl.
  apply tasks_insert_check_true in Hguard as [Hrole Hcb].
  injection Hcb as Hcb. subst.
  apply negb_true_iff in Hguard2.
  repeat match goal with H : _ = Some _ |- _ => rewrite H end.
  repeat split; try reflexivity; try assumption.
Qed.

Lemma has_task_id_app x ts ts' :
  has_task_id x (ts ++ ts') = has_task_id x ts || has_task_id x ts'.
Proof.
  unfold has_task_id. apply existsb_app.
Qed.

Lemma has_task_id_replace old_id row ts :
  has_task_id old_id ts = true ->
  has_task_id (Task.id row) (replace_task old_id row ts) = true.
Proof.
  unfold has_task_id, replace_task. induction ts as [|h r IH]; simpl; [discriminate|].
  destruct (String.eqb (Task.id h) old_id) eqn:He; simpl.
  - intros _. rewrite String.eqb_refl. reflexivity.
  - intro H. rewrite (IH H). apply orb_true_r.
Qed.

Lemma In_replace old row ts :
  In old ts -> In row (replace_task (Task.id old) row ts).
Proof.
  unfold replace_task. intro H. apply in_map_iff. exists old.
  rewrite String.eqb_refl. auto.
Qed.

(** C3 (amended). An accepted creation or update is followed by a second
    request that writes the log row; the two are separate commits.  The
    first commit holds the mutated task and the log as it was.  When the
    second is accepted (the log key is fresh; for an update, the acting
    identity is registered and the returned row kept its id) it appends
    exactly one row, whose [new_value] is the row the mutation returned and
    stored, and whose [old_value] is null on create and, on update, the
    hook's cached copy of the task, whatever the store held. *)
Theorem log_row_follows_mutation :
  (forall (now1 : timestamptz) (id1 : uuid) (now2 : timestamptz) (id2 uid : uuid)
          (task : TaskData.t) (db : DB) (data : Task.t),
      outcome (createTask now1 id1 now2 id2 (Some uid) task db) = Ok data ->
      existsb (fun l => String.eqb (ActivityLog.id l) id2) (activity_logs db) = false ->
      exists db1,
        tasks db1 = (tasks db ++ [data])%list
        /\ activity_logs db1 = activity_logs db
        /\ commits (createTask now1 id1 now2 id2 (Some uid) task db)
           = [db1;
              set_activity_logs
                (activity_logs db
                 ++ [ActivityLog.mk id2 (Task.id data) (Some uid) "created"
                       None (Some data) now2]) db1])
  /\ (forall (now1 now2 : timestamptz) (id2 uid : uuid) (cache : list Task.t)
            (id : uuid) (updates : TaskUpdate.t) (db : DB) (data : Task.t),
        outcome (updateTask now1 now2 id2 (Some uid) cache id updates db) = Ok data ->
        existsb (fun l => String.eqb (ActivityLog.id l) id2) (activity_logs db) = false ->
        mem_uuid uid (auth_users db) = true ->
        Task.id data = id ->
        exists old db1,
          update_target db uid id = Some old
          /\ In data (tasks db1)
          /\ activity_logs db1 = activity_logs db
          /\ commits (updateTask now1 now2 id2 (Some uid) cache id updates db)
             = [db1;
                set_activity_logs
                  (activity_logs db
                   ++ [ActivityLog.mk id2 id (Some uid) "updated"
                         (find (fun t => String.eqb (Task.id t) id) cache)
                         (Some data) now2]) db1]).
Proof.
  split.
  - intros now1 id1 now2 id2 uid task db data Hout Hfresh.
    unfold createTask in *.
    destruct (tasks_insert now1 id1 uid _ db) as [[row db1]|e] eqn:Hins;
      [|discriminate Hout].
    assert (Hrow : row = data).
    { destruct (activity_logs_insert _ _ _ _ _); simpl in Hout; congruence. }
    subst row. exists db1.
    apply tasks_insert_Ok in Hins
      as (Hid & _ & _ & _ & _ & _ & _ & _ & _ & _ & _ & _ & Hmem & _ & ->).
    split; [reflexivity|]. split; [reflexivity|].
    unfold activity_logs_insert, activity_logs_insert_check. simpl.
    rewrite String.eqb_refl. simpl. rewrite Hfresh. simpl.
    rewrite has_task_id_app. unfold has_task_id at 2. simpl.
    rewrite String.eqb_refl, orb_true_r. simpl. rewrite Hmem. reflexivity.
  - intros now1 now2 id2 uid cache id updates db data Hout Hfresh Hmem Hid.
    unfold updateTask in *.
    destruct (tasks_update now1 uid id updates db) as [[row db1]|e] eqn:Hupd;
      [|discriminate Hout].
    assert (Hrow : row = data).
    { destruct (activity_logs_insert _ _ _ _ _); simpl in Hout; congruence. }
    subst row.
    apply tasks_update_Ok in Hupd as (old & Ht & Hrest).
    destruct (update_target_Some _ _ _ _ Ht) as (Hin & Hoid & _).
    assert (Hdb1 : db1 = set_tasks (replace_task (Task.id old) data (tasks db)) db)
      by (decompose [and] Hrest; assumption).
    subst db1. exists old.
    exists (set_tasks (replace_task (Task.id old) data (tasks db)) db).
    split; [exact Ht|].
    split; [simpl; now apply In_replace|]. split; [reflexivity|].
    unfold activity_logs_insert, activity_logs_insert_check. simpl.
    rewrite String.eqb_refl. simpl. rewrite Hfresh. simpl.
    assert (Hhas : has_task_id id (replace_task (Task.id old) data (tasks db)) = true).
    { rewrite <- Hid. apply has_task_id_replace. apply has_task_id_In.
      now apply in_map. }
    rewrite Hhas. simpl. rewrite Hmem. reflexivity.
Qed.

Lemma log_row_follows_mutation_witness :
  (exists data,
      outcome (createTask 20 "t2" 21 "l1" (Some alice)
                 (TaskData.mk "Plan" None todo 3 (Some carol) None) team_db) = Ok data
      /\ exists db1,
           tasks db1 = (tasks team_db ++ [data])%list
           /\ activity_logs db1 = activity_logs team_db
           /\ commits (createTask 20 "t2" 21 "l1" (Some alice)
                         (TaskData.mk "Plan" None todo 3 (Some carol) None) team_db)
              = [db1;
                 set_activity_logs
                   (activity_logs team_db
                    ++ [ActivityLog.mk "l1" (Task.id data) (Some alice) "created"
                          None (Some data) 21]) db1])
  /\ (exists data,
        outcome (updateTaskStatus 20 21 "l1" (Some bob) [write_spec] "t1" completed moved_db)
        = Ok data
        /\ mem_uuid bob (auth_users moved_db) = true
        /\ Task.id data = "t1"
        /\ exists old db1,
             update_target moved_db bob "t1" = Some old
             /\ In data (tasks db1)
             /\ activity_logs db1 = activity_logs moved_db
             /\ commits (updateTaskStatus 20 21 "l1" (Some bob) [write_spec] "t1"
                           completed moved_db)
                = [db1;
                   set_activity_logs
                     (activity_logs moved_db
                      ++ [ActivityLog.mk "l1" "t1" (Some bob) "updated"
                            (find (fun t => String.eqb (Task.id t) "t1") [write_spec])
                            (Some data) 21]) db1]).
Proof.
  split.
  - eexists. split; [reflexivity|].
    apply (proj1 log_row_follows_mutation 20 "t2" 21 "l1" alice
             (TaskData.mk "Plan" None todo 3 (Some carol) None) team_db);
      reflexivity.
  - eexists. split; [reflexivity|]. split; [reflexivity|]. split; [reflexivity|].
    apply (proj2 log_row_follows_mutation 20 21 "l1" bob [write_spec] "t1"
             (TaskUpdate.mk Absent Absent Absent (Val completed) Absent Absent Absent
                Absent Absent Absent)
             moved_db); reflexivity.
Defined.

(** C3, as stated, fails twice over.  The assignee's cache still holds the
    task as [todo] while the store holds it as [in_progress]: the status
    change is committed on its own, without a log row, and the log row
    written afterwards records the cached row as [old_value], not the
    committed one.  And an update that renames an unlogged task is
    accepted while the log insert that follows it is rejected (its
    [task_id] no longer exists): the call succeeds with one commit and no
    log row at all. *)
Lemma log_not_atomic_old_value_from_cache :
  (exists data db1 db2 l,
      updateTaskStatus 20 21 "l1" (Some bob) [write_spec] "t1" completed moved_db
      = mkCall (Ok data) [db1; db2]
      /\ tasks db1 = [data] /\ activity_logs db1 = []
      /\ activity_logs db2 = [l]
      /\ update_target moved_db bob "t1" = Some spec_in_progress
      /\ ActivityLog.old_value l = Some write_spec
      /\ ActivityLog.old_value l <> Some spec_in_progress)
  /\ (exists data db1,
        updateTask 20 21 "l1" (Some bob) [write_spec] "t1" rename_to_t9 team_db
        = mkCall (Ok data) [db1]
        /\ tasks db1 = [data] /\ activity_logs db1 = []).
Proof.
  split.
  - do 4 eexists. split; [reflexivity|]. repeat split. discriminate.
  - do 2 eexists. split; [reflexivity|]. repeat split.
Qed.

(** ** Registration *)

Lemma mem_uuid_app x l l' : mem_uuid x (l ++ l') = mem_uuid x l || mem_uuid x l'.
Proof.
  unfold mem_uuid. apply existsb_app.
Qed.

Lemma filter_nil {A} (f : A -> bool) (l : list A) :
  (forall a, In a l -> f a = false) -> filter f l = [].
Proof.
  induction l as [|h r IH]; simpl; intro H; [reflexivity|].
  rewrite (H h (or_introl eq_refl)). apply IH. intros a Ha. apply H. now right.
Qed.

Lemma existsb_false {A} (f : A -> bool) (l : list A) :
  (forall a, In a l -> f a = false) -> existsb f l = false.
Proof.
  induction l as [|h r IH]; simpl; intro H; [reflexivity|].
  rewrite (H h (or_introl eq_refl)). apply IH. intros a Ha. apply H. now right.
Qed.

(** An identity that is not registered has no profile and no role. *)
Lemma unregistered_has_no_rows db x :
  references_ok db -> mem_uuid x (auth_users db) = false ->
  (forall p, In p (profiles db) -> String.eqb (Profile.id p) x = false)
  /\ (forall r, In r (user_roles db) -> String.eqb (UserRole.user_id r) x = false).
Proof.
  intros [Hp Hr] Hx. split.
  - intros p Hin. destruct (String.eqb_spec (Profile.id p) x) as [E|]; [|reflexivity].
    specialize (Hp p Hin). congruence.
  - intros r Hin. destruct (String.eqb_spec (UserRole.user_id r) x) as [E|]; [|reflexivity].
    specialize (Hr r Hin). congruence.
Qed.

(** C6 (amended). Registering an identity that is not yet registered
    either writes, in one transaction, exactly one profile row (e-mail of
    the identity, full name of the metadata or the empty text) and exactly
    one role row for it, or fails and writes nothing.  It succeeds when the
    role metadata is absent, "manager" or "user" and the role is then
    [manager] for "manager" and [user] otherwise; any other role text
    makes the registration fail on the enum input. *)
Theorem registration_provisions_profile_and_role
    (now : timestamptz) (role_row_id : uuid) (NEW : AuthUser.t) (db : DB) :
  references_ok db ->
  mem_uuid (AuthUser.id NEW) (auth_users db) = false ->
  existsb (fun r => String.eqb (UserRole.id r) role_row_id) (user_roles db) = false ->
  (role_text_ok (AuthUser.meta_role NEW) ->
   exists db',
     auth_users_insert now role_row_id NEW db = Ok db'
     /\ profiles_of (AuthUser.id NEW) db'
        = [Profile.mk (AuthUser.id NEW) (AuthUser.email NEW)
             (Some (match AuthUser.meta_full_name NEW with Some n => n | None => "" end))
             None now now]
     /\ roles_of (AuthUser.id NEW) db'
        = [UserRole.mk role_row_id (AuthUser.id NEW)
             (signup_role (AuthUser.meta_role NEW)) now])
  /\ (~ role_text_ok (AuthUser.meta_role NEW) ->
      auth_users_insert now role_row_id NEW db = Err (ConstraintViolation "role")).
Proof.
  intros Hrefs Hnew Hrid.
  destruct (unregistered_has_no_rows db _ Hrefs Hnew) as [Hp Hr].
  assert (Hnoprof : existsb (fun p => String.eqb (Profile.id p) (AuthUser.id NEW))
                      (profiles db) = false) by (apply existsb_false; exact Hp).
  assert (Hnorole : forall role,
             existsb (fun r => String.eqb (UserRole.user_id r) (AuthUser.id NEW)
                               && app_role_eqb (UserRole.role r) role)
                     (user_roles db) = false).
  { intro role. apply existsb_false. intros r Hin. rewrite (Hr r Hin). reflexivity. }
  assert (Hstart : forall role,
    match AuthUser.meta_role NEW with
    | None => Ok user
    | Some s => not_null "role" (app_role_of_text s)
    end = Ok role ->
    auth_users_insert now role_row_id NEW db
    = Ok (mkDB (auth_users db ++ [AuthUser.id NEW])
               (profiles db
                ++ [Profile.mk (AuthUser.id NEW) (AuthUser.email NEW)
                      (Some (match AuthUser.meta_full_name NEW with
                             | Some n => n | None => "" end))
                      None now now])
               (user_roles db ++ [UserRole.mk role_row_id (AuthUser.id NEW) role now])
               (tasks db) (activity_logs db))).
  { intros role Hrole. unfold auth_users_insert, handle_new_user. rewrite Hnew. simpl.
    rewrite Hnoprof. simpl. rewrite mem_uuid_app. unfold mem_uuid at 2. simpl.
    rewrite String.eqb_refl, orb_true_r. simpl. rewrite Hrole. simpl.
    rewrite Hrid. simpl. unfold has_role. simpl. rewrite Hnorole. simpl.
    reflexivity. }
  split.
  - intro Hok.
    assert (Hrole : match AuthUser.meta_role NEW with
                    | None => Ok user
                    | Some s => not_null "role" (app_role_of_text s)
                    end = Ok (signup_role (AuthUser.meta_role NEW))).
    { unfold role_text_ok, signup_role, app_role_of_text in *.
      destruct (AuthUser.meta_role NEW) as [s|]; [|reflexivity].
      destruct (String.eqb s "manager"); [reflexivity|].
      destruct (String.eqb s "user"); [reflexivity|]. congruence. }
    eexists. split; [exact (Hstart _ Hrole)|].
    unfold profiles_of, roles_of. simpl. rewrite !filter_app. simpl.
    rewrite String.eqb_refl.
    rewrite (filter_nil _ (profiles db) Hp), (filter_nil _ (user_roles db) Hr).
    split; reflexivity.
  - intro Hbad. unfold role_text_ok in Hbad.
    destruct (AuthUser.meta_role NEW) as [s|] eqn:Hm; [|exfalso; apply Hbad; exact I].
    destruct (app_role_of_text s) as [r|] eqn:Hs; [exfalso; apply Hbad; discriminate|].
    unfold auth_users_insert, handle_new_user. rewrite Hnew. simpl.
    rewrite Hnoprof. simpl. rewrite mem_uuid_app. unfold mem_uuid at 2. simpl.
    rewrite String.eqb_refl, orb_true_r. simpl. rewrite Hm, Hs. reflexivity.
Qed.

Lemma registration_provisions_profile_and_role_witness :
  references_ok team_db
  /\ mem_uuid dave (auth_users team_db) = false
  /\ (role_text_ok (Some "manager")
      /\ exists db',
           auth_users_insert 40 "r4" (dave_signs_up (Some "manager")) team_db = Ok db'
           /\ profiles_of dave db'
              = [Profile.mk dave "dave@example.org" (Some "Dave") None 40 40]
           /\ roles_of dave db' = [UserRole.mk "r4" dave manager 40])
  /\ (role_text_ok None
      /\ exists db',
           auth_users_insert 40 "r4" (dave_signs_up None) team_db = Ok db'
           /\ profiles_of dave db'
              = [Profile.mk dave "dave@example.org" (Some "Dave") None 40 40]
           /\ roles_of dave db' = [UserRole.mk "r4" dave user 40])
  /\ (~ role_text_ok (Some "admin")
      /\ auth_users_insert 40 "r4" (dave_signs_up (Some "admin")) team_db
         = Err (ConstraintViolation "role")).
Proof.
  assert (Hrefs : references_ok team_db).
  { split; intros x Hin; simpl in Hin;
      repeat (destruct Hin as [<-|Hin]; [reflexivity|]); contradiction. }
  assert (Hgood : role_text_ok (Some "manager")) by discriminate.
  assert (Hbad : ~ role_text_ok (Some "admin")) by (intro H; apply H; reflexivity).
  split; [exact Hrefs|]. split; [reflexivity|]. split; [|split].
  - split; [exact Hgood|].
    exact (proj1 (registration_provisions_profile_and_role 40 "r4"
                    (dave_signs_up (Some "manager")) team_db Hrefs eq_refl eq_refl)
                 Hgood).
  - split; [exact I|].
    exact (proj1 (registration_provisions_profile_and_role 40 "r4"
                    (dave_signs_up None) team_db Hrefs eq_refl eq_refl)
                 I).
  - split; [exact Hbad|].
    exact (proj2 (registration_provisions_profile_and_role 40 "r4"
                    (dave_signs_up (Some "admin")) team_db Hrefs eq_refl eq_refl)
                 Hbad).
Defined.

(** C6, as stated, fails: a sign-up whose role metadata is a text the
    enum does not know is not given the role [user]; the registration
    fails and the identity gets neither profile nor role. *)
Lemma invalid_role_text_aborts_registration :
  auth_users_insert 40 "r4" (dave_signs_up (Some "admin")) team_db
  = Err (ConstraintViolation "role")
  /\ forall db', auth_users_insert 40 "r4" (dave_signs_up (Some "admin")) team_db <> Ok db'.
Proof.
  split; [reflexivity|]. intros db'. discriminate.
Qed.

(** ** Priority *)

Lemma priority_check_admitted p :
  check_passes (priority_check p) = true -> priority_admitted p.
Proof.
  unfold priority_admitted. destruct p as [n|]; [|now left].
  unfold priority_check. simpl.
  destruct (1 <=? n) eqn:H1, (n <=? 5) eqn:H2; simpl; try discriminate.
  intros _. right. exists n. apply Z.leb_le in H1, H2. auto.
Qed.

(** C7 (amended). A stored priority is null or an integer between 1 and 5,
    after every accepted insert and update.  A task inserted without a
    priority receives the column's default, 1.  The value 3 is the one the
    task form starts from; [createTask] always names the priority it was
    given, so through the hook no task takes the column default. *)
Theorem priority_range_and_default :
  (forall (now : timestamptz) (new_id uid : uuid) (p : TaskInsert.t) (db : DB)
          (row : Task.t) (db' : DB),
      tasks_insert now new_id uid p db = Ok (row, db') ->
      priority_admitted (Task.priority row)
      /\ (TaskInsert.priority p = Absent -> Task.priority row = Some 1))
  /\ (forall (now : timestamptz) (uid id : uuid) (u : TaskUpdate.t) (db : DB)
            (row : Task.t) (db' : DB),
        tasks_update now uid id u db = Ok (row, db') ->
        priority_admitted (Task.priority row))
  /\ FormData.priority initial_form = 3
  /\ (forall (now1 : timestamptz) (id1 : uuid) (now2 : timestamptz) (id2 : uuid)
            (session : option uuid) (task : TaskData.t) (db : DB) (data : Task.t),
        outcome (createTask now1 id1 now2 id2 session task db) = Ok data ->
        Task.priority data = Some (TaskData.priority task)
        /\ 1 <= TaskData.priority task <= 5).
Proof.
  split; [|split; [|split]].
  - intros now new_id uid p db row db' H.
    apply tasks_insert_Ok in H as (_ & _ & _ & _ & Hp & _ & _ & _ & _ & _ & Hc & _).
    split; [now apply priority_check_admitted|].
    intro Habs. rewrite Hp, Habs. reflexivity.
  - intros now uid id u db row db' H.
    apply tasks_update_Ok in H as (old & _ & _ & _ & _ & _ & _ & _ & _ & _ & _ & _ & Hc & _).
    now apply priority_check_admitted.
  - reflexivity.
  - intros now1 id1 now2 id2 session task db data H. unfold createTask in H.
    destruct session as [uid|]; [|discriminate H].
    destruct (tasks_insert now1 id1 uid _ db) as [[row db1]|e] eqn:Hins;
      [|discriminate H].
    assert (Hrow : row = data).
    { destruct (activity_logs_insert _ _ _ _ _); simpl in H; congruence. }
    subst row.
    apply tasks_insert_Ok in Hins as (_ & _ & _ & _ & Hp & _ & _ & _ & _ & _ & Hc & _).
    simpl in Hp. split; [exact Hp|].
    apply priority_check_admitted in Hc. rewrite Hp in Hc.
    destruct Hc as [Hc|(n & Hn & Hr)]; [discriminate|]. injection Hn as ->. exact Hr.
Qed.

Lemma priority_range_and_default_witness :
  (exists row db',
      tasks_insert 20 "t2" alice plan_without_priority team_db = Ok (row, db')
      /\ TaskInsert.priority plan_without_priority = Absent
      /\ priority_admitted (Task.priority row)
      /\ Task.priority row = Some 1)
  /\ (exists row db',
        tasks_update 20 bob "t1" retitle team_db = Ok (row, db')
        /\ priority_admitted (Task.priority row))
  /\ (exists data,
        outcome (createTask 20 "t2" 21 "l1" (Some alice)
                   (TaskData.mk "Plan" None todo 3 (Some carol) None) team_db) = Ok data
        /\ Task.priority data = Some 3 /\ 1 <= 3 <= 5).
Proof.
  split; [|split].
  - do 2 eexists. split; [reflexivity|]. split; [reflexivity|].
    destruct (proj1 priority_range_and_default 20 "t2" alice plan_without_priority
                team_db _ _ eq_refl) as [Hadm Hdef].
    split; [exact Hadm|exact (Hdef eq_refl)].
  - do 2 eexists. split; [reflexivity|].
    exact (proj1 (proj2 priority_range_and_default) 20 bob "t1" retitle team_db
             _ _ eq_refl).
  - eexists. split; [reflexivity|].
    exact (proj2 (proj2 (proj2 priority_range_and_default)) 20 "t2" 21 "l1" (Some alice)
             (TaskData.mk "Plan" None todo 3 (Some carol) None) team_db _ eq_refl).
Defined.

(** C7, as stated, fails: a task inserted without a priority gets 1, not
    3, and a task inserted with a null priority is stored without any. *)
Lemma default_priority_is_one :
  (exists row db',
      tasks_insert 20 "t2" alice plan_without_priority team_db = Ok (row, db')
      /\ Task.priority row = Some 1 /\ Task.priority row <> Some 3)
  /\ (exists row db',
        tasks_insert 20 "t2" alice plan_null_priority team_db = Ok (row, db')
        /\ Task.priority row = None).
Proof.
  split; do 2 eexists; (split; [reflexivity|]); simpl.
  - split; [reflexivity|discriminate].
  - reflexivity.
Qed.

(** ** Deletions *)

Lemma mem_uuid_In x l : mem_uuid x l = true <-> In x l.
Proof.
  unfold mem_uuid. rewrite existsb_exists. split.
  - intros (y & Hin & He). apply String.eqb_eq in He. now subst.
  - intro H. exists x. rewrite String.eqb_refl. auto.
Qed.

(** C8 (amended). Deleting a task removes the task and every log row that
    references it.  Deleting an identity sets [assigned_to] to null on the
    tasks assigned to it that somebody else created, and keeps those rows,
    every other column but the [updated_at] stamp unchanged; the tasks the
    identity created itself are deleted with it, assigned to it or not,
    and no task and no log row of a deleted task refers to it afterwards. *)
Theorem deletion_cascades :
  (forall (uid id : uuid) (db : DB) (t : Task.t),
      In t (tasks db) -> Task.id t = id ->
      can_select uid t = true -> can_delete db uid t = true ->
      ~ In t (tasks (tasks_delete uid id db))
      /\ forall l, In l (activity_logs (tasks_delete uid id db)) ->
                   ActivityLog.task_id l <> id)
  /\ (forall (now : timestamptz) (x : uuid) (db : DB) (t : Task.t),
        In t (tasks db) -> Task.assigned_to t = Some x -> Task.created_by t <> x ->
        In (unassigned now t) (tasks (auth_users_delete now x db)))
  /\ (forall (now : timestamptz) (x : uuid) (db : DB) (t : Task.t),
        tasks_pkey db -> In t (tasks db) -> Task.created_by t = x ->
        ~ In (Task.id t) (map Task.id (tasks (auth_users_delete now x db)))
        /\ forall l, In l (activity_logs (auth_users_delete now x db)) ->
                     ActivityLog.task_id l <> Task.id t)
  /\ (forall (now : timestamptz) (x : uuid) (db : DB) (t' : Task.t),
        In t' (tasks (auth_users_delete now x db)) ->
        Task.created_by t' <> x /\ Task.assigned_to t' <> Some x).
Proof.
  split; [|split; [|split]].
  - intros uid id db t Hin Hid Hs Hd. unfold tasks_delete. simpl. split.
    + intro H. apply filter_In in H as [_ H]. apply negb_true_iff in H.
      rewrite Hid, String.eqb_refl, Hs, Hd in H. discriminate.
    + intros l Hl E. apply filter_In in Hl as [_ Hl]. apply negb_true_iff in Hl.
      assert (Hm : mem_uuid (ActivityLog.task_id l)
                     (map Task.id
                        (filter (fun t0 => String.eqb (Task.id t0) id
                                           && (can_select uid t0 && can_delete db uid t0))
                                (tasks db))) = true).
      { apply mem_uuid_In. rewrite E, <- Hid. apply in_map. apply filter_In.
        split; [exact Hin|]. rewrite Hid, String.eqb_refl, Hs, Hd. reflexivity. }
      congruence.
  - intros now x db t Hin Ha Hc. unfold auth_users_delete, tasks_without_user. simpl.
    apply in_map_iff. exists t. split.
    + unfold opt_is. rewrite Ha, String.eqb_refl. reflexivity.
    + apply filter_In. split; [exact Hin|]. apply negb_true_iff.
      now apply String.eqb_neq.
  - intros now x db t Hk Hin Hc. split.
    + intro Hyes. unfold auth_users_delete, tasks_without_user in Hyes. simpl in Hyes.
      apply in_map_iff in Hyes as (t1 & Hid1 & Hin1).
      apply in_map_iff in Hin1 as (t0 & Ht0 & Hin0).
      apply filter_In in Hin0 as [Hin0 Hc0]. apply negb_true_iff in Hc0.
      apply String.eqb_neq in Hc0. apply Hc0.
      assert (Hid0 : Task.id t0 = Task.id t).
      { rewrite <- Hid1, <- Ht0. destruct (opt_is x (Task.assigned_to t0)); reflexivity. }
      rewrite (pkey_unique _ _ _ Hk Hin Hin0 Hid0). exact Hc.
    + intros l Hl E. unfold auth_users_delete in Hl. simpl in Hl.
      apply in_map_iff in Hl as (l0 & Hl0 & Hin0).
      apply filter_In in Hin0 as [_ Hm]. apply negb_true_iff in Hm.
      assert (E0 : ActivityLog.task_id l0 = Task.id t).
      { rewrite <- E, <- Hl0. destruct (opt_is x (ActivityLog.user_id l0)); reflexivity. }
      assert (Hyes : mem_uuid (ActivityLog.task_id l0)
                       (map Task.id
                          (filter (fun t0 => String.eqb (Task.created_by t0) x) (tasks db)))
                     = true).
      { apply mem_uuid_In. rewrite E0. apply in_map. apply filter_In.
        split; [exact Hin|]. now apply String.eqb_eq. }
      congruence.
  - intros now x db t' Hin. unfold auth_users_delete, tasks_without_user in Hin.
    simpl in Hin. apply in_map_iff in Hin as (t0 & Ht0 & Hin0).
    apply filter_In in Hin0 as [_ Hc0]. apply negb_true_iff in Hc0.
    apply String.eqb_neq in Hc0.
    destruct (opt_is x (Task.assigned_to t0)) eqn:Ho; subst t'; simpl.
    + split; [exact Hc0|discriminate].
    + split; [exact Hc0|]. intro E. unfold opt_is in Ho. rewrite E in Ho.
      rewrite String.eqb_refl in Ho. discriminate.
Qed.

Lemma deletion_cascades_witness :
  (In review (tasks own_db) /\ can_select alice review = true
   /\ can_delete own_db alice review = true
   /\ ~ In review (tasks (tasks_delete alice "t2" own_db))
   /\ forall l, In l (activity_logs (tasks_delete alice "t2" own_db)) ->
                ActivityLog.task_id l <> "t2")
  /\ (Task.assigned_to write_spec = Some bob /\ Task.created_by write_spec <> bob
      /\ In (unassigned 50 write_spec) (tasks (auth_users_delete 50 bob own_db)))
  /\ (tasks_pkey own_db /\ Task.created_by review = alice
      /\ ~ In "t2" (map Task.id (tasks (auth_users_delete 50 alice own_db)))
      /\ forall l, In l (activity_logs (auth_users_delete 50 alice own_db)) ->
                   ActivityLog.task_id l <> "t2")
  /\ (In (unassigned 50 write_spec) (tasks (auth_users_delete 50 bob own_db))
      /\ Task.created_by (unassigned 50 write_spec) <> bob
      /\ Task.assigned_to (unassigned 50 write_spec) <> Some bob).
Proof.
  assert (Hin : In review (tasks own_db)) by (simpl; right; left; reflexivity).
  assert (Hin' : In write_spec (tasks own_db)) by (simpl; left; reflexivity).
  assert (Hne : Task.created_by write_spec <> bob) by discriminate.
  assert (Hk : tasks_pkey own_db).
  { unfold tasks_pkey. simpl. constructor.
    - simpl. intros [H|[]]. discriminate H.
    - constructor; [intros []|constructor]. }
  assert (Hgone : In (unassigned 50 write_spec) (tasks (auth_users_delete 50 bob own_db))).
  { exact (proj1 (proj2 deletion_cascades) 50 bob own_db write_spec Hin' eq_refl Hne). }
  split; [|split; [|split]].
  - split; [exact Hin|]. split; [reflexivity|]. split; [reflexivity|].
    exact (proj1 deletion_cascades alice "t2" own_db review Hin eq_refl eq_refl eq_refl).
  - split; [reflexivity|]. split; [exact Hne|]. exact Hgone.
  - split; [exact Hk|]. split; [reflexivity|].
    exact (proj1 (proj2 (proj2 deletion_cascades)) 50 alice own_db review Hk Hin eq_refl).
  - split; [exact Hgone|].
    exact (proj2 (proj2 (proj2 deletion_cascades)) 50 bob own_db _ Hgone).
Defined.

(** C8, as stated, fails: the manager is the assignee of a task she also
    created; deleting her does not leave that task in place with a null
    assignee, it deletes the task and its log row. *)
Lemma deleting_creator_assignee_deletes_task :
  In review (tasks own_db)
  /\ Task.assigned_to review = Some alice
  /\ tasks (auth_users_delete 50 alice own_db) = []
  /\ activity_logs (auth_users_delete 50 alice own_db) = [].
Proof.
  repeat split. simpl. right. left. reflexivity.
Qed.

(** ** Lengths of title and description *)

Lemma set_field_fields k v o :
  In k (fields (set_field k v o))
  /\ forall k', In k' (fields o) -> In k' (fields (set_field k v o)).
Proof.
  unfold fields. induction o as [|[k0 v0] r [IH1 IH2]]; simpl.
  - split; [now left|contradiction].
  - destruct (String.eqb_spec k0 k) as [->|Hne]; simpl.
    + split; [now left|]. intros k' [H|H]; auto.
    + split; [now right|]. intros k' [H|H]; auto.
Qed.

Lemma fieldErrors_fields k issues :
  In k (fields issues) -> In k (fields (fieldErrors issues)).
Proof.
  unfold fieldErrors.
  assert (H : forall acc, In k (fields acc) \/ In k (fields issues) ->
                          In k (fields (fold_left
                                          (fun o e => set_field (fst e) (snd e) o)
                                          issues acc))).
  { induction issues as [|[k0 v0] r IH]; simpl; intros acc [Ha|Hi];
      try assumption; try contradiction.
    - apply IH. left. exact (proj2 (set_field_fields k0 v0 acc) k Ha).
    - apply IH. destruct Hi as [Hi|Hi]; [left|now right].
      rewrite <- Hi. exact (proj1 (set_field_fields k0 v0 acc)). }
  intro Hin. apply H. now right.
Qed.

Lemma handleSubmit_rejects formData k :
  In k (fields (taskSchema
                  (TaskData.mk (FormData.title formData)
                     (if String.eqb (FormData.description formData) "" then None
                      else Some (FormData.description formData))
                     (FormData.status formData) (FormData.priority formData)
                     (FormData.assigned_to formData) (FormData.due_date formData)))) ->
  exists errors, handleSubmit formData = inl errors /\ In k (fields errors).
Proof.
  unfold handleSubmit. intro Hin.
  destruct (taskSchema _) as [|i r] eqn:Hs; [contradiction|].
  eexists. split; [reflexivity|]. now apply fieldErrors_fields.
Qed.

(** One step through a request whose failure is under study. *)
Ltac step_goal H :=
  match type of H with
  | bind (guard ?b _) _ = _ => destruct b; simpl in H
  | bind (not_null _ ?v) _ = _ => destruct v; simpl in H
  end.

(** C9 (amended). The limits on title and description are those of the
    task form, not of the store.  The form refuses to submit, and issues
    no request, when the title is shorter than 1 or longer than 200
    characters or the description is longer than 2000, and names the
    failing field.  The store only requires the title not to be null: a
    write whose payload names a title is never rejected on [title], and
    no write is ever rejected on [description], whatever their lengths. *)
Theorem length_limits_in_form_not_in_store :
  (forall (now1 : timestamptz) (id1 : uuid) (now2 : timestamptz) (id2 : uuid)
          (session : option uuid) (cache : list Task.t) (editing : option Task.t)
          (formData : FormData.t) (db : DB),
      (String.length (FormData.title formData) < 1
       \/ 200 < String.length (FormData.title formData))%nat ->
      exists errors,
        submit_form now1 id1 now2 id2 session cache editing formData db = inl errors
        /\ In "title" (fields errors))
  /\ (forall (now1 : timestamptz) (id1 : uuid) (now2 : timestamptz) (id2 : uuid)
            (session : option uuid) (cache : list Task.t) (editing : option Task.t)
            (formData : FormData.t) (db : DB),
        (2000 < String.length (FormData.description formData))%nat ->
        exists errors,
          submit_form now1 id1 now2 id2 session cache editing formData db = inl errors
          /\ In "description" (fields errors))
  /\ (forall (now : timestamptz) (new_id uid : uuid) (p : TaskInsert.t) (db : DB)
            (title : string) (field : string),
        TaskInsert.title p = Val title ->
        tasks_insert now new_id uid p db = Err (ConstraintViolation field) ->
        field <> "title" /\ field <> "description")
  /\ (forall (now : timestamptz) (uid id : uuid) (u : TaskUpdate.t) (db : DB)
            (field : string),
        TaskUpdate.title u <> Null ->
        tasks_update now uid id u db = Err (ConstraintViolation field) ->
        field <> "title" /\ field <> "description").
Proof.
  split; [|split; [|split]].
  - intros now1 id1 now2 id2 session cache editing formData db Hlen.
    unfold submit_form.
    destruct (handleSubmit_rejects formData "title") as (errors & -> & Hin).
    + unfold taskSchema, title_issues, fields. simpl. rewrite !map_app, !in_app_iff.
      left. destruct Hlen as [Hlen|Hlen].
      * left. apply Nat.ltb_lt in Hlen. rewrite Hlen. now left.
      * right. apply Nat.ltb_lt in Hlen. rewrite Hlen. now left.
    + exists errors. auto.
  - intros now1 id1 now2 id2 session cache editing formData db Hlen.
    unfold submit_form.
    destruct (handleSubmit_rejects formData "description") as (errors & -> & Hin).
    + unfold taskSchema, description_issues, fields. simpl.
      rewrite !map_app, !in_app_iff. right. left.
      destruct (String.eqb_spec (FormData.description formData) "") as [E|_].
      * rewrite E in Hlen. simpl in Hlen. lia.
      * apply Nat.ltb_lt in Hlen. rewrite Hlen. now left.
    + exists errors. auto.
  - intros now new_id uid p db title field Ht H.
    unfold tasks_insert in H. cbv zeta in H. rewrite Ht in H.
    repeat step_goal H; try discriminate H;
      injection H as <-; split; discriminate.
  - intros now uid id u db field Ht H.
    unfold tasks_update in H.
    destruct (update_target db uid id) as [old|]; [|discriminate H].
    cbv zeta in H. unfold update_updated_at_column in H.
    destruct (TaskUpdate.title u) as [| |s]; [|congruence|]; simpl in H;
      repeat step_goal H; try discriminate H;
      injection H as <-; split; discriminate.
Qed.

Lemma length_limits_in_form_not_in_store_witness :
  ((200 < String.length long_title)%nat
   /\ exists errors,
        submit_form 20 "t2" 21 "l1" (Some alice) [write_spec] None
          (FormData.mk long_title "All of it" todo 3 None None) team_db
        = inl errors
        /\ In "title" (fields errors))
  /\ ((2000 < String.length long_description)%nat
      /\ exists errors,
           submit_form 20 "t2" 21 "l1" (Some alice) [write_spec] None
             (FormData.mk "Plan" long_description todo 3 None None) team_db
           = inl errors
           /\ In "description" (fields errors))
  /\ (tasks_insert 20 "t2" alice plan_priority_nine team_db
      = Err (ConstraintViolation "priority")
      /\ "priority" <> "title" /\ "priority" <> "description")
  /\ (TaskUpdate.title priority_zero <> Null
      /\ tasks_update 20 bob "t1" priority_zero team_db
         = Err (ConstraintViolation "priority")
      /\ "priority" <> "title" /\ "priority" <> "description").
Proof.
  assert (Htitle : (String.length
                      (FormData.title (FormData.mk long_title "All of it" todo 3 None None)) < 1
                    \/ 200 < String.length
                         (FormData.title (FormData.mk long_title "All of it" todo 3 None None)))%nat).
  { right. vm_compute. lia. }
  assert (Hdesc : (2000 < String.length
                     (FormData.description
                        (FormData.mk "Plan" long_description todo 3 None None)))%nat).
  { vm_compute. lia. }
  assert (Hnn : TaskUpdate.title priority_zero <> Null) by discriminate.
  split; [|split; [|split]].
  - split; [vm_compute; lia|].
    exact (proj1 length_limits_in_form_not_in_store 20 "t2" 21 "l1" (Some alice)
             [write_spec] None (FormData.mk long_title "All of it" todo 3 None None)
             team_db Htitle).
  - split; [vm_compute; lia|].
    exact (proj1 (proj2 length_limits_in_form_not_in_store) 20 "t2" 21 "l1" (Some alice)
             [write_spec] None (FormData.mk "Plan" long_description todo 3 None None)
             team_db Hdesc).
  - split; [reflexivity|].
    exact (proj1 (proj2 (proj2 length_limits_in_form_not_in_store)) 20 "t2" alice
             plan_priority_nine team_db "Plan" "priority" eq_refl eq_refl).
  - split; [exact Hnn|]. split; [reflexivity|].
    exact (proj2 (proj2 (proj2 length_limits_in_form_not_in_store)) 20 bob "t1"
             priority_zero team_db "priority" Hnn eq_refl).
Defined.

(** C9, as stated, fails: the store accepts a task whose title has 201
    characters, and one whose title is empty. *)
Lemma store_accepts_any_title_length :
  (exists row db',
      tasks_insert 20 "t2" alice (plan_titled long_title) team_db = Ok (row, db')
      /\ String.length (Task.title row) = 201%nat)
  /\ (exists row db',
        tasks_insert 20 "t2" alice (plan_titled "") team_db = Ok (row, db')
        /\ String.length (Task.title row) = 0%nat).
Proof.
  split; do 2 eexists; (split; [vm_compute; reflexivity|]); reflexivity.
Qed.

(** * Further properties *)

(** ** The integrity of the store *)

Lemma tasks_insert_refs now new_id uid p db row db' :
  tasks_insert now new_id uid p db = Ok (row, db') ->
  references_user db (Task.assigned_to row) = true.
Proof.
  unfold tasks_insert. intro H. cbv zeta in H.
  repeat step_bind H. injection H as <- <-. simpl. assumption.
Qed.

Lemma tasks_update_keys now uid id u db row db' :
  tasks_update now uid id u db = Ok (row, db') ->
  exists old,
    update_target db uid id = Some old
    /\ references_user db (Task.assigned_to row) = true
    /\ (Task.id row = Task.id old \/ has_task_id (Task.id row) (tasks db) = false)
    /\ (Task.id row = Task.id old
        \/ log_references (Task.id old) (activity_logs db) = false).
Proof.
  unfold tasks_update. intro H.
  destruct (update_target db uid id) as [old|] eqn:Ht; [|discriminate H].
  exists old. cbv zeta in H. unfold update_updated_at_column in H.
  repeat step_bind H. injection H as <- <-. simpl.
  split; [reflexivity|]. split; [assumption|]. split.
  - apply orb_true_iff in Hguard2 as [E|E].
    + left. now apply String.eqb_eq.
    + right. now apply negb_true_iff.
  - apply orb_true_iff in Hguard5 as [E|E].
    + left. now apply String.eqb_eq.
    + right. now apply negb_true_iff.
Qed.

Lemma NoDup_map_filter {A B} (f : A -> B) (g : A -> bool) (l : list A) :
  NoDup (map f l) -> NoDup (map f (filter g l)).
Proof.
  induction l as [|h r IH]; simpl; intro H; [constructor|].
  inversion H as [|? ? Hn Hr]; subst.
  destruct (g h); simpl; [|auto].
  constructor; [|auto].
  intro Hin. apply Hn. apply in_map_iff in Hin as (a & Ha & Hin).
  apply filter_In in Hin as [Hin _]. rewrite <- Ha. now apply in_map.
Qed.

Lemma replace_task_absent old_id row ts :
  ~ In old_id (map Task.id ts) -> replace_task old_id row ts = ts.
Proof.
  unfold replace_task. induction ts as [|h r IH]; simpl; intro H; [reflexivity|].
  destruct (String.eqb_spec (Task.id h) old_id) as [E|_].
  - exfalso. apply H. now left.
  - f_equal. apply IH. intro Hin. apply H. now right.
Qed.

Lemma replace_task_ids old_id row ts x :
  In x (map Task.id (replace_task old_id row ts)) ->
  In x (map Task.id ts) \/ x = Task.id row.
Proof.
  unfold replace_task. rewrite map_map. intro H.
  apply in_map_iff in H as (t & Ht & Hin).
  destruct (String.eqb (Task.id t) old_id); [now right|].
  left. rewrite <- Ht. now apply in_map.
Qed.

Lemma replace_task_pkey old_id row ts :
  NoDup (map Task.id ts) ->
  Task.id row = old_id \/ ~ In (Task.id row) (map Task.id ts) ->
  NoDup (map Task.id (replace_task old_id row ts)).
Proof.
  induction ts as [|h r IH]; intros Hnd Hrow; [constructor|].
  inversion Hnd as [|? ? Hn Hr]; subst. simpl.
  destruct (String.eqb_spec (Task.id h) (old_id)) as [E|Hne].
  - fold (replace_task old_id row r).
    rewrite replace_task_absent by (rewrite <- E; exact Hn).
    constructor; [|exact Hr].
    destruct Hrow as [Hrow|Hrow].
    + rewrite Hrow, <- E. exact Hn.
    + intro Hin. apply Hrow. simpl. now right.
  - fold (replace_task old_id row r). constructor.
    + intro Hin. apply replace_task_ids in Hin as [Hin|Hin]; [now apply Hn|].
      destruct Hrow as [Hrow|Hrow].
      * apply Hne. congruence.
      * apply Hrow. simpl. left. exact Hin.
    + apply IH; [exact Hr|].
      destruct Hrow as [Hrow|Hrow]; [now left|right].
      intro Hin. apply Hrow. simpl. now right.
Qed.

Lemma replace_task_In old_id row ts t :
  In t (replace_task old_id row ts) ->
  t = row \/ (In t ts /\ Task.id t <> old_id).
Proof.
  unfold replace_task. intro H. apply in_map_iff in H as (t0 & Ht & Hin).
  destruct (String.eqb_spec (Task.id t0) old_id) as [E|Hne].
  - left. now symmetry.
  - right. subst t0. auto.
Qed.

Lemma replace_task_keeps old_id row ts t :
  In t ts -> Task.id t <> old_id -> In t (replace_task old_id row ts).
Proof.
  unfold replace_task. intros Hin Hne. apply in_map_iff. exists t.
  split; [|exact Hin]. apply String.eqb_neq in Hne. now rewrite Hne.
Qed.

Lemma has_task_id_replace_other old_id row ts x :
  has_task_id x ts = true -> x <> old_id ->
  has_task_id x (replace_task old_id row ts) = true.
Proof.
  intros H Hne. apply has_task_id_In in H. apply in_map_iff in H as (t & Hid & Hin).
  apply has_task_id_In. rewrite <- Hid. apply in_map.
  apply replace_task_keeps; [exact Hin|congruence].
Qed.

Lemma references_user_more db db' v :
  (forall x, mem_uuid x (auth_users db) = true -> mem_uuid x (auth_users db') = true) ->
  references_user db v = true -> references_user db' v = true.
Proof.
  unfold references_user. destruct v; auto.
Qed.

Lemma tasks_insert_keeps_ok now new_id uid p db row db' :
  store_ok db -> tasks_insert now new_id uid p db = Ok (row, db') -> store_ok db'.
Proof.
  intros (Hk & Ht & Hl & Hr) H.
  pose proof (tasks_insert_refs _ _ _ _ _ _ _ H) as Hasg.
  apply tasks_insert_Ok in H
    as (Hid & _ & _ & _ & _ & Hcb & _ & _ & _ & _ & Hc & _ & Hmem & Hfresh & ->).
  split; [|split; [|split]].
  - unfold tasks_pkey in *. simpl. rewrite map_app. simpl.
    apply NoDup_app; [exact Hk|constructor; [intros []|constructor]|].
    intros x Hx [Hx'|[]]. subst x. rewrite Hid in Hx.
    apply has_task_id_In in Hx. congruence.
  - simpl. intros t Hin. apply in_app_iff in Hin as [Hin|[<-|[]]].
    + exact (Ht t Hin).
    + rewrite Hcb. split; [exact Hmem|]. split; [exact Hasg|].
      now apply priority_check_admitted.
  - simpl. intros l Hin. destruct (Hl l Hin) as [H1 H2]. split; [|exact H2].
    rewrite has_task_id_app, H1. reflexivity.
  - exact Hr.
Qed.

Lemma tasks_update_keeps_ok now uid id u db row db' :
  store_ok db -> tasks_update now uid id u db = Ok (row, db') -> store_ok db'.
Proof.
  intros (Hk & Ht & Hl & Hr) H.
  destruct (tasks_update_keys _ _ _ _ _ _ _ H) as (old & Htg & Hasg & Hkey & Hlog).
  apply tasks_update_Ok in H as (old' & Htg' & Hrest).
  rewrite Htg in Htg'. injection Htg' as <-.
  destruct Hrest as (_ & _ & _ & _ & _ & _ & _ & _ & _ & _ & Hc & _ & Hmem & _ & ->).
  destruct (update_target_Some _ _ _ _ Htg) as (Hin_old & _ & _).
  split; [|split; [|split]].
  - unfold tasks_pkey in *. simpl. apply replace_task_pkey; [exact Hk|].
    destruct Hkey as [E|E]; [now left|right].
    intro Hin. apply has_task_id_In in Hin. congruence.
  - simpl. intros t Hin. apply replace_task_In in Hin as [->|[Hin _]].
    + split; [exact Hmem|]. split; [exact Hasg|]. now apply priority_check_admitted.
    + exact (Ht t Hin).
  - simpl. intros l Hin. destruct (Hl l Hin) as [H1 H2]. split; [|exact H2].
    destruct (String.eqb_spec (ActivityLog.task_id l) (Task.id old)) as [E|Hne].
    + destruct Hlog as [Hsame|Hnone].
      * rewrite E. rewrite <- Hsame at 1. apply has_task_id_replace.
        apply has_task_id_In. now apply in_map.
      * exfalso. unfold log_references in Hnone.
        assert (Hyes : existsb (fun l0 => String.eqb (ActivityLog.task_id l0) (Task.id old))
                         (activity_logs db) = true).
        { apply existsb_exists. exists l. split; [exact Hin|]. now apply String.eqb_eq. }
        congruence.
    + now apply has_task_id_replace_other.
  - exact Hr.
Qed.

Lemma tasks_delete_keeps_ok uid id db :
  store_ok db -> store_ok (tasks_delete uid id db).
Proof.
  intros (Hk & Ht & Hl & Hr). unfold tasks_delete.
  set (doomed := fun t => String.eqb (Task.id t) id
                          && (can_select uid t && can_delete db uid t)).
  split; [|split; [|split]].
  - unfold tasks_pkey in *. simpl. now apply NoDup_map_filter.
  - simpl. intros t Hin. apply filter_In in Hin as [Hin _]. exact (Ht t Hin).
  - simpl. intros l Hin. apply filter_In in Hin as [Hin Hkeep].
    destruct (Hl l Hin) as [H1 H2]. split; [|exact H2].
    apply negb_true_iff in Hkeep.
    apply has_task_id_In in H1. apply in_map_iff in H1 as (t & Hid & Hint).
    apply has_task_id_In. rewrite <- Hid. apply in_map. apply filter_In.
    split; [exact Hint|]. apply negb_true_iff.
    destruct (doomed t) eqn:Hd; [|exact Hd].
    exfalso.
    assert (Hyes : mem_uuid (ActivityLog.task_id l)
                     (map Task.id (filter doomed (tasks db))) = true).
    { apply mem_uuid_In. rewrite <- Hid. apply in_map. apply filter_In. auto. }
    congruence.
  - exact Hr.
Qed.

Lemma activity_logs_insert_keeps_ok now new_id uid p db db' :
  store_ok db -> activity_logs_insert now new_id uid p db = Ok db' -> store_ok db'.
Proof.
  intros (Hk & Ht & Hl & Hr) H. unfold activity_logs_insert in H.
  repeat step_bind H. injection H as <-.
  split; [exact Hk|]. split; [exact Ht|]. split; [|exact Hr].
  simpl. intros l Hin. apply in_app_iff in Hin as [Hin|[<-|[]]].
  - exact (Hl l Hin).
  - simpl. split; assumption.
Qed.

Lemma user_roles_insert_keeps_ok now new_id uid user_id role db db' :
  store_ok db -> user_roles_insert now new_id uid user_id role db = Ok db' -> store_ok db'.
Proof.
  intros (Hk & Ht & Hl & Hp & Hr) H. unfold user_roles_insert in H.
  repeat step_bind H. injection H as <-.
  split; [exact Hk|]. split; [exact Ht|]. split; [exact Hl|].
  split; [exact Hp|].
  simpl. intros r Hin. apply in_app_iff in Hin as [Hin|[<-|[]]].
  - exact (Hr r Hin).
  - simpl. assumption.
Qed.

Lemma auth_users_insert_keeps_ok now rid NEW db db' :
  store_ok db -> auth_users_insert now rid NEW db = Ok db' -> store_ok db'.
Proof.
  intros (Hk & Ht & Hl & Hp & Hr) H. unfold auth_users_insert, handle_new_user in H.
  repeat step_bind H.
  destruct (match AuthUser.meta_role NEW with
            | Some s => not_null "role" (app_role_of_text s)
            | None => Ok user
            end) as [role|e]; simpl in H; [|discriminate H].
  repeat step_bind H. injection H as <-.
  assert (Hmore : forall x, mem_uuid x (auth_users db) = true ->
                            mem_uuid x (auth_users db ++ [AuthUser.id NEW]) = true).
  { intros x Hx. rewrite mem_uuid_app, Hx. reflexivity. }
  assert (Hme : mem_uuid (AuthUser.id NEW) (auth_users db ++ [AuthUser.id NEW]) = true).
  { rewrite mem_uuid_app. unfold mem_uuid at 2. simpl.
    rewrite String.eqb_refl. apply orb_true_r. }
  split; [exact Hk|]. split; [|split; [|split]]; simpl.
  - intros t Hin. destruct (Ht t Hin) as (H1 & H2 & H3).
    split; [now apply Hmore|]. split; [|exact H3].
    revert H2. now apply references_user_more.
  - intros l Hin. destruct (Hl l Hin) as (H1 & H2). split; [exact H1|].
    revert H2. now apply references_user_more.
  - intros p Hin. apply in_app_iff in Hin as [Hin|[<-|[]]].
    + apply Hmore. exact (Hp p Hin).
    + exact Hme.
  - intros r Hin. apply in_app_iff in Hin as [Hin|[<-|[]]].
    + apply Hmore. exact (Hr r Hin).
    + exact Hme.
Qed.

Lemma mem_uuid_without x y l :
  mem_uuid y (filter (fun z => negb (String.eqb z x)) l) = true <->
  mem_uuid y l = true /\ y <> x.
Proof.
  rewrite !mem_uuid_In, filter_In, negb_true_iff, String.eqb_neq. reflexivity.
Qed.

Lemma opt_is_false x v : opt_is x v = false <-> v <> Some x.
Proof.
  unfold opt_is. destruct v as [y|]; [|split; [discriminate|reflexivity]].
  rewrite String.eqb_neq. split; congruence.
Qed.

Lemma tasks_without_user_ids now x ts :
  map Task.id (tasks_without_user now x ts)
  = map Task.id (filter (fun t => negb (String.eqb (Task.created_by t) x)) ts).
Proof.
  unfold tasks_without_user. rewrite map_map. apply map_ext.
  intro t. destruct (opt_is x (Task.assigned_to t)); reflexivity.
Qed.

Lemma auth_users_delete_keeps_ok now x db :
  store_ok db -> store_ok (auth_users_delete now x db).
Proof.
  intros (Hk & Ht & Hl & Hp & Hr).
  assert (Hstay : forall v, references_user db v = true -> v <> Some x ->
                            references_user (auth_users_delete now x db) v = true).
  { intros [y|] Hv Hne; [|reflexivity]. simpl in *. apply mem_uuid_without.
    split; [exact Hv|congruence]. }
  split; [|split; [|split; [|split]]].
  - unfold tasks_pkey in *. simpl. rewrite tasks_without_user_ids.
    now apply NoDup_map_filter.
  - simpl. unfold tasks_without_user. intros t' Hin.
    apply in_map_iff in Hin as (t & Heq & Hin). apply filter_In in Hin as [Hin Hc].
    apply negb_true_iff, String.eqb_neq in Hc. destruct (Ht t Hin) as (H1 & H2 & H3).
    destruct (opt_is x (Task.assigned_to t)) eqn:Ho; subst t'; simpl.
    + split; [apply mem_uuid_without; auto|]. split; [reflexivity|exact H3].
    + split; [apply mem_uuid_without; auto|]. split; [|exact H3].
      apply (Hstay _ H2). now apply opt_is_false.
  - simpl. intros l' Hin. apply in_map_iff in Hin as (l & Heq & Hin).
    apply filter_In in Hin as [Hin Hkeep]. apply negb_true_iff in Hkeep.
    destruct (Hl l Hin) as [H1 H2].
    assert (Htask : has_task_id (ActivityLog.task_id l) (tasks_without_user now x (tasks db))
                    = true).
    { apply has_task_id_In. rewrite tasks_without_user_ids.
      apply has_task_id_In, in_map_iff in H1 as (t & Hid & Hint).
      rewrite <- Hid. apply in_map. apply filter_In. split; [exact Hint|].
      apply negb_true_iff. destruct (String.eqb (Task.created_by t) x) eqn:Hc; [|reflexivity].
      exfalso.
      assert (Hyes : mem_uuid (ActivityLog.task_id l)
                       (map Task.id
                          (filter (fun t0 => String.eqb (Task.created_by t0) x) (tasks db)))
                     = true).
      { apply mem_uuid_In. rewrite <- Hid. apply in_map. apply filter_In. auto. }
      congruence. }
    destruct (opt_is x (ActivityLog.user_id l)) eqn:Ho; subst l'; simpl.
    + split; [exact Htask|reflexivity].
    + split; [exact Htask|]. apply (Hstay _ H2). now apply opt_is_false.
  - simpl. intros p Hin. apply filter_In in Hin as [Hin Hne].
    apply negb_true_iff, String.eqb_neq in Hne. apply mem_uuid_without.
    split; [exact (Hp p Hin)|exact Hne].
  - simpl. intros r Hin. apply filter_In in Hin as [Hin Hne].
    apply negb_true_iff, String.eqb_neq in Hne. apply mem_uuid_without.
    split; [exact (Hr r Hin)|exact Hne].
Qed.

Lemma apply_request_keeps_ok q db :
  store_ok db -> store_ok (apply_request q db).
Proof.
  intro Hok. destruct q as [now rid NEW|now x|now new_id uid user_id role
                           |now new_id uid p|now uid id u|uid id|now new_id uid p];
    simpl.
  - destruct (auth_users_insert now rid NEW db) as [db'|e] eqn:H; simpl; [|exact Hok].
    exact (auth_users_insert_keeps_ok _ _ _ _ _ Hok H).
  - now apply auth_users_delete_keeps_ok.
  - destruct (user_roles_insert now new_id uid user_id role db) as [db'|e] eqn:H;
      simpl; [|exact Hok].
    exact (user_roles_insert_keeps_ok _ _ _ _ _ _ _ Hok H).
  - destruct (tasks_insert now new_id uid p db) as [[row db']|e] eqn:H;
      simpl; [|exact Hok].
    exact (tasks_insert_keeps_ok _ _ _ _ _ _ _ Hok H).
  - destruct (tasks_update now uid id u db) as [[row db']|e] eqn:H;
      simpl; [|exact Hok].
    exact (tasks_update_keeps_ok _ _ _ _ _ _ _ Hok H).
  - now apply tasks_delete_keeps_ok.
  - destruct (activity_logs_insert now new_id uid p db) as [db'|e] eqn:H;
      simpl; [|exact Hok].
    exact (activity_logs_insert_keeps_ok _ _ _ _ _ _ Hok H).
Qed.

Lemma empty_db_ok : store_ok empty_db.
Proof.
  split; [constructor|]. split; [intros t []|]. split; [intros l []|].
  split; [intros p []|intros r []].
Qed.

(** X1. Whatever requests are made, accepted or refused, in whatever
    order, the store keeps the integrity its schema declares: task ids
    stay unique, every [created_by], [assigned_to], log [user_id], profile
    and role row names a registered identity (or is null where the column
    may be), every log row names an existing task, and every priority is
    null or between 1 and 5.  In particular every store built up from the
    empty one has it. *)
Theorem requests_keep_store_ok (history : list request) (db : DB) :
  store_ok db -> store_ok (run history db).
Proof.
  unfold run. revert db.
  induction history as [|q rest IH]; simpl; intros db Hok; [exact Hok|].
  apply IH. now apply apply_request_keeps_ok.
Qed.

Lemma requests_keep_store_ok_witness :
  store_ok empty_db
  /\ store_ok
       (run [ Register 1 "r1" (AuthUser.mk alice "alice@example.org" (Some "Alice")
                                 (Some "manager"));
              Register 2 "r2" (AuthUser.mk bob "bob@example.org" None None);
              InsertTask 10 "t1" alice
                (TaskInsert.mk (Val "Write spec") Absent Absent (Val 3) (Val alice)
                   (Val bob) Absent);
              InsertLog 11 "l1" alice (LogInsert.mk "t1" alice "created" None None);
              UpdateTask 12 bob "t1" retitle;
              DeleteUser 13 bob ]
            empty_db)
  /\ tasks (run [ Register 1 "r1" (AuthUser.mk alice "alice@example.org" (Some "Alice")
                                     (Some "manager"));
                  Register 2 "r2" (AuthUser.mk bob "bob@example.org" None None);
                  InsertTask 10 "t1" alice
                    (TaskInsert.mk (Val "Write spec") Absent Absent (Val 3) (Val alice)
                       (Val bob) Absent);
                  InsertLog 11 "l1" alice (LogInsert.mk "t1" alice "created" None None);
                  UpdateTask 12 bob "t1" retitle;
                  DeleteUser 13 bob ]
                empty_db)
     = [Task.mk "t1" "Rewrite spec" None todo (Some 5) alice None None 10 13].
Proof.
  split; [exact empty_db_ok|]. split; [|reflexivity].
  apply (requests_keep_store_ok _ empty_db). exact empty_db_ok.
Defined.

(** ** Round trips *)

Lemma update_rule_select db uid t :
  update_rule db uid (Some (Task.created_by t)) (Task.assigned_to t) ->
  can_select uid t = true.
Proof.
  intro H. unfold can_select. apply (update_implies_select db).
  apply tasks_update_using_true. exact H.
Qed.

Lemma tasks_update_pkey now uid id u db row db' :
  tasks_pkey db -> tasks_update now uid id u db = Ok (row, db') ->
  tasks_pkey db' /\ In row (tasks db').
Proof.
  intros Hk H.
  destruct (tasks_update_keys _ _ _ _ _ _ _ H) as (old & Htg & _ & Hkey & _).
  apply tasks_update_Ok in H as (old' & Htg' & Hrest).
  rewrite Htg in Htg'. injection Htg' as <-.
  assert (Hdb : db' = set_tasks (replace_task (Task.id old) row (tasks db)) db)
    by (decompose [and] Hrest; assumption).
  subst db'. destruct (update_target_Some _ _ _ _ Htg) as (Hin & _ & _). split.
  - unfold tasks_pkey in *. simpl. apply replace_task_pkey; [exact Hk|].
    destruct Hkey as [E|E]; [now left|right].
    intro Hi. apply has_task_id_In in Hi. congruence.
  - simpl. now apply In_replace.
Qed.

(** X2. Reading a task right after an accepted update returns the row the
    update returned: the acting identity reads it back under its (new) id,
    and so does exactly every identity that is the creator or the assignee
    of the new row. *)
Theorem update_then_read
    (now : timestamptz) (uid id : uuid) (u : TaskUpdate.t) (db : DB)
    (row : Task.t) (db' : DB) :
  tasks_pkey db ->
  tasks_update now uid id u db = Ok (row, db') ->
  readTask uid (Task.id row) db' = Some row
  /\ forall reader,
       readTask reader (Task.id row) db' = Some row <->
       reader = Task.created_by row \/ Task.assigned_to row = Some reader.
Proof.
  intros Hk H. destruct (tasks_update_pkey _ _ _ _ _ _ _ Hk H) as [Hk' Hin].
  assert (Hsel : can_select uid row = true).
  { apply tasks_update_Ok in H as (old & _ & Hrest).
    apply (update_rule_select db). decompose [and] Hrest. assumption. }
  split.
  - rewrite (readTask_by_key uid db' row Hk' Hin), Hsel. reflexivity.
  - intro reader. rewrite (readTask_by_key reader db' row Hk' Hin), <- can_select_iff.
    destruct (can_select reader row); split; congruence.
Qed.

Lemma update_then_read_witness :
  tasks_pkey team_db
  /\ exists row db',
       tasks_update 20 bob "t1" retitle team_db = Ok (row, db')
       /\ Task.title row = "Rewrite spec"
       /\ readTask bob (Task.id row) db' = Some row
       /\ forall reader,
            readTask reader (Task.id row) db' = Some row <->
            reader = Task.created_by row \/ Task.assigned_to row = Some reader.
Proof.
  assert (Hk : tasks_pkey team_db).
  { unfold tasks_pkey. simpl. constructor; [intros []|constructor]. }
  split; [exact Hk|]. do 2 eexists. split; [reflexivity|]. split; [reflexivity|].
  exact (update_then_read 20 bob "t1" retitle team_db _ _ Hk eq_refl).
Defined.

Lemma tasks_insert_pkey now new_id uid p db row db' :
  tasks_pkey db -> tasks_insert now new_id uid p db = Ok (row, db') ->
  tasks_pkey db' /\ In row (tasks db').
Proof.
  intros Hk H.
  apply tasks_insert_Ok in H
    as (Hid & _ & _ & _ & _ & _ & _ & _ & _ & _ & _ & _ & _ & Hfresh & ->).
  split.
  - unfold tasks_pkey in *. simpl. rewrite map_app. simpl.
    apply NoDup_app; [exact Hk|constructor; [intros []|constructor]|].
    intros x Hx [Hx'|[]]. subst x. rewrite Hid in Hx.
    apply has_task_id_In in Hx. congruence.
  - simpl. apply in_app_iff. right. now left.
Qed.

(** X3. An accepted insert makes the task readable under its new id, which
    nobody could read before: the creator reads back the returned row, and
    so does exactly every identity that is its creator or its assignee. *)
Theorem insert_then_read
    (now : timestamptz) (new_id uid : uuid) (p : TaskInsert.t) (db : DB)
    (row : Task.t) (db' : DB) :
  tasks_pkey db ->
  tasks_insert now new_id uid p db = Ok (row, db') ->
  (forall reader, readTask reader new_id db = None)
  /\ readTask uid new_id db' = Some row
  /\ forall reader,
       readTask reader new_id db' = Some row <->
       reader = uid \/ Task.assigned_to row = Some reader.
Proof.
  intros Hk H. destruct (tasks_insert_pkey _ _ _ _ _ _ _ Hk H) as [Hk' Hin].
  apply tasks_insert_Ok in H
    as (Hid & _ & _ & _ & _ & Hcb & _ & _ & _ & _ & _ & _ & _ & Hfresh & _).
  assert (Hread : forall reader,
             readTask reader new_id db' = if can_select reader row then Some row else None).
  { intro reader. rewrite <- Hid. now apply readTask_by_key. }
  split; [|split].
  - intro reader. unfold readTask, tasks_select. rewrite find_filter.
    apply find_absent_key. intro Hi. apply has_task_id_In in Hi. congruence.
  - rewrite Hread. assert (Hs : can_select uid row = true).
    { apply can_select_iff. left. now symmetry. }
    rewrite Hs. reflexivity.
  - intro reader. rewrite Hread, <- Hcb, <- can_select_iff.
    destruct (can_select reader row); split; congruence.
Qed.

Lemma insert_then_read_witness :
  tasks_pkey team_db
  /\ exists row db',
       tasks_insert 20 "t2" alice plan_without_priority team_db = Ok (row, db')
       /\ (forall reader, readTask reader "t2" team_db = None)
       /\ readTask alice "t2" db' = Some row
       /\ forall reader,
            readTask reader "t2" db' = Some row <->
            reader = alice \/ Task.assigned_to row = Some reader.
Proof.
  assert (Hk : tasks_pkey team_db).
  { unfold tasks_pkey. simpl. constructor; [intros []|constructor]. }
  split; [exact Hk|]. do 2 eexists. split; [reflexivity|].
  exact (insert_then_read 20 "t2" alice plan_without_priority team_db _ _ Hk eq_refl).
Defined.

(** ** What a request leaves alone *)

Lemma replace_task_length old_id row ts :
  length (replace_task old_id row ts) = length ts.
Proof.
  unfold replace_task. apply length_map.
Qed.

(** X4. An accepted update changes the addressed task and nothing else:
    the other tasks are the same rows as before, the number of tasks does
    not change, and identities, profiles, roles and the activity log are
    untouched (the update itself writes no log row). *)
Theorem update_touches_one_task
    (now : timestamptz) (uid id : uuid) (u : TaskUpdate.t) (db : DB)
    (row : Task.t) (db' : DB) :
  tasks_update now uid id u db = Ok (row, db') ->
  (forall t, In t (tasks db') -> t = row \/ (In t (tasks db) /\ Task.id t <> id))
  /\ (forall t, In t (tasks db) -> Task.id t <> id -> In t (tasks db'))
  /\ length (tasks db') = length (tasks db)
  /\ auth_users db' = auth_users db
  /\ profiles db' = profiles db
  /\ user_roles db' = user_roles db
  /\ activity_logs db' = activity_logs db.
Proof.
  intro H. apply tasks_update_Ok in H as (old & Htg & Hrest).
  assert (Hdb : db' = set_tasks (replace_task (Task.id old) row (tasks db)) db)
    by (decompose [and] Hrest; assumption).
  destruct (update_target_Some _ _ _ _ Htg) as (_ & Hid & _).
  subst db'. rewrite Hid. simpl.
  split; [|split; [|split; [apply replace_task_length|repeat split]]].
  - intros t Hin. now apply replace_task_In.
  - intros t Hin Hne. now apply replace_task_keeps.
Qed.

Lemma update_touches_one_task_witness :
  exists row db',
    tasks_update 20 alice "t1" retitle own_db = Ok (row, db')
    /\ In review (tasks db')
    /\ length (tasks db') = 2%nat
    /\ activity_logs db' = activity_logs own_db.
Proof.
  do 2 eexists. split; [reflexivity|].
  destruct (update_touches_one_task 20 alice "t1" retitle own_db _ _ eq_refl)
    as (_ & Hkeep & Hlen & _ & _ & _ & Hlogs).
  split; [|split; [exact Hlen|exact Hlogs]].
  apply Hkeep; [simpl; right; left; reflexivity|discriminate].
Defined.

Lemma find_none_all {A} (f : A -> bool) (l : list A) :
  (forall a, In a l -> f a = false) -> find f l = None.
Proof.
  induction l as [|h r IH]; simpl; intro H; [reflexivity|].
  rewrite (H h (or_introl eq_refl)). apply IH. intros a Ha. apply H. now right.
Qed.

(** X5. An update by an identity that the rule "manager and creator, or
    assignee" does not cover, or of a task that does not exist, fails with
    [NotFound] in both cases alike; [updateTask] then commits nothing and
    writes no log row. *)
Theorem updateTask_without_right_changes_nothing
    (now1 now2 : timestamptz) (id2 uid : uuid) (cache : list Task.t)
    (id : uuid) (updates : TaskUpdate.t) (db : DB) :
  (forall t, In t (tasks db) -> Task.id t = id ->
             ~ update_rule db uid (Some (Task.created_by t)) (Task.assigned_to t)) ->
  updateTask now1 now2 id2 (Some uid) cache id updates db = mkCall (Err NotFound) []
  /\ final_store db (updateTask now1 now2 id2 (Some uid) cache id updates db) = db.
Proof.
  intro Hno.
  assert (Ht : update_target db uid id = None).
  { unfold update_target. apply find_none_all. intros t Hin.
    destruct (String.eqb_spec (Task.id t) id) as [E|_]; [|reflexivity]. simpl.
    destruct (can_update db uid t) eqn:Hu; [|apply andb_false_r].
    exfalso. apply (Hno t Hin E). unfold can_update in Hu.
    now apply tasks_update_using_true in Hu. }
  assert (H : updateTask now1 now2 id2 (Some uid) cache id updates db
              = mkCall (Err NotFound) []).
  { unfold updateTask, tasks_update. rewrite Ht. reflexivity. }
  rewrite H. split; reflexivity.
Qed.

Lemma updateTask_without_right_changes_nothing_witness :
  (forall t, In t (tasks team_db) -> Task.id t = "t1" ->
             ~ update_rule team_db carol (Some (Task.created_by t)) (Task.assigned_to t))
  /\ updateTask 20 21 "l1" (Some carol) [] "t1" retitle team_db = mkCall (Err NotFound) []
  /\ final_store team_db (updateTask 20 21 "l1" (Some carol) [] "t1" retitle team_db)
     = team_db.
Proof.
  assert (Hno : forall t, In t (tasks team_db) -> Task.id t = "t1" ->
                  ~ update_rule team_db carol (Some (Task.created_by t))
                      (Task.assigned_to t)).
  { intros t [<-|[]] _ [[Hr _]|Ha]; discriminate. }
  split; [exact Hno|].
  exact (updateTask_without_right_changes_nothing 20 21 "l1" carol [] "t1" retitle
           team_db Hno).
Defined.

(** ** Deleting tasks *)

Lemma can_delete_iff db uid t :
  can_delete db uid t = true <->
  has_role db uid manager = true /\ uid = Task.created_by t.
Proof.
  unfold can_delete, tasks_delete_using.
  destruct (has_role db uid manager); simpl.
  - destruct (String.eqb_spec (Task.created_by t) uid) as [E|Hne]; simpl.
    + split; auto.
    + split; [discriminate|]. intros [_ E]. congruence.
  - split; [discriminate|]. intros [E _]. discriminate.
Qed.

Lemma db_eta db :
  mkDB (auth_users db) (profiles db) (user_roles db) (tasks db) (activity_logs db) = db.
Proof.
  destruct db. reflexivity.
Qed.

(** X6. [deleteTask] by an identity that is not the manager who created
    the task, or for an id no task has, deletes nothing and still reports
    success: the store it commits is the store it found. *)
Theorem deleteTask_without_right_is_silent (uid id : uuid) (db : DB) :
  (forall t, In t (tasks db) -> Task.id t = id ->
             ~ (has_role db uid manager = true /\ uid = Task.created_by t)) ->
  deleteTask (Some uid) id db = mkCall (Ok tt) [db].
Proof.
  intro Hno. unfold deleteTask. f_equal. f_equal.
  assert (Hd : forall t, In t (tasks db) ->
             String.eqb (Task.id t) id && (can_select uid t && can_delete db uid t) = false).
  { intros t Hin. destruct (String.eqb_spec (Task.id t) id) as [E|_]; [|reflexivity].
    simpl. destruct (can_delete db uid t) eqn:Hc; [|apply andb_false_r].
    exfalso. apply (Hno t Hin E). now apply can_delete_iff. }
  unfold tasks_delete. rewrite (filter_nil _ (tasks db) Hd). simpl.
  rewrite !filter_all; [apply db_eta|reflexivity|].
  intros t Hin. rewrite (Hd t Hin). reflexivity.
Qed.

Lemma deleteTask_without_right_is_silent_witness :
  (forall t, In t (tasks team_db) -> Task.id t = "t1" ->
             ~ (has_role team_db bob manager = true /\ bob = Task.created_by t))
  /\ deleteTask (Some bob) "t1" team_db = mkCall (Ok tt) [team_db].
Proof.
  assert (Hno : forall t, In t (tasks team_db) -> Task.id t = "t1" ->
                  ~ (has_role team_db bob manager = true /\ bob = Task.created_by t)).
  { intros t _ _ [Hr _]. discriminate Hr. }
  split; [exact Hno|].
  exact (deleteTask_without_right_is_silent bob "t1" team_db Hno).
Defined.

(** X7. When the manager who created a task deletes it, nobody can read
    the task any more, while every other task and every log row of
    another task stay as they were. *)
Theorem delete_then_read (uid : uuid) (db : DB) (t : Task.t) :
  tasks_pkey db -> In t (tasks db) ->
  has_role db uid manager = true -> uid = Task.created_by t ->
  (forall reader, readTask reader (Task.id t) (tasks_delete uid (Task.id t) db) = None)
  /\ (forall t', Task.id t' <> Task.id t ->
                 (In t' (tasks (tasks_delete uid (Task.id t) db)) <-> In t' (tasks db)))
  /\ (forall l, ActivityLog.task_id l <> Task.id t ->
                (In l (activity_logs (tasks_delete uid (Task.id t) db))
                 <-> In l (activity_logs db))).
Proof.
  intros Hk Hin Hrole Hcb.
  assert (Hdoomed : forall t', In t' (tasks db) ->
            String.eqb (Task.id t') (Task.id t)
            && (can_select uid t' && can_delete db uid t')
            = String.eqb (Task.id t') (Task.id t)).
  { intros t' Hin'. destruct (String.eqb_spec (Task.id t') (Task.id t)) as [E|_];
      [|reflexivity].
    rewrite (pkey_unique _ _ _ Hk Hin Hin' E). simpl.
    assert (Hs : can_select uid t = true) by (apply can_select_iff; now left).
    assert (Hd : can_delete db uid t = true) by (apply can_delete_iff; auto).
    rewrite Hs, Hd. reflexivity. }
  split; [|split].
  - intro reader. unfold readTask, tasks_select. rewrite find_filter.
    apply find_absent_key. unfold tasks_delete. simpl. intro Hi.
    apply in_map_iff in Hi as (t' & Hid & Hin').
    apply filter_In in Hin' as [Hin' Hkeep]. rewrite (Hdoomed t' Hin') in Hkeep.
    apply negb_true_iff, String.eqb_neq in Hkeep. contradiction.
  - intros t' Hne. unfold tasks_delete. simpl. rewrite filter_In. split; [tauto|].
    intro Hin'. split; [exact Hin'|]. rewrite (Hdoomed t' Hin').
    apply negb_true_iff. now apply String.eqb_neq.
  - intros l Hne. unfold tasks_delete. simpl. rewrite filter_In. split; [tauto|].
    intro Hl. split; [exact Hl|]. apply negb_true_iff.
    destruct (mem_uuid (ActivityLog.task_id l) _) eqn:Hm; [|reflexivity].
    exfalso. apply mem_uuid_In, in_map_iff in Hm as (t' & Hid & Hin').
    apply filter_In in Hin' as [Hin' Hd]. rewrite (Hdoomed t' Hin') in Hd.
    apply String.eqb_eq in Hd. congruence.
Qed.

Lemma delete_then_read_witness :
  tasks_pkey own_db /\ In review (tasks own_db)
  /\ has_role own_db alice manager = true /\ alice = Task.created_by review
  /\ (forall reader, readTask reader "t2" (tasks_delete alice "t2" own_db) = None)
  /\ In write_spec (tasks (tasks_delete alice "t2" own_db)).
Proof.
  assert (Hk : tasks_pkey own_db).
  { unfold tasks_pkey. simpl. constructor.
    - simpl. intros [H|[]]. discriminate H.
    - constructor; [intros []|constructor]. }
  assert (Hin : In review (tasks own_db)) by (simpl; right; left; reflexivity).
  destruct (delete_then_read alice own_db review Hk Hin eq_refl eq_refl)
    as (Hread & Hkeep & _).
  split; [exact Hk|]. split; [exact Hin|]. split; [reflexivity|]. split; [reflexivity|].
  split; [exact Hread|].
  apply (Hkeep write_spec); [discriminate|]. simpl. left. reflexivity.
Defined.

(** ** Reading the activity log *)

(** X8. A log row is visible to an identity exactly when the task it
    refers to is, at the time of reading, created by or assigned to that
    identity: visibility follows the task as it is now, not as it was when
    the row was written. *)
Theorem log_visibility_follows_task (uid : uuid) (db : DB) (l : ActivityLog.t) :
  (In l (activity_logs_select uid db) <->
   In l (activity_logs db)
   /\ exists t, In t (tasks db) /\ Task.id t = ActivityLog.task_id l
                /\ (uid = Task.created_by t \/ Task.assigned_to t = Some uid))
  /\ (tasks_pkey db ->
      (In l (activity_logs_select uid db) <->
       In l (activity_logs db) /\ readTask uid (ActivityLog.task_id l) db <> None)).
Proof.
  assert (Hrow : forall t,
    policy_passes
      (sql_and (sql_eq (Some (Task.id t)) (Some (ActivityLog.task_id l)))
               (sql_or (sql_eq (Task.assigned_to t) (Some uid))
                       (sql_eq (Some (Task.created_by t)) (Some uid)))) = true
    <-> Task.id t = ActivityLog.task_id l
        /\ (uid = Task.created_by t \/ Task.assigned_to t = Some uid)).
  { intro t. rewrite <- can_select_iff. unfold can_select, tasks_select_using. simpl.
    destruct (String.eqb_spec (Task.id t) (ActivityLog.task_id l)) as [E|Hne].
    - destruct (sql_or _ _) as [[|]|]; simpl; intuition discriminate.
    - destruct (sql_or _ _) as [[|]|]; simpl; intuition discriminate. }
  assert (Hfirst :
    In l (activity_logs_select uid db) <->
    In l (activity_logs db)
    /\ exists t, In t (tasks db) /\ Task.id t = ActivityLog.task_id l
                 /\ (uid = Task.created_by t \/ Task.assigned_to t = Some uid)).
  { assert (Hpp : forall b, policy_passes (Some b) = true <-> b = true).
    { intros [|]; simpl; intuition discriminate. }
    unfold activity_logs_select, activity_logs_select_using.
    rewrite filter_In, Hpp, existsb_exists.
    split; intros [Hin (t & Ht & Hp)]; (split; [exact Hin|]); exists t;
      (split; [exact Ht|]); now apply Hrow. }
  split; [exact Hfirst|].
  intro Hk. rewrite Hfirst. split; intros [Hin H]; (split; [exact Hin|]).
  - destruct H as (t & Ht & Hid & Hp). rewrite <- Hid.
    rewrite (readTask_by_key uid db t Hk Ht).
    apply can_select_iff in Hp. rewrite Hp. discriminate.
  - destruct (readTask uid (ActivityLog.task_id l) db) as [t|] eqn:Hr; [|congruence].
    unfold readTask in Hr. apply find_some in Hr as [Hsel Hid].
    apply String.eqb_eq in Hid. apply tasks_select_In in Hsel as [Ht Hp].
    exists t. auto.
Qed.

Lemma log_visibility_follows_task_witness :
  tasks_pkey own_db
  /\ (In (ActivityLog.mk "l0" "t2" (Some alice) "created" None (Some review) 11)
         (activity_logs_select alice own_db)
      <-> In (ActivityLog.mk "l0" "t2" (Some alice) "created" None (Some review) 11)
             (activity_logs own_db)
          /\ readTask alice "t2" own_db <> None)
  /\ activity_logs_select alice own_db = activity_logs own_db
  /\ activity_logs_select bob own_db = [].
Proof.
  assert (Hk : tasks_pkey own_db).
  { unfold tasks_pkey. simpl. constructor.
    - simpl. intros [H|[]]. discriminate H.
    - constructor; [intros []|constructor]. }
  split; [exact Hk|]. split; [|split; reflexivity].
  exact (proj2 (log_visibility_follows_task alice own_db
                  (ActivityLog.mk "l0" "t2" (Some alice) "created" None (Some review) 11))
               Hk).
Defined.

(** ** Roles *)

Lemma get_user_role_None db uid :
  get_user_role db uid = None <-> forall r, has_role db uid r = false.
Proof.
  unfold get_user_role, has_role. split.
  - intros H r. apply existsb_false. intros row Hin.
    destruct (String.eqb (UserRole.user_id row) uid) eqn:E; [|reflexivity].
    exfalso.
    assert (Hf : In row (filter (fun r0 => String.eqb (UserRole.user_id r0) uid)
                           (user_roles db))) by (apply filter_In; auto).
    destruct (filter _ (user_roles db)); [exact Hf|discriminate H].
  - intro H. destruct (filter _ (user_roles db)) as [|row rest] eqn:Hf; [reflexivity|].
    exfalso.
    assert (Hin : In row (filter (fun r0 => String.eqb (UserRole.user_id r0) uid)
                            (user_roles db))) by (rewrite Hf; now left).
    apply filter_In in Hin as [Hin E].
    specialize (H (UserRole.role row)).
    assert (Hyes : existsb (fun r0 => String.eqb (UserRole.user_id r0) uid
                                      && app_role_eqb (UserRole.role r0) (UserRole.role row))
                     (user_roles db) = true).
    { apply existsb_exists. exists row. split; [exact Hin|]. rewrite E.
      destruct (UserRole.role row); reflexivity. }
    congruence.
Qed.

(** X9. The two role functions agree as far as they can: [get_user_role]
    answers nothing exactly when the identity holds no role; a role it
    answers is one [has_role] confirms; and for an identity that holds a
    single role, [get_user_role] answers that role. *)
Theorem role_functions_agree (db : DB) (uid : uuid) :
  (get_user_role db uid = None <-> forall r, has_role db uid r = false)
  /\ (forall r, get_user_role db uid = Some r -> has_role db uid r = true)
  /\ (forall r, has_role db uid r = true ->
                (forall r', has_role db uid r' = true -> r' = r) ->
                get_user_role db uid = Some r).
Proof.
  split; [apply get_user_role_None|]. split; [intro r; apply get_user_role_has_role|].
  intros r Hr Hone. destruct (get_user_role db uid) as [r0|] eqn:Hg.
  - f_equal. apply Hone. now apply get_user_role_has_role.
  - rewrite (proj1 (get_user_role_None db uid) Hg r) in Hr. discriminate.
Qed.

Lemma role_functions_agree_witness :
  has_role team_db alice manager = true
  /\ (forall r', has_role team_db alice r' = true -> r' = manager)
  /\ get_user_role team_db alice = Some manager.
Proof.
  assert (Hone : forall r', has_role team_db alice r' = true -> r' = manager).
  { intros [|] H; [reflexivity|discriminate H]. }
  split; [reflexivity|]. split; [exact Hone|].
  exact (proj2 (proj2 (role_functions_agree team_db alice)) manager eq_refl Hone).
Defined.

(** X10. An identity adds role rows for itself only, and each role once:
    a row for somebody else is [Unauthorized], and a role the identity
    already holds is refused by the unique key. *)
Theorem user_roles_insert_own_and_once
    (now : timestamptz) (new_id uid user_id : uuid) (role : app_role) (db : DB) :
  (uid <> user_id ->
   user_roles_insert now new_id uid user_id (Val role) db = Err Unauthorized)
  /\ (uid = user_id ->
      existsb (fun r => String.eqb (UserRole.id r) new_id) (user_roles db) = false ->
      has_role db user_id role = true ->
      user_roles_insert now new_id uid user_id (Val role) db
      = Err (ConstraintViolation "user_id, role")).
Proof.
  unfold user_roles_insert, user_roles_insert_check, holds_role_row. simpl. split.
  - intro Hne. assert (E : String.eqb user_id uid = false).
    { apply String.eqb_neq. congruence. }
    rewrite E. reflexivity.
  - intros -> Hid Hr. rewrite String.eqb_refl. simpl. rewrite Hid. simpl.
    rewrite Hr. reflexivity.
Qed.

Lemma user_roles_insert_own_and_once_witness :
  (bob <> carol
   /\ user_roles_insert 30 "r4" bob carol (Val manager) team_db = Err Unauthorized)
  /\ (has_role team_db bob user = true
      /\ user_roles_insert 30 "r4" bob bob (Val user) team_db
         = Err (ConstraintViolation "user_id, role")).
Proof.
  assert (Hne : bob <> carol) by discriminate.
  split.
  - split; [exact Hne|].
    exact (proj1 (user_roles_insert_own_and_once 30 "r4" bob carol manager team_db) Hne).
  - split; [reflexivity|].
    exact (proj2 (user_roles_insert_own_and_once 30 "r4" bob bob user team_db)
             eq_refl eq_refl eq_refl).
Defined.

(** ** Registration and deletion of identities *)

Lemma auth_users_insert_Ok now rid NEW db db' :
  auth_users_insert now rid NEW db = Ok db' ->
  exists profile role_row,
    Profile.id profile = AuthUser.id NEW
    /\ UserRole.user_id role_row = AuthUser.id NEW
    /\ mem_uuid (AuthUser.id NEW) (auth_users db) = false
    /\ db' = mkDB (auth_users db ++ [AuthUser.id NEW]) (profiles db ++ [profile])
                  (user_roles db ++ [role_row]) (tasks db) (activity_logs db).
Proof.
  unfold auth_users_insert, handle_new_user. intro H.
  repeat step_bind H.
  destruct (match AuthUser.meta_role NEW with
            | Some s => not_null "role" (app_role_of_text s)
            | None => Ok user
            end) as [role|e]; simpl in H; [|discriminate H].
  repeat step_bind H. injection H as <-.
  do 2 eexists. split; [|split; [|split; [|reflexivity]]]; try reflexivity.
  now apply negb_true_iff.
Qed.

(** X11. Registration happens once per identity and concerns that identity
    alone: after an accepted registration, registering the same id again
    is refused on the primary key, whatever the other data, and the
    profiles and roles of every other identity, the tasks and the log are
    what they were. *)
Theorem registration_once_and_local
    (now : timestamptz) (rid : uuid) (NEW : AuthUser.t) (db db' : DB) :
  auth_users_insert now rid NEW db = Ok db' ->
  (forall now' rid' NEW',
      AuthUser.id NEW' = AuthUser.id NEW ->
      auth_users_insert now' rid' NEW' db' = Err (ConstraintViolation "id"))
  /\ (forall y, y <> AuthUser.id NEW ->
                profiles_of y db' = profiles_of y db /\ roles_of y db' = roles_of y db
                /\ get_user_role db' y = get_user_role db y)
  /\ tasks db' = tasks db /\ activity_logs db' = activity_logs db.
Proof.
  intro H. apply auth_users_insert_Ok in H as (p & r & Hp & Hr & Hnew & ->).
  split; [|split; [|split; reflexivity]].
  - intros now' rid' NEW' Hid. unfold auth_users_insert. simpl.
    rewrite Hid, mem_uuid_app. unfold mem_uuid at 2. simpl.
    rewrite String.eqb_refl, orb_true_r. reflexivity.
  - intros y Hne. unfold profiles_of, roles_of, get_user_role. simpl.
    rewrite !filter_app. simpl. rewrite Hp, Hr.
    assert (E : String.eqb (AuthUser.id NEW) y = false) by (apply String.eqb_neq; congruence).
    rewrite E, !app_nil_r. repeat split.
Qed.

Lemma registration_once_and_local_witness :
  exists db',
    auth_users_insert 40 "r4" (dave_signs_up None) team_db = Ok db'
    /\ auth_users_insert 41 "r5" (dave_signs_up (Some "manager")) db'
       = Err (ConstraintViolation "id")
    /\ get_user_role db' alice = get_user_role team_db alice.
Proof.
  eexists. split; [reflexivity|].
  destruct (registration_once_and_local 40 "r4" (dave_signs_up None) team_db _ eq_refl)
    as (Honce & Hlocal & _).
  split.
  - exact (Honce 41 "r5" (dave_signs_up (Some "manager")) eq_refl).
  - apply (Hlocal alice). discriminate.
Defined.

(** X12. Deleting an identity leaves no trace of it to act on: it is no
    longer registered, has no profile and no role, [get_user_role] answers
    nothing for it, it can read no task, and no task and no log row names
    it; the roles of the other identities are untouched. *)
Theorem deleted_identity_is_gone (now : timestamptz) (x : uuid) (db : DB) :
  let db' := auth_users_delete now x db in
  mem_uuid x (auth_users db') = false
  /\ profiles_of x db' = []
  /\ roles_of x db' = []
  /\ get_user_role db' x = None
  /\ tasks_select x db' = []
  /\ (forall l, In l (activity_logs db') -> ActivityLog.user_id l <> Some x)
  /\ (forall y, y <> x -> roles_of y db' = roles_of y db).
Proof.
  intro db'. subst db'.
  assert (Hroles : roles_of x (auth_users_delete now x db) = []).
  { unfold roles_of. simpl. apply filter_nil. intros r Hin.
    apply filter_In in Hin as [_ Hne]. now apply negb_true_iff in Hne. }
  split; [|split; [|split; [exact Hroles|split; [|split; [|split]]]]].
  - simpl. destruct (mem_uuid x _) eqn:Hm; [|reflexivity].
    apply mem_uuid_without in Hm as [_ Hne]. congruence.
  - unfold profiles_of. simpl. apply filter_nil. intros p Hin.
    apply filter_In in Hin as [_ Hne]. now apply negb_true_iff in Hne.
  - unfold get_user_role. unfold roles_of in Hroles. rewrite Hroles. reflexivity.
  - unfold tasks_select. apply filter_nil. intros t' Hin.
    destruct (can_select x t') eqn:Hs; [|reflexivity]. exfalso.
    simpl in Hin. unfold tasks_without_user in Hin.
    apply in_map_iff in Hin as (t & Heq & Hin). apply filter_In in Hin as [_ Hc].
    apply negb_true_iff, String.eqb_neq in Hc.
    apply can_select_iff in Hs.
    destruct (opt_is x (Task.assigned_to t)) eqn:Ho; subst t'; simpl in Hs.
    + destruct Hs as [Hs|Hs]; [congruence|discriminate].
    + apply opt_is_false in Ho. destruct Hs as [Hs|Hs]; congruence.
  - intros l' Hin. simpl in Hin. apply in_map_iff in Hin as (l & Heq & _).
    destruct (opt_is x (ActivityLog.user_id l)) eqn:Ho; subst l'; simpl.
    + discriminate.
    + now apply opt_is_false.
  - intros y Hne. unfold roles_of. simpl.
    induction (user_roles db) as [|r rest IH]; simpl; [reflexivity|].
    destruct (String.eqb_spec (UserRole.user_id r) x) as [E|Hx]; simpl.
    + assert (Ey : String.eqb (UserRole.user_id r) y = false).
      { apply String.eqb_neq. congruence. }
      rewrite Ey. exact IH.
    + destruct (String.eqb (UserRole.user_id r) y); [f_equal|]; exact IH.
Qed.

Lemma deleted_identity_is_gone_witness :
  bob <> alice
  /\ tasks_select bob (auth_users_delete 50 bob own_db) = []
  /\ get_user_role (auth_users_delete 50 bob own_db) bob = None
  /\ roles_of alice (auth_users_delete 50 bob own_db) = roles_of alice own_db.
Proof.
  assert (Hne : alice <> bob) by discriminate.
  destruct (deleted_identity_is_gone 50 bob own_db) as (_ & _ & _ & Hg & Hs & _ & Hy).
  split; [discriminate|]. split; [exact Hs|]. split; [exact Hg|]. exact (Hy alice Hne).
Defined.

(** ** From the form to the store *)

Lemma col_default_nullable {A} (v : option A) : col_default None (nullable v) = v.
Proof.
  destruct v; reflexivity.
Qed.

Lemma priority_check_range n :
  check_passes (priority_check (Some n)) = true <-> 1 <= n <= 5.
Proof.
  unfold priority_check. simpl.
  destruct (Z.leb_spec 1 n), (Z.leb_spec n 5); simpl; split; intro; try lia;
    try reflexivity; try discriminate.
Qed.

(** X13. [createTask] by a signed-in identity is accepted exactly when the
    identity holds the manager role and is registered, the assignee (if
    any) is registered, the priority lies between 1 and 5 and the new id
    is unused; the task it returns then carries the submitted fields, the
    caller as [created_by], and the time of the request as both stamps. *)
Theorem createTask_accepted_iff
    (now1 : timestamptz) (id1 : uuid) (now2 : timestamptz) (id2 uid : uuid)
    (task : TaskData.t) (db : DB) :
  let conds :=
    has_role db uid manager = true
    /\ mem_uuid uid (auth_users db) = true
    /\ references_user db (TaskData.assigned_to task) = true
    /\ has_task_id id1 (tasks db) = false
    /\ 1 <= TaskData.priority task <= 5 in
  let row :=
    Task.mk id1 (TaskData.title task) (TaskData.description task) (TaskData.status task)
            (Some (TaskData.priority task)) uid (TaskData.assigned_to task)
            (TaskData.due_date task) now1 now1 in
  (conds -> outcome (createTask now1 id1 now2 id2 (Some uid) task db) = Ok row)
  /\ (forall data,
        outcome (createTask now1 id1 now2 id2 (Some uid) task db) = Ok data ->
        conds /\ data = row).
Proof.
  intros conds row. split.
  - intros (Hrole & Hmem & Hasg & Hfresh & Hprio).
    unfold createTask, tasks_insert, tasks_insert_check. simpl.
    rewrite !col_default_nullable. rewrite Hrole, String.eqb_refl. simpl.
    assert (Hsel : policy_passes
                     (tasks_select_using uid (Some uid) (TaskData.assigned_to task)) = true).
    { apply tasks_select_using_true. now left. }
    rewrite Hsel. simpl.
    rewrite (proj2 (priority_check_range _) Hprio). simpl.
    rewrite Hfresh. simpl. rewrite Hmem. simpl. rewrite Hasg. simpl.
    destruct (activity_logs_insert _ _ _ _ _); reflexivity.
  - intros data H. unfold createTask in H.
    destruct (tasks_insert now1 id1 uid _ db) as [[r db1]|e] eqn:Hins;
      [|discriminate H].
    assert (Hr : r = data).
    { destruct (activity_logs_insert _ _ _ _ _); simpl in H; congruence. }
    subst r. pose proof (tasks_insert_refs _ _ _ _ _ _ _ Hins) as Href.
    apply tasks_insert_Ok in Hins
      as (Hid & Ht & Hd & Hs & Hp & Hcb & Ha & Hdd & Hca & Hua & Hc & Hrole & Hmem
          & Hfresh & _).
    subst conds row. destruct task as [tt td ts tp ta tdd].
    destruct td, ta, tdd; simpl in *;
      injection Ht as Ht; injection Hs as Hs;
      rewrite Hp in Hc; apply priority_check_range in Hc; rewrite Ha in Href;
      (split; [auto|]); destruct data; simpl in *; congruence.
Qed.

Lemma createTask_accepted_iff_witness :
  (has_role team_db alice manager = true
   /\ mem_uuid alice (auth_users team_db) = true
   /\ references_user team_db (Some carol) = true
   /\ has_task_id "t2" (tasks team_db) = false
   /\ 1 <= 3 <= 5)
  /\ outcome (createTask 20 "t2" 21 "l1" (Some alice)
                (TaskData.mk "Plan" None todo 3 (Some carol) None) team_db)
     = Ok (Task.mk "t2" "Plan" None todo (Some 3) alice (Some carol) None 20 20).
Proof.
  assert (Hc : has_role team_db alice manager = true
               /\ mem_uuid alice (auth_users team_db) = true
               /\ references_user team_db (Some carol) = true
               /\ has_task_id "t2" (tasks team_db) = false
               /\ 1 <= 3 <= 5).
  { repeat split; try reflexivity; lia. }
  split; [exact Hc|].
  exact (proj1 (createTask_accepted_iff 20 "t2" 21 "l1" alice
                  (TaskData.mk "Plan" None todo 3 (Some carol) None) team_db) Hc).
Defined.

Lemma length_zero_empty s : String.length s = 0%nat -> s = "".
Proof.
  destruct s; [reflexivity|discriminate].
Qed.

(** X14. The task form hands its data on exactly when the title has 1 to
    200 characters, the description 1 to 2000 and the priority lies
    between 1 and 5; an empty description is sent as null, which the schema
    does not accept, so a form without description is never submitted.
    The data handed on are the fields of the form. *)
Theorem handleSubmit_accepts_iff (formData : FormData.t) (data : TaskData.t) :
  handleSubmit formData = inr data <->
  (1 <= String.length (FormData.title formData) <= 200)%nat
  /\ (1 <= String.length (FormData.description formData) <= 2000)%nat
  /\ 1 <= FormData.priority formData <= 5
  /\ data = TaskData.mk (FormData.title formData) (Some (FormData.description formData))
              (FormData.status formData) (FormData.priority formData)
              (FormData.assigned_to formData) (FormData.due_date formData).
Proof.
  unfold handleSubmit, taskSchema, title_issues, description_issues, priority_issues.
  simpl.
  destruct (String.eqb_spec (FormData.description formData) "") as [E|Hne].
  - split.
    + destruct (String.length (FormData.title formData) <? 1)%nat,
               (200 <? String.length (FormData.title formData))%nat; simpl; discriminate.
    + intros (_ & Hd & _). rewrite E in Hd. simpl in Hd. lia.
  - assert (Hpos : (1 <= String.length (FormData.description formData))%nat).
    { destruct (String.length (FormData.description formData)) eqn:Hl; [|lia].
      exfalso. apply Hne. now apply length_zero_empty. }
    destruct (Nat.ltb_spec (String.length (FormData.title formData)) 1),
             (Nat.ltb_spec 200 (String.length (FormData.title formData))),
             (Nat.ltb_spec 2000 (String.length (FormData.description formData))),
             (Z.ltb_spec (FormData.priority formData) 1),
             (Z.ltb_spec 5 (FormData.priority formData)); simpl;
      split; intro Hs; try discriminate Hs; try lia;
      try (exfalso; destruct Hs as (? & ? & ? & _); lia).
    + injection Hs as <-. repeat split; lia.
    + destruct Hs as (_ & _ & _ & ->). reflexivity.
Qed.

Lemma handleSubmit_accepts_iff_witness :
  handleSubmit (FormData.mk "Plan" "All of it" todo 3 (Some bob) None)
  = inr (TaskData.mk "Plan" (Some "All of it") todo 3 (Some bob) None)
  /\ (1 <= String.length "Plan" <= 200)%nat
  /\ forall data, handleSubmit (FormData.mk "Plan" "" todo 3 (Some bob) None) <> inr data.
Proof.
  split; [|split].
  - apply (proj2 (handleSubmit_accepts_iff
                    (FormData.mk "Plan" "All of it" todo 3 (Some bob) None) _)).
    simpl. repeat split; lia.
  - simpl. lia.
  - intros data H.
    apply (proj1 (handleSubmit_accepts_iff
                    (FormData.mk "Plan" "" todo 3 (Some bob) None) data)) in H.
    simpl in H. lia.
Defined.

(** ** The dashboard *)

(** X15. The three status counts of the dashboard add up to the number of
    tasks shown: every task is counted once. *)
Theorem status_counts_add_up (tasks : list Task.t) :
  (todoCount tasks + inProgressCount tasks + completedCount tasks)%nat = length tasks.
Proof.
  unfold todoCount, inProgressCount, completedCount, statusCount.
  induction tasks as [|t r IH]; simpl; [reflexivity|].
  destruct (Task.status t); simpl; lia.
Qed.

Lemma insert_desc_perm t l : Permutation (insert_desc t l) (t :: l).
Proof.
  induction l as [|h r IH]; simpl; [apply Permutation_refl|].
  destruct (Task.created_at h <? Task.created_at t); [apply Permutation_refl|].
  apply perm_trans with (h :: t :: r); [now apply perm_skip|apply perm_swap].
Qed.

Lemma order_created_at_desc_perm l : Permutation (order_created_at_desc l) l.
Proof.
  unfold order_created_at_desc. induction l as [|h r IH]; simpl; [constructor|].
  apply perm_trans with (h :: fold_right insert_desc [] r);
    [apply insert_desc_perm|now apply perm_skip].
Qed.

Lemma insert_desc_sorted t l : newest_first l -> newest_first (insert_desc t l).
Proof.
  unfold newest_first. induction l as [|h r IH]; simpl; intro Hs.
  - constructor; constructor.
  - destruct (Z.ltb_spec (Task.created_at h) (Task.created_at t)) as [Hlt|Hge].
    + constructor; [exact Hs|]. constructor. lia.
    + inversion Hs as [|? ? Hr Hh]; subst. constructor; [now apply IH|].
      destruct r as [|h' r']; simpl.
      * constructor. exact Hge.
      * destruct (Task.created_at h' <? Task.created_at t).
        -- constructor. exact Hge.
        -- inversion Hh; subst. now constructor.
Qed.

Lemma order_created_at_desc_sorted l : newest_first (order_created_at_desc l).
Proof.
  unfold order_created_at_desc. induction l as [|h r IH]; simpl.
  - constructor.
  - now apply insert_desc_sorted.
Qed.

(** X16. [fetchTasks] puts in the hook's state exactly the tasks the
    signed-in identity created or is assigned to, each as often as the
    store holds it, newest first; without a user it fetches nothing. *)
Theorem fetchTasks_visible_newest_first (db : DB) :
  fetchTasks None db = None
  /\ forall uid, exists l,
       fetchTasks (Some uid) db = Some l
       /\ Permutation l (tasks_select uid db)
       /\ newest_first l
       /\ forall t, In t l <->
                    In t (tasks db)
                    /\ (uid = Task.created_by t \/ Task.assigned_to t = Some uid).
Proof.
  split; [reflexivity|]. intro uid. eexists. split; [reflexivity|].
  split; [apply order_created_at_desc_perm|].
  split; [apply order_created_at_desc_sorted|].
  intro t. rewrite <- tasks_select_In. split; apply Permutation_in.
  - apply order_created_at_desc_perm.
  - apply Permutation_sym, order_created_at_desc_perm.
Qed.

(** X17. For a signed-in identity the "Assigned to Me" and "Created by Me"
    lists together hold every fetched task and nothing else: a task the
    identity can see is in at least one of the two. *)
Theorem tabs_cover_fetched_tasks (uid : uuid) (db : DB) (l : list Task.t) :
  fetchTasks (Some uid) db = Some l ->
  forall t, In t l <->
            In t (assignedTasks (Some uid) l) \/ In t (createdTasks (Some uid) l).
Proof.
  intros Hf t. simpl in Hf. injection Hf as <-.
  assert (Hin : In t (order_created_at_desc (tasks_select uid db)) ->
                uid = Task.created_by t \/ Task.assigned_to t = Some uid).
  { intro Ht. apply (Permutation_in _ (order_created_at_desc_perm _)) in Ht.
    now apply tasks_select_In in Ht. }
  unfold assignedTasks, createdTasks. rewrite !filter_In. split.
  - intro Ht. destruct (Hin Ht) as [Hc|Ha].
    + right. split; [exact Ht|]. rewrite Hc. apply String.eqb_refl.
    + left. split; [exact Ht|]. rewrite Ha. apply String.eqb_refl.
  - intros [[Ht _]|[Ht _]]; exact Ht.
Qed.

Lemma tabs_cover_fetched_tasks_witness :
  fetchTasks (Some alice) own_db = Some [review; write_spec]
  /\ assignedTasks (Some alice) [review; write_spec] = [review]
  /\ createdTasks (Some alice) [review; write_spec] = [review; write_spec]
  /\ forall t, In t [review; write_spec] <->
               In t (assignedTasks (Some alice) [review; write_spec])
               \/ In t (createdTasks (Some alice) [review; write_spec]).
Proof.
  split; [reflexivity|]. split; [reflexivity|]. split; [reflexivity|].
  exact (tabs_cover_fetched_tasks alice own_db [review; write_spec] eq_refl).
Defined.

(** ** The task card *)

Lemma isAssignee_iff uid t :
  isAssignee (Some uid) t = true <-> Task.assigned_to t = Some uid.
Proof.
  unfold isAssignee. destruct (Task.assigned_to t) as [a|]; [|split; discriminate].
  rewrite String.eqb_eq. split; congruence.
Qed.

(** X18. When the role the card is given is the one the store holds
    ([isManager] agrees with [has_role]), the card offers what the store
    will do: the status items are shown exactly when an update by the user
    addresses the task, "Delete" exactly when [deleteTask] removes it, and
    "Edit" only when an update addresses it.  With nobody signed in the
    card offers nothing. *)
Theorem card_offers_what_store_permits
    (role : option app_role) (uid : uuid) (db : DB) (t : Task.t) :
  isManager role = has_role db uid manager ->
  tasks_pkey db -> In t (tasks db) ->
  (canChangeStatus role (Some uid) t = true <->
   update_target db uid (Task.id t) = Some t)
  /\ (canDelete role (Some uid) t = true <->
      ~ In t (tasks (tasks_delete uid (Task.id t) db)))
  /\ (canEdit role (Some uid) t = true -> update_target db uid (Task.id t) = Some t)
  /\ canChangeStatus role None t = false
  /\ canDelete role None t = false.
Proof.
  intros Hrole Hk Hin.
  assert (Hedit : canEdit role (Some uid) t = true <->
                  has_role db uid manager = true /\ uid = Task.created_by t).
  { unfold canEdit, isCreator. rewrite Hrole, andb_true_iff, String.eqb_eq.
    split; intros [H1 H2]; split; congruence. }
  assert (Hstatus : canChangeStatus role (Some uid) t = true <->
                    update_target db uid (Task.id t) = Some t).
  { rewrite (update_target_by_key db uid t Hk Hin).
    unfold canChangeStatus. rewrite orb_true_iff, isAssignee_iff, Hedit.
    pose proof (can_update_iff db uid t) as Hu.
    destruct (can_update db uid t) eqn:Hcu.
    - assert (Hs : can_select uid t = true).
      { unfold can_select. apply (update_implies_select db). exact Hcu. }
      rewrite Hs. simpl. split; [reflexivity|]. intros _.
      destruct (proj1 Hu eq_refl) as [H|H]; [now right|now left].
    - rewrite andb_false_r. split; [|discriminate].
      intro H. assert (Hf : false = true) by (apply Hu; tauto). discriminate Hf. }
  split; [exact Hstatus|]. split; [|split; [|split]].
  - unfold canDelete. fold (canEdit role (Some uid) t). rewrite Hedit.
    rewrite <- can_delete_iff. unfold tasks_delete. simpl. rewrite filter_In.
    rewrite String.eqb_refl. simpl. split.
    + intros Hd [_ Hkeep]. assert (Hs : can_select uid t = true).
      { apply can_select_iff. left. now apply can_delete_iff in Hd. }
      rewrite Hs, Hd in Hkeep. discriminate.
    + intro Hgone. destruct (can_delete db uid t) eqn:Hd; [reflexivity|].
      exfalso. apply Hgone. split; [exact Hin|]. now rewrite andb_false_r.
  - intro He. apply Hstatus. unfold canChangeStatus. rewrite He. apply orb_true_r.
  - unfold canChangeStatus, canEdit, isAssignee, isCreator. simpl.
    apply andb_false_r.
  - unfold canDelete, isCreator. apply andb_false_r.
Qed.

Lemma card_offers_what_store_permits_witness :
  isManager (Some user) = has_role team_db bob manager
  /\ tasks_pkey team_db /\ In write_spec (tasks team_db)
  /\ canChangeStatus (Some user) (Some bob) write_spec = true
  /\ update_target team_db bob "t1" = Some write_spec
  /\ canDelete (Some user) (Some bob) write_spec = false.
Proof.
  assert (Hk : tasks_pkey team_db).
  { unfold tasks_pkey. simpl. constructor; [intros []|constructor]. }
  assert (Hin : In write_spec (tasks team_db)) by (simpl; left; reflexivity).
  destruct (card_offers_what_store_permits (Some user) bob team_db write_spec
              eq_refl Hk Hin) as (Hs & _).
  split; [reflexivity|]. split; [exact Hk|]. split; [exact Hin|].
  split; [reflexivity|]. split; [|reflexivity].
  apply Hs. reflexivity.
Defined.

(** X19. The status items of the card, when it may change the status:
    from [todo] it offers [in_progress] and [completed], from
    [in_progress] only [completed], from [completed] only [todo]; it never
    offers the status the task has, and offers nothing when the user may
    not change the status. *)
Theorem status_menu_items
    (role : option app_role) (session : option uuid) (t : Task.t) (s : task_status) :
  In s (status_menu role session t) <->
  canChangeStatus role session t = true
  /\ ((Task.status t = todo /\ (s = in_progress \/ s = completed))
      \/ (Task.status t = in_progress /\ s = completed)
      \/ (Task.status t = completed /\ s = todo)).
Proof.
  unfold status_menu.
  destruct (canChangeStatus role session t), (Task.status t), s; simpl;
    intuition discriminate.
Qed.

(** X20. The priority badge has a label exactly for the priorities 1 to 5;
    so it has one for every stored task whose priority is not null, and
    for every task [createTask] returns. *)
Theorem priority_badge_defined :
  (forall n, priorityConfig n <> None <-> 1 <= n <= 5)
  /\ (forall db t n, store_ok db -> In t (tasks db) -> Task.priority t = Some n ->
                     priorityConfig n <> None)
  /\ (forall now1 id1 now2 id2 session task db data,
        outcome (createTask now1 id1 now2 id2 session task db) = Ok data ->
        exists n, Task.priority data = Some n /\ priorityConfig n <> None).
Proof.
  assert (Hcfg : forall n, priorityConfig n <> None <-> 1 <= n <= 5).
  { intro n. destruct n as [|p|p]; simpl.
    - split; [congruence|lia].
    - destruct p as [[q|q|]|[q|q|]|]; simpl;
        try (destruct q; simpl); split; intro H; try lia; try congruence;
        try discriminate.
    - split; [congruence|lia]. }
  split; [exact Hcfg|]. split.
  - intros db t n (_ & Ht & _) Hin Hp. destruct (Ht t Hin) as (_ & _ & Ha).
    apply Hcfg. rewrite Hp in Ha. destruct Ha as [Ha|(m & Hm & Hr)]; [discriminate|].
    now injection Hm as ->.
  - intros now1 id1 now2 id2 session task db data H.
    destruct session as [uid|]; [|discriminate H]. unfold createTask in H.
    destruct (tasks_insert now1 id1 uid _ db) as [[r db1]|e] eqn:Hins;
      [|discriminate H].
    assert (Hr : r = data).
    { destruct (activity_logs_insert _ _ _ _ _); simpl in H; congruence. }
    subst r.
    apply tasks_insert_Ok in Hins as (_ & _ & _ & _ & Hp & _ & _ & _ & _ & _ & Hc & _).
    simpl in Hp. exists (TaskData.priority task). split; [exact Hp|].
    apply Hcfg. rewrite Hp in Hc. now apply priority_check_range.
Qed.

Lemma priority_badge_defined_witness :
  store_ok empty_db
  /\ (exists data,
        outcome (createTask 20 "t2" 21 "l1" (Some alice)
                   (TaskData.mk "Plan" None todo 3 (Some carol) None) team_db) = Ok data
        /\ exists n, Task.priority data = Some n /\ priorityConfig n <> None)
  /\ priorityConfig 0 = None.
Proof.
  split; [exact empty_db_ok|]. split; [|reflexivity].
  eexists. split; [reflexivity|].
  exact (proj2 (proj2 priority_badge_defined) 20 "t2" 21 "l1" (Some alice)
           (TaskData.mk "Plan" None todo 3 (Some carol) None) team_db _ eq_refl).
Defined.

(** ** Profiles *)

Lemma find_app_last {A} (f : A -> bool) (l : list A) (a : A) :
  (forall b, In b l -> f b = false) -> f a = true -> find f (l ++ [a]) = Some a.
Proof.
  induction l as [|h r IH]; simpl; intros Hno Ha.
  - now rewrite Ha.
  - rewrite (Hno h (or_introl eq_refl)). apply IH; [|exact Ha].
    intros b Hb. apply Hno. now right.
Qed.

(** X21. [getProfileById] answers null for a null or empty id and for an
    id no profile has; an answer is a fetched profile with that id.  After
    an identity with a non-empty id has registered, looking it up among
    the fetched profiles gives the profile the trigger wrote: the e-mail of
    the identity and the full name of the metadata, or the empty text. *)
Theorem getProfileById_finds_registered :
  (forall ps, getProfileById ps None = None /\ getProfileById ps (Some "") = None)
  /\ (forall ps x p, getProfileById ps (Some x) = Some p ->
                     In p ps /\ Profile.id p = x)
  /\ (forall ps x, getProfileById ps (Some x) = None ->
                   x = "" \/ forall p, In p ps -> Profile.id p <> x)
  /\ (forall now rid NEW db db',
        references_ok db ->
        AuthUser.id NEW <> "" ->
        auth_users_insert now rid NEW db = Ok db' ->
        getProfileById (profiles_select db') (Some (AuthUser.id NEW))
        = Some (Profile.mk (AuthUser.id NEW) (AuthUser.email NEW)
                  (Some (match AuthUser.meta_full_name NEW with
                         | Some n => n | None => "" end))
                  None now now)).
Proof.
  split; [intro ps; split; reflexivity|]. split; [|split].
  - intros ps x p H. unfold getProfileById in H.
    destruct (String.eqb x ""); [discriminate H|].
    apply find_some in H as [Hin Hid]. apply String.eqb_eq in Hid. auto.
  - intros ps x H. unfold getProfileById in H.
    destruct (String.eqb_spec x "") as [E|_]; [now left|right].
    intros p Hin E. apply (find_none _ _ H) in Hin. apply String.eqb_neq in Hin.
    contradiction.
  - intros now rid NEW db db' Hrefs Hne H.
    pose proof (auth_users_insert_Ok _ _ _ _ _ H) as (p0 & r0 & _ & _ & Hnew & _).
    destruct (unregistered_has_no_rows db _ Hrefs Hnew) as [Hp _].
    unfold auth_users_insert, handle_new_user in H.
    repeat step_bind H.
    destruct (match AuthUser.meta_role NEW with
              | Some s => not_null "role" (app_role_of_text s)
              | None => Ok user
              end) as [role|e]; simpl in H; [|discriminate H].
    repeat step_bind H. injection H as <-.
    unfold getProfileById, profiles_select. simpl.
    apply String.eqb_neq in Hne. rewrite Hne.
    rewrite filter_all by reflexivity.
    apply find_app_last; [exact Hp|apply String.eqb_refl].
Qed.

Lemma getProfileById_finds_registered_witness :
  references_ok team_db /\ dave <> ""
  /\ exists db',
       auth_users_insert 40 "r4" (dave_signs_up None) team_db = Ok db'
       /\ getProfileById (profiles_select db') (Some dave)
          = Some (Profile.mk dave "dave@example.org" (Some "Dave") None 40 40).
Proof.
  assert (Hrefs : references_ok team_db).
  { split; intros x Hin; simpl in Hin;
      repeat (destruct Hin as [<-|Hin]; [reflexivity|]); contradiction. }
  assert (Hne : dave <> "") by discriminate.
  split; [exact Hrefs|]. split; [exact Hne|].
  eexists. split; [reflexivity|].
  exact (proj2 (proj2 (proj2 getProfileById_finds_registered)) 40 "r4"
           (dave_signs_up None) team_db _ Hrefs Hne eq_refl).
Defined.

(** ** What the hook leaves alone *)

Lemma activity_logs_insert_Ok now new_id uid p db db' :
  activity_logs_insert now new_id uid p db = Ok db' ->
  db' = set_activity_logs
          (activity_logs db
           ++ [ActivityLog.mk new_id (LogInsert.task_id p) (Some (LogInsert.user_id p))
                 (LogInsert.action p) (LogInsert.old_value p) (LogInsert.new_value p) now])
          db.
Proof.
  unfold activity_logs_insert. intro H. repeat step_bind H. now injection H as <-.
Qed.

(** X22. The hook only ever appends to the activity log and never touches
    identities, profiles or roles: every store committed by [createTask]
    or [updateTask] has the same identities, profiles and roles as before
    and the old log rows, in order, followed by at most one new row; a
    call commits at most twice, and a failed call commits nothing. *)
Theorem hook_appends_to_log_only :
  forall (c : call Task.t) (db : DB),
    (exists now1 id1 now2 id2 session task,
        c = createTask now1 id1 now2 id2 session task db)
    \/ (exists now1 now2 id2 session cache id updates,
          c = updateTask now1 now2 id2 session cache id updates db) ->
    (length (commits c) <= 2)%nat
    /\ ((exists e, outcome c = Err e) -> commits c = [])
    /\ forall d, In d (commits c) ->
         auth_users d = auth_users db
         /\ profiles d = profiles db
         /\ user_roles d = user_roles db
         /\ exists extra, activity_logs d = (activity_logs db ++ extra)%list
                          /\ (length extra <= 1)%nat.
Proof.
  assert (Hshape : forall (data : Task.t) (db db1 : DB) (r : result DB),
    auth_users db1 = auth_users db -> profiles db1 = profiles db ->
    user_roles db1 = user_roles db -> activity_logs db1 = activity_logs db ->
    (forall db2, r = Ok db2 -> exists row,
        db2 = set_activity_logs (activity_logs db1 ++ [row]) db1) ->
    let c := match r with
             | Ok db2 => mkCall (Ok data) [db1; db2]
             | Err _ => mkCall (Ok data) [db1]
             end in
    (length (commits c) <= 2)%nat
    /\ ((exists e, outcome c = Err e) -> commits c = [])
    /\ forall d, In d (commits c) ->
         auth_users d = auth_users db /\ profiles d = profiles db
         /\ user_roles d = user_roles db
         /\ exists extra, activity_logs d = (activity_logs db ++ extra)%list
                          /\ (length extra <= 1)%nat).
  { intros data db db1 r Ha Hp Hr Hl Hlog c.
    assert (Hfirst : auth_users db1 = auth_users db /\ profiles db1 = profiles db
                     /\ user_roles db1 = user_roles db
                     /\ exists extra, activity_logs db1 = (activity_logs db ++ extra)%list
                                      /\ (length extra <= 1)%nat).
    { repeat split; try assumption. exists []. rewrite app_nil_r. split; [exact Hl|simpl; lia]. }
    subst c. destruct r as [db2|e]; simpl.
    - split; [lia|]. split; [intros [e He]; discriminate He|].
      intros d [<-|[<-|[]]]; [exact Hfirst|].
      destruct (Hlog db2 eq_refl) as (row & ->). simpl.
      repeat split; try assumption. exists [row]. rewrite Hl. split; [reflexivity|simpl; lia].
    - split; [lia|]. split; [intros [e' He]; discriminate He|].
      intros d [<-|[]]. exact Hfirst. }
  assert (Hfail : forall e : error,
    (length (commits (mkCall (A:=Task.t) (Err e) [])) <= 2)%nat
    /\ ((exists e', outcome (mkCall (A:=Task.t) (Err e) []) = Err e') ->
        commits (mkCall (A:=Task.t) (Err e) []) = [])
    /\ forall d, In d (commits (mkCall (A:=Task.t) (Err e) [])) ->
         forall db : DB,
         auth_users d = auth_users db /\ profiles d = profiles db
         /\ user_roles d = user_roles db
         /\ exists extra, activity_logs d = (activity_logs db ++ extra)%list
                          /\ (length extra <= 1)%nat).
  { intro e. simpl. split; [lia|]. split; [reflexivity|]. intros d []. }
  intros c db [(now1 & id1 & now2 & id2 & session & task & ->)
              |(now1 & now2 & id2 & session & cache & id & updates & ->)].
  - unfold createTask. destruct session as [uid|].
    + destruct (tasks_insert now1 id1 uid _ db) as [[data db1]|e] eqn:Hins.
      * apply tasks_insert_Ok in Hins
          as (_ & _ & _ & _ & _ & _ & _ & _ & _ & _ & _ & _ & _ & _ & ->).
        apply Hshape; try reflexivity.
        intros db2 H. apply activity_logs_insert_Ok in H. eexists. exact H.
      * destruct (Hfail e) as (H1 & H2 & H3). split; [exact H1|]. split; [exact H2|].
        intros d Hd. exact (H3 d Hd db).
    + destruct (Hfail NotAuthenticated) as (H1 & H2 & H3).
      split; [exact H1|]. split; [exact H2|]. intros d Hd. exact (H3 d Hd db).
  - unfold updateTask. destruct session as [uid|].
    + destruct (tasks_update now1 uid id updates db) as [[data db1]|e] eqn:Hupd.
      * apply tasks_update_Ok in Hupd as (old & _ & Hrest).
        assert (Hdb : db1 = set_tasks (replace_task (Task.id old) data (tasks db)) db)
          by (decompose [and] Hrest; assumption).
        subst db1. apply Hshape; try reflexivity.
        intros db2 H. apply activity_logs_insert_Ok in H. eexists. exact H.
      * destruct (Hfail e) as (H1 & H2 & H3). split; [exact H1|]. split; [exact H2|].
        intros d Hd. exact (H3 d Hd db).
    + destruct (Hfail NotAuthenticated) as (H1 & H2 & H3).
      split; [exact H1|]. split; [exact H2|]. intros d Hd. exact (H3 d Hd db).
Qed.

Lemma hook_appends_to_log_only_witness :
  (length (commits (updateTaskStatus 20%Z 21%Z "l1" (Some bob) [write_spec] "t1"
                      completed own_db)) <= 2)%nat
  /\ forall d,
       In d (commits (updateTaskStatus 20 21 "l1" (Some bob) [write_spec] "t1"
                        completed own_db)) ->
       auth_users d = auth_users own_db
       /\ profiles d = profiles own_db
       /\ user_roles d = user_roles own_db
       /\ exists extra, activity_logs d = (activity_logs own_db ++ extra)%list
                        /\ (length extra <= 1)%nat.
Proof.
  destruct (hook_appends_to_log_only
              (updateTaskStatus 20 21 "l1" (Some bob) [write_spec] "t1" completed own_db)
              own_db) as (H1 & _ & H3).
  - right. exists 20%Z, 21%Z, "l1", (Some bob), [write_spec], "t1",
      (TaskUpdate.mk Absent Absent Absent (Val completed) Absent Absent Absent
         Absent Absent Absent). reflexivity.
  - split; [exact H1|exact H3].
Defined.

(** ** Field errors *)

Lemma set_field_fields_inv k v o k' :
  In k' (fields (set_field k v o)) -> k' = k \/ In k' (fields o).
Proof.
  unfold fields. induction o as [|[k0 v0] r IH]; simpl.
  - intros [H|[]]; auto.
  - destruct (String.eqb_spec k0 k) as [->|Hne]; simpl.
    + intros [H|H]; auto.
    + intros [H|H]; [auto|]. destruct (IH H); auto.
Qed.

Lemma fieldErrors_fields_iff k issues :
  In k (fields (fieldErrors issues)) <-> In k (fields issues).
Proof.
  split; [|apply fieldErrors_fields].
  unfold fieldErrors.
  assert (H : forall acc,
             In k (fields (fold_left (fun o e => set_field (fst e) (snd e) o) issues acc)) ->
             In k (fields acc) \/ In k (fields issues)).
  { induction issues as [|[k0 v0] r IH]; simpl; intros acc Hin; [now left|].
    destruct (IH _ Hin) as [Ha|Hr]; [|right; now right].
    apply set_field_fields_inv in Ha as [->|Ha]; [right; now left|now left]. }
  intro Hin. destruct (H [] Hin) as [[]|Hi]. exact Hi.
Qed.



(** X24. The sign-up form calls [signUp] exactly when the e-mail passes
    the e-mail test, the password has at least 6 characters and the name
    at least 2, and then with the four fields as entered; otherwise the
    errors it shows name exactly the failing fields. *)
Theorem handleSignup_validates (is_email : string -> bool) (d : SignupData.t) :
  (forall args,
      handleSignup is_email d = inr args <->
      is_email (SignupData.email d) = true
      /\ (6 <= String.length (SignupData.password d))%nat
      /\ (2 <= String.length (SignupData.fullName d))%nat
      /\ args = (SignupData.email d, SignupData.password d, SignupData.fullName d,
                 SignupData.role d))
  /\ (forall errors,
        handleSignup is_email d = inl errors ->
        (In "email" (fields errors) <-> is_email (SignupData.email d) = false)
        /\ (In "password" (fields errors) <->
            (String.length (SignupData.password d) < 6)%nat)
        /\ (In "fullName" (fields errors) <->
            (String.length (SignupData.fullName d) < 2)%nat)).
Proof.
  split.
  - intro args. unfold handleSignup, signupSchema, authSchema.
    destruct (is_email (SignupData.email d)),
             (Nat.ltb_spec (String.length (SignupData.password d)) 6),
             (Nat.ltb_spec (String.length (SignupData.fullName d)) 2); simpl;
      split; intro Hs; try discriminate Hs;
      try (exfalso; destruct Hs as (? & ? & ? & _); (discriminate || lia)).
    + injection Hs as <-. repeat split; lia.
    + destruct Hs as (_ & _ & _ & ->). reflexivity.
  - intros errors H. unfold handleSignup in H.
    destruct (signupSchema is_email d) as [|i r] eqn:Hs; [discriminate H|].
    injection H as <-. rewrite <- Hs. clear i r Hs.
    rewrite !fieldErrors_fields_iff.
    unfold signupSchema, authSchema, fields. rewrite !map_app, !in_app_iff.
    destruct (is_email (SignupData.email d)),
             (Nat.ltb_spec (String.length (SignupData.password d)) 6),
             (Nat.ltb_spec (String.length (SignupData.fullName d)) 2); simpl;
      intuition (try discriminate; try lia).
Qed.

Lemma handleSignup_validates_witness :
  handleSignup has_at (SignupData.mk "dave@example.org" "secret1" "Dave" user)
  = inr ("dave@example.org", "secret1", "Dave", user)
  /\ exists errors,
       handleSignup has_at (SignupData.mk "dave" "secret1" "D" user) = inl errors
       /\ (In "password" (fields errors) <-> (String.length "secret1" < 6)%nat)
       /\ (In "fullName" (fields errors) <-> (String.length "D" < 2)%nat).
Proof.
  split.
  - apply (proj1 (handleSignup_validates has_at
                    (SignupData.mk "dave@example.org" "secret1" "Dave" user)) _).
    simpl. repeat split; lia.
  - eexists. split; [reflexivity|].
    destruct (proj2 (handleSignup_validates has_at
                       (SignupData.mk "dave" "secret1" "D" user)) _ eq_refl)
      as (_ & Hp & Hn).
    split; [exact Hp|exact Hn].
Defined.

(** ** Status changes *)

Lemma priority_admitted_check p :
  priority_admitted p -> check_passes (priority_check p) = true.
Proof.
  intros [->|(n & -> & Hr)]; [reflexivity|]. now apply priority_check_range.
Qed.

(** X25. On a store with its integrity, a status change by an identity the
    update rule covers (the manager who created the task, or its assignee)
    is always accepted, from any status to any status: [updateTaskStatus]
    returns the task with the new status and the time of the request as
    [updated_at], every other column as it was. *)
Theorem status_change_always_accepted
    (now1 now2 : timestamptz) (id2 uid : uuid) (cache : list Task.t)
    (status : task_status) (db : DB) (t : Task.t) :
  store_ok db -> In t (tasks db) ->
  update_rule db uid (Some (Task.created_by t)) (Task.assigned_to t) ->
  outcome (updateTaskStatus now1 now2 id2 (Some uid) cache (Task.id t) status db)
  = Ok (with_status status now1 t).
Proof.
  intros (Hk & Ht & _) Hin Hrule.
  destruct (Ht t Hin) as (Hcb & Hasg & Hprio).
  assert (Hu : policy_passes
                 (tasks_update_using db uid (Some (Task.created_by t)) (Task.assigned_to t))
               = true) by (now apply tasks_update_using_true).
  assert (Hs : policy_passes
                 (tasks_select_using uid (Some (Task.created_by t)) (Task.assigned_to t))
               = true) by (now apply (update_implies_select db)).
  unfold updateTaskStatus, updateTask, tasks_update.
  rewrite (update_target_by_key db uid t Hk Hin).
  unfold can_select, can_update. rewrite Hs, Hu. simpl.
  rewrite Hu, Hs. simpl.
  rewrite (priority_admitted_check _ Hprio). simpl.
  rewrite String.eqb_refl. simpl. rewrite Hcb. simpl. rewrite Hasg. simpl.
  unfold with_status.
  destruct (activity_logs_insert _ _ _ _ _); reflexivity.
Qed.

Lemma status_change_always_accepted_witness :
  update_rule team_db bob (Some (Task.created_by write_spec)) (Task.assigned_to write_spec)
  /\ outcome (updateTaskStatus 20 21 "l1" (Some bob) [] "t1" completed team_db)
     = Ok (with_status completed 20 write_spec).
Proof.
  assert (Hok : store_ok team_db).
  { split; [unfold tasks_pkey; simpl; constructor; [intros []|constructor]|].
    split; [intros t [<-|[]]; repeat split; right; exists 3; split; [reflexivity|lia]|].
    split; [intros l []|].
    split; intros x Hin; simpl in Hin;
      repeat (destruct Hin as [<-|Hin]; [reflexivity|]); contradiction. }
  assert (Hin : In write_spec (tasks team_db)) by (simpl; left; reflexivity).
  assert (Hrule : update_rule team_db bob (Some (Task.created_by write_spec))
                    (Task.assigned_to write_spec)) by (right; reflexivity).
  split; [exact Hrule|].
  exact (status_change_always_accepted 20 21 "l1" bob [] completed team_db write_spec
           Hok Hin Hrule).
Defined.
